(** * ad: the AllNet forwarding daemon (src/ad.c)

    A shallow embedding of [process_mgmt], [process_packet], [send_all],
    the body of [main_loop] and [main], the properties of the dispatcher
    that the specification states, and further properties of the code.

    The daemon is a C program that mutates a packet buffer in place, keeps
    a static timestamp, reads the wall clock and calls into library modules
    (lib/util, lib/priority, social, lib/pipemsg) whose sources are not part
    of src/.  The embedding therefore is monadic: a computation takes the
    daemon's [world] and either finishes with a value and a new world, makes
    the process exit, or runs into behaviour ISO C leaves undefined. *)

From Stdlib Require Import ZArith Lia Bool List.
From Stdlib Require Import Strings.Byte.
From Stdlib Require Strings.String Strings.Ascii.
From stdpp Require Import base list.
Import ListNotations.

Local Open Scope Z_scope.

(** ** Bytes and C integers *)

(** The value of an [unsigned char]. *)
Definition uchar (b : byte) : Z := Z.of_N (Byte.to_N b).

(** The value of a plain [char] promoted to [int]; [char] is signed on the
    platforms the daemon was written for. *)
Definition schar (b : byte) : Z :=
  if uchar b <? 128 then uchar b else uchar b - 256.

(** Storing an [int] into an [unsigned char] keeps it modulo 256. *)
Definition to_uchar (v : Z) : byte :=
  match Byte.of_N (Z.to_N (v mod 256)) with
  | Some b => b
  | None => x00
  end.

Definition INT_MAX : Z := 2147483647.
Definition SIZE_MAX : Z := 18446744073709551615.

(** Conversion of an [int] to [size_t] (LP64). *)
Definition size_t (v : Z) : Z := v mod (SIZE_MAX + 1).

(** [a << n] on [int]: undefined (None) when [a] is negative, when the
    count is negative or at least the width of [int], or when the result
    is not representable (C99 6.5.7). *)
Definition int_shl (a n : Z) : option Z :=
  if (0 <=? a) && (0 <=? n) && (n <? 32) && (Z.shiftl a n <=? INT_MAX)
  then Some (Z.shiftl a n) else None.

(** Line 125 of ad.c,
    [(packet [size - 2] & 0xff) << 8 + (packet [size - 1] & 0xff)]:
    in C [+] binds tighter than [<<], so the first byte is shifted by 8
    plus the second byte. *)
Definition sig_size_of (hi lo : Z) : option Z :=
  int_shl (Z.land hi 255) (8 + Z.land lo 255).

(** The length the specification describes (section 3 and the design
    notes): the last two bytes as a big-endian number, [(hi << 8) | lo]. *)
Definition big_endian_16 (hi lo : Z) : Z :=
  Z.lor (Z.shiftl (Z.land hi 255) 8) (Z.land lo 255).

(** ** The packet header *)

(** Modelled from the spec: packet.h's [struct allnet_header], which is not
    in src/; the fields, their order and their widths are those of the
    table of section 3 of the specification. *)
Inductive header_field :=
| f_version | f_message_type | f_hops | f_max_hops
| f_src_nbits | f_dst_nbits | f_sig_algo | f_transport
| f_source | f_destination.

Definition offsetof (f : header_field) : Z :=
  match f with
  | f_version => 0 | f_message_type => 1 | f_hops => 2 | f_max_hops => 3
  | f_src_nbits => 4 | f_dst_nbits => 5 | f_sig_algo => 6 | f_transport => 7
  | f_source => 8 | f_destination => 16
  end.

(** Modelled from the spec: packet.h's ALLNET_HEADER_SIZE, the size of the
    fixed header of section 3 (eight one-byte fields and two eight-byte
    addresses). *)
Definition ALLNET_HEADER_SIZE : Z := 24.

(** Modelled from the spec: mgmt.h's [sizeof (struct allnet_mgmt_header)];
    the management sub-header is the single byte [mgmt_type]. *)
Definition sizeof_allnet_mgmt_header : Z := 1.

Definition PROCESS_PACKET_DROP : Z := 1.
Definition PROCESS_PACKET_LOCAL : Z := 2.
Definition PROCESS_PACKET_ALL : Z := 3.

(** The byte at offset [off] of a buffer, if the offset is inside it. *)
Definition byte_at (buf : list byte) (off : Z) : option byte :=
  if off <? 0 then None else buf !! Z.to_nat off.

(** The value of a header field of one byte, for use in statements. *)
Definition field (f : header_field) (buf : list byte) : Z :=
  match byte_at buf (offsetof f) with
  | Some b => uchar b
  | None => 0
  end.

(** [buf] with the byte at offset [off] replaced. *)
Definition poke (buf : list byte) (off : Z) (b : byte) : list byte :=
  <[Z.to_nat off := b]> buf.

(** ** The library the daemon is linked against

    These constants, macros and functions are declared in headers that
    src/ does not hold (packet.h, mgmt.h, social.h, lib/priority.h,
    lib/util.h); they are the parameters of the development.  A pointer
    into the packet is passed as the buffer and an offset.  A function
    that keeps state of its own (the duplicate filter, the rate tables,
    the social table) takes and returns [lib_state]. *)
Class Library := {
  lib_state : Type;
  (* packet.h *)
  ALLNET_TYPE_MGMT : Z;
  ALLNET_SIGTYPE_NONE : Z;
  ALLNET_AFTER_HEADER : Z -> Z -> Z;
  (* mgmt.h *)
  ALLNET_MGMT_BEACON : Z;
  ALLNET_MGMT_BEACON_REPLY : Z;
  ALLNET_MGMT_BEACON_GRANT : Z;
  ALLNET_MGMT_PEER_REQUEST : Z;
  ALLNET_MGMT_PEERS : Z;
  ALLNET_MGMT_DHT : Z;
  ALLNET_MGMT_TRACE_REQ : Z;
  ALLNET_MGMT_TRACE_REPLY : Z;
  (* lib/priority.h *)
  EPSILON : Z;
  UNKNOWN_SOCIAL_TIER : Z;
  compute_priority : bool -> Z -> Z -> Z -> Z -> Z -> Z -> Z -> Z;
  largest_rate : lib_state -> Z * lib_state;
  track_rate : list byte -> Z -> Z -> Z -> lib_state -> Z * lib_state;
  (* lib/util.h *)
  is_valid_message : list byte -> Z -> bool;
  record_packet_time : list byte -> Z -> Z -> Z -> lib_state -> Z * lib_state;
  (* social.h: the result is (social distance, valid) *)
  social_connection :
    list byte -> Z -> Z -> Z -> Z -> Z -> Z -> Z -> lib_state ->
    (Z * Z) * lib_state;
  update_social : Z -> lib_state -> Z * lib_state;
}.

(** What the development assumes of the library. *)
Class LibraryOk (L : Library) : Prop := {
  (** the labels of the [switch] of [process_mgmt] are distinct, or the
      file would not compile *)
  mgmt_labels_distinct :
    NoDup [ALLNET_MGMT_BEACON; ALLNET_MGMT_BEACON_REPLY;
           ALLNET_MGMT_BEACON_GRANT; ALLNET_MGMT_PEER_REQUEST;
           ALLNET_MGMT_PEERS; ALLNET_MGMT_DHT;
           ALLNET_MGMT_TRACE_REQ; ALLNET_MGMT_TRACE_REPLY];
  (** Modelled from the spec: lib/util's [is_valid_message] is not in
      src/; section 4.2 has it accept only a buffer that holds at least
      the fixed header. *)
  valid_has_header :
    forall buf size, is_valid_message buf size = true ->
                     ALLNET_HEADER_SIZE <= size;
}.

Section Daemon.

Context {L : Library}.

(** ** The daemon's world *)

(** The accesses to the packet buffer that the daemon's own code makes,
    named after the C lvalue. *)
Inductive access :=
| Read_header (f : header_field)    (* hp->f, ah->f *)
| Write_header (f : header_field)   (* ah->f = ... *)
| Read_mgmt_type (hs : Z)           (* ahm->mgmt_type, ahm = message + hs *)
| Read_char (i : Z).                (* packet [i] *)

Record world := mk_world {
  trace_received : Z;      (* the static of process_mgmt *)
  now : Z;                 (* the wall clock, in seconds: time (NULL) *)
  packet : list byte;      (* the buffer receive_pipe_message_any filled *)
  priority : Z;            (* main_loop's local, passed by address *)
  next_update : Z;         (* main_loop's local *)
  lib : lib_state;         (* what the library modules keep *)
  touched : list access;   (* accesses to the buffer, the latest first *)
}.

Inductive outcome (A : Type) :=
| Done (a : A) (w : world)
| Exit (status : Z)
| Undefined.

Arguments Done {A} a w.
Arguments Exit {A} status.
Arguments Undefined {A}.

Definition M (A : Type) : Type := world -> outcome A.

Definition ret {A} (a : A) : M A := fun w => Done a w.

Definition bind {A B} (m : M A) (k : A -> M B) : M B :=
  fun w => match m w with
           | Done a w' => k a w'
           | Exit s => Exit s
           | Undefined => Undefined
           end.

Notation "x <- m ;; k" := (bind m (fun x => k))
  (at level 100, m at next level, right associativity).
Notation "m ;; k" := (bind m (fun _ => k))
  (at level 100, right associativity).

Definition exit {A} (status : Z) : M A := fun _ => Exit status.

Definition with_trace_received (v : Z) (w : world) : world :=
  mk_world v (now w) (packet w) (priority w) (next_update w) (lib w)
           (touched w).

Definition with_now (v : Z) (w : world) : world :=
  mk_world (trace_received w) v (packet w) (priority w) (next_update w)
           (lib w) (touched w).

Definition with_packet (v : list byte) (w : world) : world :=
  mk_world (trace_received w) (now w) v (priority w) (next_update w) (lib w)
           (touched w).

Definition with_priority (v : Z) (w : world) : world :=
  mk_world (trace_received w) (now w) (packet w) v (next_update w) (lib w)
           (touched w).

Definition with_next_update (v : Z) (w : world) : world :=
  mk_world (trace_received w) (now w) (packet w) (priority w) v (lib w)
           (touched w).

Definition with_lib (v : lib_state) (w : world) : world :=
  mk_world (trace_received w) (now w) (packet w) (priority w)
           (next_update w) v (touched w).

Definition touch (a : access) (w : world) : world :=
  mk_world (trace_received w) (now w) (packet w) (priority w)
           (next_update w) (lib w) (a :: touched w).

(** Reading one byte of the buffer; outside the buffer the read is
    undefined. *)
Definition load (a : access) (off : Z) (val : byte -> Z) : M Z :=
  fun w => match byte_at (packet w) off with
           | Some b => Done (val b) (touch a w)
           | None => Undefined
           end.

Definition load_field (f : header_field) : M Z :=
  load (Read_header f) (offsetof f) uchar.

Definition load_mgmt_type (hs : Z) : M Z :=
  load (Read_mgmt_type hs) hs uchar.

Definition load_char (i : Z) : M Z :=
  load (Read_char i) i schar.

Definition store_field (f : header_field) (v : Z) : M unit :=
  fun w => match byte_at (packet w) (offsetof f) with
           | Some _ =>
               Done tt (with_packet (poke (packet w) (offsetof f) (to_uchar v))
                                    (touch (Write_header f) w))
           | None => Undefined
           end.

(** [time (NULL)]: the clock is read from the world; it is set when a
    message arrives and does not advance within one turn of the loop. *)
Definition time_NULL : M Z := fun w => Done (now w) w.

Definition get_trace_received : M Z := fun w => Done (trace_received w) w.

Definition set_trace_received (v : Z) : M unit :=
  fun w => Done tt (with_trace_received v w).

Definition get_priority : M Z := fun w => Done (priority w) w.

Definition set_priority (v : Z) : M unit :=
  fun w => Done tt (with_priority v w).

Definition get_next_update : M Z := fun w => Done (next_update w) w.

Definition set_next_update (v : Z) : M unit :=
  fun w => Done tt (with_next_update v w).

(** A call into the library, handed the buffer. *)
Definition call {A} (f : list byte -> lib_state -> A * lib_state) : M A :=
  fun w => let (a, l) := f (packet w) (lib w) in Done a (with_lib l w).

(** The value of an expression that ISO C may leave undefined. *)
Definition defined {A} (v : option A) : M A :=
  fun w => match v with
           | Some a => Done a w
           | None => Undefined
           end.

(** [packet + off]: a pointer to a byte of the buffer or just past its
    last byte; forming any other pointer is undefined (C99 6.5.6p8). *)
Definition pointer (off : Z) : M Z :=
  fun w => if (0 <=? off) && (off <=? Z.of_nat (length (packet w)))
           then Done off w else Undefined.

(** ** process_mgmt (ad.c, lines 20-71) *)

Definition process_mgmt (msize : Z) (is_local : bool) : M Z :=
  (if negb is_local then set_priority EPSILON else ret tt) ;;
  transport <- load_field f_transport ;;
  let hs := ALLNET_AFTER_HEADER transport msize in
  if size_t msize <? size_t (size_t hs + sizeof_allnet_mgmt_header) then
    ret PROCESS_PACKET_DROP
  else
    mgmt_type <- load_mgmt_type hs ;;
    if (mgmt_type =? ALLNET_MGMT_BEACON)
       || (mgmt_type =? ALLNET_MGMT_BEACON_REPLY)
       || (mgmt_type =? ALLNET_MGMT_BEACON_GRANT) then
      ret PROCESS_PACKET_DROP
    else if (mgmt_type =? ALLNET_MGMT_PEER_REQUEST)
            || (mgmt_type =? ALLNET_MGMT_PEERS)
            || (mgmt_type =? ALLNET_MGMT_DHT) then
      ret PROCESS_PACKET_LOCAL
    else if mgmt_type =? ALLNET_MGMT_TRACE_REQ then
      if is_local then
        set_trace_received 0 ;;
        ret PROCESS_PACKET_ALL
      else
        last <- get_trace_received ;;
        stale <- (if negb (last =? 0)
                  then t <- time_NULL ;; ret (10 <? t - last)
                  else ret false) ;;
        if stale then
          ret PROCESS_PACKET_ALL
        else
          t' <- time_NULL ;;
          set_trace_received t' ;;
          ret PROCESS_PACKET_LOCAL
    else if mgmt_type =? ALLNET_MGMT_TRACE_REPLY then
      ret PROCESS_PACKET_ALL
    else
      set_priority EPSILON ;;
      ret PROCESS_PACKET_ALL.

(** A look at the buffer by a library function that keeps no state. *)
Definition peek {A} (f : list byte -> A) : M A :=
  fun w => Done (f (packet w)) w.

(** ** process_packet (ad.c, lines 76-144)

    [HEADER_SKIP] is 3: the duplicate filter is handed the packet from its
    fourth byte on.  The function's own static [trace_received] is never
    used and is left out, as are the calls that only write the log.  The
    sums and differences of lines 126-130 are written over Z: [size] is an
    [int], a defined [sig_size] is at most 127 * 2^24, and none of them
    leaves the range of [int].  The pointers of lines 128 and 129 are
    formed by [pointer]: [sig] lies before the buffer when the decoded
    [sig_size] is more than [size - 2]. *)

Definition HEADER_SKIP : Z := 3.

Definition process_packet (size : Z) (is_local : bool) : M Z :=
  valid <- peek (fun buf => is_valid_message buf size) ;;
  if negb valid then ret PROCESS_PACKET_DROP else
  time <- call (fun buf =>
                  record_packet_time buf HEADER_SKIP (size - HEADER_SKIP) 0) ;;
  if (0 <? time) && (time <? 60) then
    if is_local then ret PROCESS_PACKET_LOCAL
    else ret PROCESS_PACKET_DROP
  else
  message_type <- load_field f_message_type ;;
  if message_type =? ALLNET_TYPE_MGMT then process_mgmt size is_local else
  if is_local then ret PROCESS_PACKET_ALL else
  hops0 <- load_field f_hops ;;
  (if hops0 <? 255 then store_field f_hops (hops0 + 1) else ret tt) ;;
  hops <- load_field f_hops ;;
  max_hops <- load_field f_max_hops ;;
  if max_hops <=? hops then ret PROCESS_PACKET_LOCAL else
  src_nbits <- load_field f_src_nbits ;;
  dst_nbits <- load_field f_dst_nbits ;;
  rate <- call (fun _ => largest_rate) ;;
  set_priority (compute_priority is_local size src_nbits dst_nbits hops
                                 max_hops UNKNOWN_SOCIAL_TIER rate) ;;
  sig_algo <- load_field f_sig_algo ;;
  if sig_algo =? ALLNET_SIGTYPE_NONE then ret PROCESS_PACKET_ALL else
  hi <- load_char (size - 2) ;;
  lo <- load_char (size - 1) ;;
  sig_size <- defined (sig_size_of hi lo) ;;
  if ALLNET_HEADER_SIZE + sig_size + 2 <=? size then ret PROCESS_PACKET_ALL
  else
  sig <- pointer (size - 2 - sig_size) ;;
  verify <- pointer ALLNET_HEADER_SIZE ;;
  let vsize := size - (ALLNET_HEADER_SIZE + sig_size + 2) in
  r <- call (fun buf =>
               social_connection buf verify vsize (offsetof f_source)
                                 src_nbits sig_algo sig sig_size) ;;
  let social_distance := fst r in
  let valid := snd r in
  if valid =? 0 then ret PROCESS_PACKET_ALL else
  rate_fraction <- call (fun buf =>
                           track_rate buf (offsetof f_source) src_nbits
                                      size) ;;
  set_priority (compute_priority is_local size src_nbits dst_nbits hops
                                 max_hops social_distance rate_fraction) ;;
  ret PROCESS_PACKET_ALL.

(** ** send_all (ad.c, lines 146-162)

    One [send_pipe_message] per entry of [write_pipes] below [nwrite], in
    the order of the array; what is handed to the framing layer is
    recorded. *)

Record delivery := mk_delivery {
  to_pipe : Z;              (* the file descriptor written to *)
  sent_bytes : list byte;   (* the buffer as it is when sent *)
  sent_size : Z;
  sent_priority : Z;
}.

Definition send_all (psize priority : Z) (write_pipes : list Z) (nwrite : Z)
  : M (list delivery) :=
  fun w =>
    Done (map (fun fd => mk_delivery fd (packet w) psize priority)
              (firstn (Z.to_nat nwrite) write_pipes)) w.

(** ** main_loop (ad.c, lines 172-231), one turn of the [while]

    [main] refuses fewer than three pipes, and the first two are alocal's
    and acache's: a table of pipes is kept as these three and the rest. *)

Record pipe_table := mk_pipes {
  alocal : Z;
  acache : Z;
  aip : Z;
  more_pipes : list Z;
}.

Definition pipes (t : pipe_table) : list Z :=
  alocal t :: acache t :: aip t :: more_pipes t.

Definition npipes (t : pipe_table) : Z := Z.of_nat (length (pipes t)).

(** What [receive_pipe_message_any] returns: a message of [psize > 0]
    bytes with the pipe it came from and the priority of its frame, read
    when the clock shows [clock]; or a failure, [psize <= 0]. *)
Inductive arrival :=
| Message (msg : list byte) (from_pipe : Z) (frame_priority : Z) (clock : Z)
| Failure (psize : Z) (from_pipe : Z).

Definition receive (msg : list byte) (frame_priority clock : Z) : M unit :=
  fun w => Done tt (with_now clock
                      (with_priority frame_priority (with_packet msg w))).

(** The [switch (p)] of the loop, lines 209-223. *)
Definition forward (p psize : Z) (write_pipes : pipe_table)
  : M (list delivery) :=
  if p =? PROCESS_PACKET_ALL then
    priority <- get_priority ;;
    send_all psize priority (pipes write_pipes) (npipes write_pipes)
  else if p =? PROCESS_PACKET_LOCAL then
    send_all psize 0 (pipes write_pipes) 2
  else ret [].

(** The refresh of the social table, lines 226-228. *)
Definition refresh (update_seconds : Z) : M unit :=
  t <- time_NULL ;;
  due <- get_next_update ;;
  if due <=? t then
    next <- call (fun _ => update_social update_seconds) ;;
    set_next_update next
  else ret tt.

Definition is_local_pipe (read_pipes : pipe_table) (from_pipe : Z) : bool :=
  (from_pipe =? alocal read_pipes) || (from_pipe =? acache read_pipes).

Definition main_loop_body (read_pipes write_pipes : pipe_table)
    (update_seconds : Z) (ev : arrival) : M (list delivery) :=
  match ev with
  | Failure _ _ => exit 1
  | Message msg from_pipe frame_priority clock =>
      set_priority EPSILON ;;
      receive msg frame_priority clock ;;
      let psize := Z.of_nat (length msg) in
      if psize <=? 0 then exit 1 else
      let is_local := is_local_pipe read_pipes from_pipe in
      p <- process_packet psize is_local ;;
      sent <- forward p psize write_pipes ;;
      refresh update_seconds ;;
      ret sent
  end.

(** The [while (1)] of main_loop over the arrivals of a run, in their
    order; the registration of the pipes and the first load of the social
    table, which come before the loop, are not modelled. *)
Fixpoint main_loop_while (read_pipes write_pipes : pipe_table)
    (update_seconds : Z) (evs : list arrival) : M (list (list delivery)) :=
  match evs with
  | [] => ret []
  | ev :: rest =>
      sent <- main_loop_body read_pipes write_pipes update_seconds ev ;;
      more <- main_loop_while read_pipes write_pipes update_seconds rest ;;
      ret (sent :: more)
  end.

End Daemon.

Arguments Done {L A} a w.
Arguments Exit {L A} status.
Arguments Undefined {L A}.

(** ** main (ad.c, lines 237-286)

    [main] checks its arguments, reads the file descriptors of the pipes
    from them and calls main_loop, which does not return.  [atoi] and
    [malloc] are the C library's: [atoi] is a parameter, and so is the
    answer of [malloc] for a number of bytes.  The calls of the log are
    left out; what [printf] writes before a [return] is kept as a
    [diagnostic]. *)

Inductive diagnostic :=
| need_pipe_count                           (* line 241 *)
| too_few_pipes (npipes : Z)                (* line 246 *)
| wrong_argument_count (argc npipes : Z)    (* line 250 *)
| need_three_pairs                          (* line 255 *)
| allocation_error.                         (* line 265 *)

(** How [main] ends: it returns a status, it calls main_loop with these
    arguments, or it runs into undefined behaviour. *)
Inductive startup :=
| Returns (status : Z) (printed : diagnostic)
| Runs_main_loop (read_pipes : list Z) (nread : Z)
                 (write_pipes : list Z) (nwrite : Z)
                 (update_seconds max_social_bytes max_checks : Z)
| Startup_undefined.

Definition sizeof_int : Z := 4.

(** An [int] result: undefined (None) when it is not representable. *)
Definition int_of (v : Z) : option Z :=
  if (- INT_MAX - 1 <=? v) && (v <=? INT_MAX) then Some v else None.

(** [argv [i]] for [0 <= i < argc]. *)
Definition arg (argv : list String.string) (i : Z) : option String.string :=
  if i <? 0 then None else argv !! Z.to_nat i.

Section Main.

Variable atoi : String.string -> Z.
Variable malloc : Z -> bool.

(** The loop of lines 271-274 from [i] on, [count] pairs being left. *)
Fixpoint read_descriptors (argv : list String.string) (i : Z) (count : nat)
  : option (list Z * list Z) :=
  match count with
  | O => Some ([], [])
  | S count' =>
      match arg argv (2 + 2 * i), arg argv (2 + 2 * i + 1),
            read_descriptors argv (i + 1) count' with
      | Some r, Some w, Some (read_pipes, write_pipes) =>
          Some (atoi r :: read_pipes, atoi w :: write_pipes)
      | _, _, _ => None
      end
  end.

Definition main (argv : list String.string) : startup :=
  let argc := Z.of_nat (length argv) in
  if argc <? 2 then Returns (-1) need_pipe_count else
  match arg argv 1 with
  | None => Startup_undefined
  | Some a1 =>
      let npipes := atoi a1 in
      if npipes <? 3 then Returns (-1) (too_few_pipes npipes) else
      match int_of (2 * npipes), int_of (2 * npipes + 2) with
      | Some _, Some expected =>
          if negb (argc =? expected)
          then Returns (-1) (wrong_argument_count argc npipes) else
          if argc <? 7 then Returns (-1) need_three_pairs else
          if negb (malloc (size_t (size_t (sizeof_int * size_t npipes) * 2)))
          then Returns (-1) allocation_error else
          match read_descriptors argv 0 (Z.to_nat npipes) with
          | Some (read_pipes, write_pipes) =>
              Runs_main_loop read_pipes npipes write_pipes npipes 30 30000 5
          | None => Startup_undefined
          end
      | _, _ => Startup_undefined
      end
  end.

End Main.

(** ** The vocabulary of the statements *)

Section Statements.

Context {L : Library}.

(** The world once [receive_pipe_message_any] has returned a message. *)
Definition arrived (msg : list byte) (frame_priority clock : Z) (w : world)
  : world :=
  with_now clock
    (with_priority frame_priority (with_packet msg (with_priority EPSILON w))).

(** What the [switch] of the loop hands to the framing layer for a verdict
    [p] reached in world [w]. *)
Definition deliveries (p psize : Z) (write_pipes : pipe_table) (w : world)
  : list delivery :=
  if p =? PROCESS_PACKET_ALL then
    map (fun fd => mk_delivery fd (packet w) psize (priority w))
        (pipes write_pipes)
  else if p =? PROCESS_PACKET_LOCAL then
    [mk_delivery (alocal write_pipes) (packet w) psize 0;
     mk_delivery (acache write_pipes) (packet w) psize 0]
  else [].

(** A packet that passes the duplicate filter: the rest of process_packet
    runs in the world [fresh l' w]. *)
Definition fresh (l' : lib_state) (w : world) : world :=
  touch (Read_header f_message_type) (with_lib l' w).

(** The packet after [if (ah->hops < 255) ah->hops++]. *)
Definition hopped (msg : list byte) : list byte :=
  poke msg (offsetof f_hops) (to_uchar (Z.min 255 (field f_hops msg + 1))).

(** Two worlds that differ at most in the buffer and in the log of
    accesses. *)
Definition same_state (w w1 : world) : Prop :=
  trace_received w1 = trace_received w /\ now w1 = now w
  /\ priority w1 = priority w /\ next_update w1 = next_update w
  /\ lib w1 = lib w.

(** [m] does not change the component [proj] of the world. *)
Definition keeps {X A} (proj : world -> X) (m : M A) : Prop :=
  forall w a w', m w = Done a w' -> proj w' = proj w.

(** Where the management sub-header starts: [hs] of process_mgmt. *)
Definition mgmt_offset (buf : list byte) (msize : Z) : Z :=
  ALLNET_AFTER_HEADER (field f_transport buf) msize.

(** The mgmt_type of a packet, if the buffer holds one. *)
Definition mgmt_type_at (buf : list byte) (msize : Z) : option Z :=
  match byte_at buf (mgmt_offset buf msize) with
  | Some b => Some (uchar b)
  | None => None
  end.

(** The size check of process_mgmt, line 33. *)
Definition too_short (buf : list byte) (msize : Z) : bool :=
  size_t msize
  <? size_t (size_t (mgmt_offset buf msize) + sizeof_allnet_mgmt_header).

(** The world after lines 28-29: a packet that is not local has its
    priority set to EPSILON. *)
Definition demoted (is_local : bool) (w : world) : world :=
  if is_local then w else with_priority EPSILON w.

(** The world in which the [switch] of process_mgmt runs. *)
Definition switched (msize : Z) (is_local : bool) (w : world) : world :=
  touch (Read_mgmt_type (mgmt_offset (packet w) msize))
        (touch (Read_header f_transport) (demoted is_local w)).

(** A management packet as process_mgmt is handed it by process_packet:
    [msize] is the length of the buffer, the buffer holds the fixed header,
    and it holds a byte of mgmt_type [ty] where the sub-header starts. *)
Definition mgmt_packet_of (buf : list byte) (msize ty : Z) : Prop :=
  msize = Z.of_nat (length buf)
  /\ ALLNET_HEADER_SIZE <= msize <= INT_MAX
  /\ mgmt_type_at buf msize = Some ty.

(** The priority line 120 computes for a packet nobody vouches for. *)
Definition anonymous_priority (msg : list byte) (rate : Z) : Z :=
  compute_priority false (Z.of_nat (length msg))
    (field f_src_nbits msg) (field f_dst_nbits msg)
    (Z.min 255 (field f_hops msg + 1)) (field f_max_hops msg)
    UNKNOWN_SOCIAL_TIER rate.

(** A packet that is valid, new to the filter, not a management packet,
    from a pipe that is not local, below its hop limit and signed: the
    packets that reach line 125. *)
Definition reaches_signature (msg : list byte) (l : lib_state)
    (l' : lib_state) : Prop :=
  let size := Z.of_nat (length msg) in
  is_valid_message msg size = true
  /\ (exists t,
        record_packet_time msg HEADER_SKIP (size - HEADER_SKIP) 0 l = (t, l')
        /\ ~ (0 < t < 60))
  /\ field f_message_type msg <> ALLNET_TYPE_MGMT
  /\ Z.min 255 (field f_hops msg + 1) < field f_max_hops msg
  /\ field f_sig_algo msg <> ALLNET_SIGTYPE_NONE.

(** The eight types the [switch] of process_mgmt names. *)
Definition known_mgmt_type (ty : Z) : bool :=
  (ty =? ALLNET_MGMT_BEACON) || (ty =? ALLNET_MGMT_BEACON_REPLY)
  || (ty =? ALLNET_MGMT_BEACON_GRANT) || (ty =? ALLNET_MGMT_PEER_REQUEST)
  || (ty =? ALLNET_MGMT_PEERS) || (ty =? ALLNET_MGMT_DHT)
  || (ty =? ALLNET_MGMT_TRACE_REQ) || (ty =? ALLNET_MGMT_TRACE_REPLY).

(** The priority at which a packet from a local pipe leaves when it is
    sent to every pipe: the one of its frame, except for a management
    packet of a type the [switch] does not name. *)
Definition local_forward_priority (msg : list byte) (frame_priority : Z) : Z :=
  if field f_message_type msg =? ALLNET_TYPE_MGMT then
    match mgmt_type_at msg (Z.of_nat (length msg)) with
    | Some ty => if known_mgmt_type ty then frame_priority else EPSILON
    | None => frame_priority
    end
  else frame_priority.

Definition is_trace_req (msg : list byte) : Prop :=
  field f_message_type msg = ALLNET_TYPE_MGMT
  /\ mgmt_type_at msg (Z.of_nat (length msg)) = Some ALLNET_MGMT_TRACE_REQ.


Definition remote_trace_req (read_pipes : pipe_table) (ev : arrival) : Prop :=
  match ev with
  | Message msg from_pipe _ _ =>
      is_local_pipe read_pipes from_pipe = false /\ is_trace_req msg
  | Failure _ _ => False
  end.



(** *** The vocabulary of the further properties *)

(** [m] keeps the property [I] of the world. *)
Definition invariant {A} (I : world -> Prop) (m : M A) : Prop :=
  forall w a w', I w -> m w = Done a w' -> I w'.

(** [m] never makes the process exit, and returns only values that
    satisfy [Q]. *)
Definition ends_with {A} (Q : A -> Prop) (m : M A) : Prop :=
  forall w, match m w with
            | Done a _ => Q a
            | Exit _ => False
            | Undefined => True
            end.

(** A verdict that the [switch] of main_loop has a case for. *)
Definition is_verdict (p : Z) : Prop :=
  p = PROCESS_PACKET_DROP \/ p = PROCESS_PACKET_LOCAL
  \/ p = PROCESS_PACKET_ALL.

(** Two worlds that differ at most in the priority. *)
Definition same_but_priority (w w' : world) : Prop :=
  trace_received w' = trace_received w /\ now w' = now w
  /\ packet w' = packet w /\ next_update w' = next_update w
  /\ lib w' = lib w /\ touched w' = touched w.

(** Two outcomes that agree: the same value in worlds that differ at most
    in the priority, and not even in that when the value is [final]. *)
Definition alike {A} (final : A -> bool) (o o' : outcome A) : Prop :=
  match o, o' with
  | Done a w, Done a' w' =>
      a = a' /\ same_but_priority w w'
      /\ (final a = true -> priority w' = priority w)
  | Exit s, Exit s' => s = s'
  | Undefined, Undefined => True
  | _, _ => False
  end.

(** [m] does not look at the priority. *)
Definition blind {A} (final : A -> bool) (m : M A) : Prop :=
  forall w w', same_but_priority w w' -> alike final (m w) (m w').

(** The verdict that has the priority sent. *)
Definition is_all (p : Z) : bool := p =? PROCESS_PACKET_ALL.

(** The arrival is read at a clock between [a] and [a + 10]. *)
Definition within_ten (a : Z) (ev : arrival) : Prop :=
  match ev with
  | Message _ _ _ clock => a <= clock <= a + 10
  | Failure _ _ => True
  end.

(** The message was sent to alocal and acache only. *)
Definition kept_local (write_pipes : pipe_table) (ev : arrival)
    (out : list delivery) : Prop :=
  match ev with
  | Message msg _ _ _ =>
      out = [mk_delivery (alocal write_pipes) msg (Z.of_nat (length msg)) 0;
             mk_delivery (acache write_pipes) msg (Z.of_nat (length msg)) 0]
  | Failure _ _ => False
  end.

(** The arrival cannot be processed: the read failed, or it gave a
    message of no bytes. *)
Definition read_failed (ev : arrival) : Prop :=
  match ev with
  | Message msg _ _ _ => msg = []
  | Failure _ _ => True
  end.

End Statements.

(** The table of pipes main_loop works with: its first three entries are
    alocal's, acache's and aip's. *)
Definition table_of (fds : list Z) : option pipe_table :=
  match fds with
  | a :: c :: i :: more => Some (mk_pipes a c i more)
  | _ => None
  end.

(** [main] printed [d] for the reason the code prints it; [n] is what
    [atoi] makes of the first argument. *)
Definition refused_for (atoi : String.string -> Z) (malloc : Z -> bool)
    (argv : list String.string) (d : diagnostic) : Prop :=
  let argc := Z.of_nat (length argv) in
  match d with
  | need_pipe_count => argc < 2
  | too_few_pipes n => atoi <$> arg argv 1 = Some n /\ n < 3
  | wrong_argument_count a n =>
      a = argc /\ atoi <$> arg argv 1 = Some n /\ 3 <= n /\ argc <> 2 * n + 2
  | need_three_pairs => False
  | allocation_error =>
      exists n, atoi <$> arg argv 1 = Some n /\ 3 <= n /\ argc = 2 * n + 2
                /\ malloc (2 * sizeof_int * n) = false
  end.

(** ** A library to run the daemon against

    A small library whose answers are scripted by its state: the duplicate
    filter reports [dup_age] once, the social table verifies a signature
    iff [key_valid] is not 0 and then reports [key_distance], and every
    call of [social_connection] is written down with the signed region and
    the signature it was handed. *)
Module Fixture.

Record script := mk_script {
  dup_age : Z;
  key_valid : Z;
  key_distance : Z;
  top_rate : Z;
  share : Z;
  verifications : list (Z * Z * Z * Z);  (* verify, vsize, sig, sig_size *)
}.

Definition priority_of (is_local : bool) (size src_nbits dst_nbits hops
    max_hops social_distance rate_fraction : Z) : Z :=
  if is_local then 1000000
  else 2 + (max_hops - hops) + 100 * (10 - social_distance)
       + (100 - rate_fraction).

Definition filter (buf : list byte) (skip size flag : Z) (s : script)
  : Z * script :=
  (dup_age s,
   mk_script 0 (key_valid s) (key_distance s) (top_rate s) (share s)
             (verifications s)).

Definition connection (buf : list byte)
    (verify vsize source src_nbits sig_algo sig sig_size : Z) (s : script)
  : (Z * Z) * script :=
  ((if key_valid s =? 0 then 10 else key_distance s, key_valid s),
   mk_script (dup_age s) (key_valid s) (key_distance s) (top_rate s)
             (share s) ((verify, vsize, sig, sig_size) :: verifications s)).

#[export] Instance library : Library := {|
  lib_state := script;
  ALLNET_TYPE_MGMT := 6;
  ALLNET_SIGTYPE_NONE := 0;
  ALLNET_AFTER_HEADER := fun transport size => ALLNET_HEADER_SIZE;
  ALLNET_MGMT_BEACON := 1;
  ALLNET_MGMT_BEACON_REPLY := 2;
  ALLNET_MGMT_BEACON_GRANT := 3;
  ALLNET_MGMT_PEER_REQUEST := 4;
  ALLNET_MGMT_PEERS := 5;
  ALLNET_MGMT_DHT := 6;
  ALLNET_MGMT_TRACE_REQ := 7;
  ALLNET_MGMT_TRACE_REPLY := 8;
  EPSILON := 1;
  UNKNOWN_SOCIAL_TIER := 10;
  compute_priority := priority_of;
  largest_rate := fun s => (top_rate s, s);
  track_rate := fun buf source src_nbits size s => (share s, s);
  is_valid_message := fun buf size =>
    (ALLNET_HEADER_SIZE <=? size) && (size =? Z.of_nat (length buf));
  record_packet_time := filter;
  social_connection := connection;
  update_social := fun update_seconds s => (update_seconds, s);
|}.

(** A header: version 1, then the fields of section 3; both addresses are
    eight bytes of 0x11 and of 0x22. *)
Definition header (message_type hops max_hops sig_algo : byte) : list byte :=
  [x01; message_type; hops; max_hops; x10; x10; sig_algo; x00]
  ++ repeat x11 8 ++ repeat x22 8.

Definition DATA : byte := x01.
Definition MGMT : byte := x06.

(** An unsigned DATA packet, hops 0 of 5, with a payload of four bytes. *)
Definition data_packet : list byte :=
  header DATA x00 x05 x00 ++ [xde; xad; xbe; xef].

(** A DATA packet at hops 4 of 5. *)
Definition last_hop_packet : list byte :=
  header DATA x04 x05 x00 ++ [xde; xad; xbe; xef].

(** A management packet of the given mgmt_type. *)
Definition mgmt_packet (mgmt_type : byte) : list byte :=
  header MGMT x00 x05 x00 ++ [mgmt_type; x00; x00].

(** A signed DATA packet: a payload of eight bytes, a signature of 256
    bytes and its length 0x0100, big-endian. *)
Definition signed_packet : list byte :=
  header DATA x00 x05 x01 ++ repeat x55 8
  ++ repeat xaa 256 ++ [x01; x00].

(** The same with a signature of 257 bytes, length 0x0101. *)
Definition signed_packet_257 : list byte :=
  header DATA x00 x05 x01 ++ repeat x55 8
  ++ repeat xaa 257 ++ [x01; x01].

(** A script whose duplicate filter reports an age of [age] seconds; the
    social table holds a key at distance 1 that verifies. *)
Definition seen (age : Z) : script := mk_script age 1 1 50 10 [].

Definition quiet : script := seen 0.

Definition start (tr : Z) (s : script) : world :=
  mk_world tr 0 [] 0 1000000 s [].

Definition readers : pipe_table := mk_pipes 10 11 12 [13].
Definition writers : pipe_table := mk_pipes 20 21 22 [23].

(** A world that holds a TRACE_REQ at the clock 100, the trace timestamp
    being [tr]. *)
Definition tracing (tr : Z) : world :=
  with_now 100 (with_packet (mgmt_packet x07) (start tr quiet)).

(** A management packet cut right after the fixed header. *)
Definition truncated : world :=
  with_packet (firstn 24 (mgmt_packet x07)) (start 0 quiet).


(** A signed DATA packet of 270 bytes whose last two bytes give a
    signature of 256 bytes: 12 bytes more than there are behind the
    header. *)
Definition cramped_packet : list byte :=
  header DATA x00 x05 x01 ++ repeat x55 244 ++ [x01; x00].


(** A signed DATA packet whose last byte is 24. *)
Definition wide_shift_packet : list byte :=
  header DATA x00 x05 x01 ++ repeat x55 8 ++ [x00; x18].

(** Three TRACE_REQ from the network within ten seconds. *)
Definition frequent_arrivals : list arrival :=
  [Message (mgmt_packet x07) 12 5 200;
   Message (mgmt_packet x07) 13 5 205;
   Message (mgmt_packet x07) 12 5 210].

(** A run in which the second read fails. *)
Definition interrupted_arrivals : list arrival :=
  [Message data_packet 12 100 5;
   Failure (-1) 12;
   Message data_packet 10 100 6].

(** A small [atoi]: an optional minus sign and decimal digits. *)
Definition digit (c : Ascii.ascii) : option Z :=
  let n := Z.of_N (Ascii.N_of_ascii c) in
  if (48 <=? n) && (n <=? 57) then Some (n - 48) else None.

Fixpoint digits (acc : Z) (s : String.string) : Z :=
  match s with
  | String.EmptyString => acc
  | String.String c rest =>
      match digit c with
      | Some d => digits (10 * acc + d) rest
      | None => acc
      end
  end.

Definition atoi (s : String.string) : Z :=
  match s with
  | String.EmptyString => 0
  | String.String c rest =>
      if Z.of_N (Ascii.N_of_ascii c) =? 45 then - digits 0 rest
      else digits 0 s
  end.

(** A heap that grants every request. *)
Definition plenty (bytes : Z) : bool := true.

Import String.StringSyntax.
Delimit Scope string_scope with string.

(** The command lines [ad 4 10 20 11 21 12 22 13 23], [ad 2] and
    [ad 2000000000]. *)
Definition command_line : list String.string :=
  ["ad"; "4"; "10"; "20"; "11"; "21"; "12"; "22"; "13"; "23"]%string.

Definition short_command_line : list String.string := ["ad"; "2"]%string.

Definition huge_command_line : list String.string :=
  ["ad"; "2000000000"]%string.

End Fixture.


(** ** Bytes *)

Lemma uchar_range (b : byte) : 0 <= uchar b <= 255.
Proof.
  unfold uchar. pose proof (Byte.to_N_bounded b). lia.
Qed.

Lemma to_uchar_uchar (b : byte) : to_uchar (uchar b) = b.
Proof.
  unfold to_uchar. pose proof (uchar_range b) as R.
  rewrite Z.mod_small by lia. unfold uchar.
  rewrite N2Z.id, Byte.of_to_N. reflexivity.
Qed.

Lemma uchar_to_uchar (v : Z) : 0 <= v <= 255 -> uchar (to_uchar v) = v.
Proof.
  intros R. unfold to_uchar. rewrite Z.mod_small by lia.
  destruct (Byte.of_N (Z.to_N v)) as [b|] eqn:E.
  - apply Byte.to_of_N in E. unfold uchar. rewrite E. lia.
  - apply Byte.of_N_None_iff in E. lia.
Qed.

(** Masking a plain [char] with 0xff gives the byte's unsigned value,
    whatever the signedness of [char]. *)
Lemma land_schar (b : byte) : Z.land (schar b) 255 = uchar b.
Proof. destruct b; reflexivity. Qed.

Lemma byte_at_inside (buf : list byte) (off : Z) :
  0 <= off < Z.of_nat (length buf) -> exists b, byte_at buf off = Some b.
Proof.
  intros R. unfold byte_at.
  destruct (off <? 0) eqn:E; [lia|].
  destruct (lookup_lt_is_Some_2 buf (Z.to_nat off)) as [b Hb]; [lia|].
  exists b. exact Hb.
Qed.

Lemma byte_at_Some_inside (buf : list byte) (off : Z) (b : byte) :
  byte_at buf off = Some b -> 0 <= off < Z.of_nat (length buf).
Proof.
  unfold byte_at. destruct (off <? 0) eqn:E; [discriminate|].
  intros H. apply lookup_lt_Some in H. lia.
Qed.

Lemma length_poke (buf : list byte) (off : Z) (b : byte) :
  length (poke buf off b) = length buf.
Proof. unfold poke. apply length_insert. Qed.

Lemma byte_at_poke_same (buf : list byte) (off : Z) (b : byte) :
  0 <= off < Z.of_nat (length buf) -> byte_at (poke buf off b) off = Some b.
Proof.
  intros R. unfold byte_at, poke.
  destruct (off <? 0) eqn:E; [lia|].
  apply list_lookup_insert_eq. lia.
Qed.

Lemma byte_at_poke_other (buf : list byte) (off off' : Z) (b : byte) :
  0 <= off -> off <> off' -> byte_at (poke buf off b) off' = byte_at buf off'.
Proof.
  intros R N. unfold byte_at, poke.
  destruct (off' <? 0) eqn:E; [reflexivity|].
  apply list_lookup_insert_ne. lia.
Qed.

Lemma poke_same (buf : list byte) (off : Z) (b : byte) :
  byte_at buf off = Some b -> poke buf off b = buf.
Proof.
  unfold byte_at, poke. destruct (off <? 0); [discriminate|].
  apply list_insert_id.
Qed.

Lemma field_poke_other (f g : header_field) (buf : list byte) (b : byte) :
  f <> g -> field g (poke buf (offsetof f) b) = field g buf.
Proof.
  intros N. unfold field. rewrite byte_at_poke_other; [reflexivity| |].
  - destruct f; simpl; lia.
  - destruct f, g; simpl; congruence || lia.
Qed.

Lemma field_poke_same (f : header_field) (buf : list byte) (b : byte) :
  ALLNET_HEADER_SIZE <= Z.of_nat (length buf) ->
  field f (poke buf (offsetof f) b) = uchar b.
Proof.
  intros R. unfold field. rewrite byte_at_poke_same; [reflexivity|].
  unfold ALLNET_HEADER_SIZE in R. destruct f; simpl; lia.
Qed.

Lemma field_inside (f : header_field) (buf : list byte) :
  ALLNET_HEADER_SIZE <= Z.of_nat (length buf) ->
  exists b, byte_at buf (offsetof f) = Some b /\ field f buf = uchar b.
Proof.
  intros R. destruct (byte_at_inside buf (offsetof f)) as [b Hb].
  - unfold ALLNET_HEADER_SIZE in R. destruct f; simpl; lia.
  - exists b. unfold field. rewrite Hb. auto.
Qed.

Lemma field_range (f : header_field) (buf : list byte) :
  0 <= field f buf <= 255.
Proof.
  unfold field. destruct (byte_at buf (offsetof f)); [apply uchar_range|lia].
Qed.

(** ** Running the monad *)

Section Properties.

Context {L : Library}.

Lemma bind_Done {A B} (m : M A) (k : A -> M B) (w w1 : world) (a : A) :
  m w = Done a w1 -> bind m k w = k a w1.
Proof. intros H. unfold bind. rewrite H. reflexivity. Qed.

Lemma bind_Done_inv {A B} (m : M A) (k : A -> M B) (w w2 : world) (b : B) :
  bind m k w = Done b w2 ->
  exists a w1, m w = Done a w1 /\ k a w1 = Done b w2.
Proof.
  unfold bind. destruct (m w) as [a w1| |]; try discriminate.
  intros H. exists a, w1. auto.
Qed.

Lemma load_field_Done (f : header_field) (w : world) :
  ALLNET_HEADER_SIZE <= Z.of_nat (length (packet w)) ->
  load_field f w = Done (field f (packet w)) (touch (Read_header f) w).
Proof.
  intros R. destruct (field_inside f _ R) as (b & Hb & Hf).
  unfold load_field, load. rewrite Hb, Hf. reflexivity.
Qed.

Lemma store_field_Done (f : header_field) (v : Z) (w : world) :
  ALLNET_HEADER_SIZE <= Z.of_nat (length (packet w)) ->
  store_field f v w =
  Done tt (with_packet (poke (packet w) (offsetof f) (to_uchar v))
                       (touch (Write_header f) w)).
Proof.
  intros R. destruct (field_inside f _ R) as (b & Hb & Hf).
  unfold store_field. rewrite Hb. reflexivity.
Qed.

Lemma forward_Done (p psize : Z) (write_pipes : pipe_table) (w : world) :
  forward p psize write_pipes w = Done (deliveries p psize write_pipes w) w.
Proof.
  unfold forward, deliveries.
  destruct (p =? PROCESS_PACKET_ALL).
  - unfold bind, get_priority, send_all, npipes.
    rewrite Nat2Z.id, firstn_all. reflexivity.
  - destruct (p =? PROCESS_PACKET_LOCAL); reflexivity.
Qed.

(** The refresh of the social table always returns, and touches neither
    the buffer nor the trace timestamp. *)
Lemma refresh_Done (update_seconds : Z) (w : world) :
  exists w', refresh update_seconds w = Done tt w'
             /\ packet w' = packet w
             /\ trace_received w' = trace_received w
             /\ priority w' = priority w.
Proof.
  unfold refresh, bind, time_NULL, get_next_update, call, set_next_update.
  destruct (next_update w <=? now w).
  - destruct (update_social update_seconds (lib w)) as [next l].
    eexists. split; [reflexivity|]. auto.
  - eexists. split; [reflexivity|]. auto.
Qed.

Lemma main_loop_body_Done (read_pipes write_pipes : pipe_table)
    (update_seconds : Z) (msg : list byte) (from_pipe frame_priority clock : Z)
    (w w1 : world) (p : Z) :
  msg <> [] ->
  process_packet (Z.of_nat (length msg)) (is_local_pipe read_pipes from_pipe)
                 (arrived msg frame_priority clock w) = Done p w1 ->
  exists w2,
    main_loop_body read_pipes write_pipes update_seconds
      (Message msg from_pipe frame_priority clock) w
    = Done (deliveries p (Z.of_nat (length msg)) write_pipes w1) w2
    /\ trace_received w2 = trace_received w1.
Proof.
  intros Hne Hp. unfold main_loop_body.
  destruct (refresh_Done update_seconds w1) as (w2 & Hr & _ & Ht & _).
  exists w2. split; [|exact Ht].
  unfold bind at 1. unfold set_priority at 1.
  unfold bind at 1. unfold receive at 1.
  destruct (Z.of_nat (length msg) <=? 0) eqn:E.
  { apply Z.leb_le in E. destruct msg; [congruence|].
    cbn [length] in E. lia. }
  fold (arrived msg frame_priority clock w).
  rewrite (bind_Done _ _ _ _ _ Hp).
  rewrite (bind_Done _ _ _ _ _ (forward_Done _ _ _ _)).
  rewrite (bind_Done _ _ _ _ _ Hr). reflexivity.
Qed.

Lemma call_Done {A} (f : list byte -> lib_state -> A * lib_state)
    (w : world) (a : A) (l : lib_state) :
  f (packet w) (lib w) = (a, l) -> call f w = Done a (with_lib l w).
Proof. intros H. unfold call. rewrite H. reflexivity. Qed.

(** One step of a computation: the first action of a [bind] is run by
    one of the lemmas above. *)
Ltac mstep :=
  erewrite bind_Done;
  [ | first [ apply load_field_Done; cbn; first [assumption | lia]
            | apply store_field_Done; cbn; first [assumption | lia]
            | apply call_Done; cbn; eassumption
            | reflexivity ] ].

(** *** The paths of process_packet *)

Lemma process_packet_invalid (size : Z) (is_local : bool) (w : world) :
  is_valid_message (packet w) size = false ->
  process_packet size is_local w = Done PROCESS_PACKET_DROP w.
Proof.
  intros Hv. unfold process_packet. mstep. rewrite Hv. reflexivity.
Qed.

Lemma process_packet_duplicate (size : Z) (is_local : bool) (w : world)
    (t : Z) (l' : lib_state) :
  is_valid_message (packet w) size = true ->
  record_packet_time (packet w) HEADER_SKIP (size - HEADER_SKIP) 0 (lib w)
  = (t, l') ->
  0 < t < 60 ->
  process_packet size is_local w
  = Done (if is_local then PROCESS_PACKET_LOCAL else PROCESS_PACKET_DROP)
         (with_lib l' w).
Proof.
  intros Hv Hr Ht. unfold process_packet. mstep. rewrite Hv. cbn [negb].
  mstep.
  replace ((0 <? t) && (t <? 60)) with true
    by (symmetry; apply andb_true_iff; split; apply Z.ltb_lt; lia).
  destruct is_local; reflexivity.
Qed.

Lemma not_in_window (t : Z) :
  ~ (0 < t < 60) -> (0 <? t) && (t <? 60) = false.
Proof.
  intros H. destruct (0 <? t) eqn:A; [|reflexivity].
  destruct (t <? 60) eqn:B; [|reflexivity].
  apply Z.ltb_lt in A, B. lia.
Qed.

Lemma process_packet_mgmt (OK : LibraryOk L) (size : Z) (is_local : bool)
    (w : world) (t : Z) (l' : lib_state) :
  size = Z.of_nat (length (packet w)) ->
  is_valid_message (packet w) size = true ->
  record_packet_time (packet w) HEADER_SKIP (size - HEADER_SKIP) 0 (lib w)
  = (t, l') ->
  ~ (0 < t < 60) ->
  field f_message_type (packet w) = ALLNET_TYPE_MGMT ->
  process_packet size is_local w = process_mgmt size is_local (fresh l' w).
Proof.
  intros Hs Hv Hr Ht Hm. pose proof (valid_has_header _ _ Hv) as Hh.
  unfold process_packet. mstep. rewrite Hv. cbn [negb].
  mstep. rewrite (not_in_window _ Ht).
  mstep. cbn [packet with_lib]. rewrite Hm, Z.eqb_refl. reflexivity.
Qed.

Lemma process_packet_local (OK : LibraryOk L) (size : Z) (w : world) (t : Z)
    (l' : lib_state) :
  size = Z.of_nat (length (packet w)) ->
  is_valid_message (packet w) size = true ->
  record_packet_time (packet w) HEADER_SKIP (size - HEADER_SKIP) 0 (lib w)
  = (t, l') ->
  ~ (0 < t < 60) ->
  field f_message_type (packet w) <> ALLNET_TYPE_MGMT ->
  process_packet size true w = Done PROCESS_PACKET_ALL (fresh l' w).
Proof.
  intros Hs Hv Hr Ht Hm. pose proof (valid_has_header _ _ Hv) as Hh.
  unfold process_packet. mstep. rewrite Hv. cbn [negb].
  mstep. rewrite (not_in_window _ Ht).
  mstep. cbn [packet with_lib].
  apply Z.eqb_neq in Hm. rewrite Hm. reflexivity.
Qed.

(** *** The hop count *)

Lemma length_hopped (msg : list byte) : length (hopped msg) = length msg.
Proof. apply length_poke. Qed.

Lemma field_hopped_hops (msg : list byte) :
  ALLNET_HEADER_SIZE <= Z.of_nat (length msg) ->
  field f_hops (hopped msg) = Z.min 255 (field f_hops msg + 1).
Proof.
  intros R. unfold hopped. rewrite field_poke_same by exact R.
  pose proof (field_range f_hops msg). apply uchar_to_uchar. lia.
Qed.

Lemma field_hopped_other (g : header_field) (msg : list byte) :
  g <> f_hops -> field g (hopped msg) = field g msg.
Proof. intros N. apply field_poke_other. congruence. Qed.

Lemma byte_at_hopped_other (msg : list byte) (off : Z) :
  off <> offsetof f_hops -> byte_at (hopped msg) off = byte_at msg off.
Proof.
  intros N. unfold hopped. apply byte_at_poke_other; [simpl; lia|congruence].
Qed.

Lemma bump_hops_Done (w : world) :
  ALLNET_HEADER_SIZE <= Z.of_nat (length (packet w)) ->
  exists w1,
    (if field f_hops (packet w) <? 255
     then store_field f_hops (field f_hops (packet w) + 1)
     else ret tt) w = Done tt w1
    /\ packet w1 = hopped (packet w)
    /\ same_state w w1.
Proof.
  intros R. unfold hopped, same_state.
  destruct (field_inside f_hops _ R) as (b & Hb & Hf).
  pose proof (field_range f_hops (packet w)) as Hr.
  destruct (field f_hops (packet w) <? 255) eqn:E.
  - apply Z.ltb_lt in E. rewrite store_field_Done by exact R.
    eexists. split; [reflexivity|]. cbn.
    rewrite Z.min_r by lia. auto 10.
  - apply Z.ltb_ge in E. exists w. split; [reflexivity|].
    rewrite Z.min_l by lia.
    replace 255 with (uchar b) by lia. rewrite to_uchar_uchar.
    rewrite (poke_same _ _ _ Hb). auto 10.
Qed.

Lemma process_packet_hop_limit (OK : LibraryOk L) (size : Z) (w : world)
    (t : Z) (l' : lib_state) :
  size = Z.of_nat (length (packet w)) ->
  is_valid_message (packet w) size = true ->
  record_packet_time (packet w) HEADER_SKIP (size - HEADER_SKIP) 0 (lib w)
  = (t, l') ->
  ~ (0 < t < 60) ->
  field f_message_type (packet w) <> ALLNET_TYPE_MGMT ->
  field f_max_hops (packet w) <= Z.min 255 (field f_hops (packet w) + 1) ->
  exists w',
    process_packet size false w = Done PROCESS_PACKET_LOCAL w'
    /\ packet w' = hopped (packet w)
    /\ same_state (with_lib l' w) w'.
Proof.
  intros Hs Hv Hr Ht Hm Hh. pose proof (valid_has_header _ _ Hv) as Hlen.
  unfold process_packet. mstep. rewrite Hv. cbn [negb].
  mstep. rewrite (not_in_window _ Ht).
  mstep. cbn [packet with_lib].
  apply Z.eqb_neq in Hm. rewrite Hm.
  mstep. cbn [packet with_lib touch].
  match goal with |- context [bind _ _ ?w0] =>
    destruct (bump_hops_Done w0) as (w1 & H1 & P1 & S1); [cbn; lia|];
    cbn [packet with_lib touch] in H1, P1
  end.
  rewrite (bind_Done _ _ _ _ _ H1).
  assert (Hlen1 : ALLNET_HEADER_SIZE <= Z.of_nat (length (packet w1)))
    by (rewrite P1, length_hopped; lia).
  mstep. mstep. cbn [packet touch]. rewrite P1.
  rewrite field_hopped_hops by lia.
  rewrite field_hopped_other by discriminate.
  apply Z.leb_le in Hh. rewrite Hh.
  eexists. split; [reflexivity|]. cbn. split; [exact P1|].
  unfold same_state in *. cbn in *. tauto.
Qed.

(** *** What a computation leaves alone *)

Lemma keeps_bind {X A B} (proj : world -> X) (m : M A) (k : A -> M B) :
  keeps proj m -> (forall a, keeps proj (k a)) -> keeps proj (bind m k).
Proof.
  intros Hm Hk w b w2 H.
  apply bind_Done_inv in H. destruct H as (a & w1 & H1 & H2).
  rewrite (Hk _ _ _ _ H2). exact (Hm _ _ _ H1).
Qed.

Ltac keeps_prim :=
  let w := fresh "w" in
  let a := fresh "a" in
  let w' := fresh "w'" in
  let H := fresh "H" in
  intros w a w' H;
  unfold load_field, load_mgmt_type, load_char, load, store_field, peek,
    pointer,
    call, time_NULL, get_trace_received, set_trace_received, get_priority,
    set_priority, get_next_update, set_next_update, defined, ret in H;
  repeat match type of H with
         | context [match ?x with _ => _ end] => destruct x
         end;
  inversion H; reflexivity.

Ltac keeps_auto :=
  cbv zeta;
  lazymatch goal with
  | |- keeps _ (bind _ _) =>
      apply keeps_bind; [keeps_auto | intro; keeps_auto]
  | |- keeps _ (if ?c then _ else _) => destruct c; keeps_auto
  | |- _ => keeps_prim
  end.

Lemma process_mgmt_keeps_packet (msize : Z) (is_local : bool) :
  keeps packet (process_mgmt msize is_local).
Proof. unfold process_mgmt. keeps_auto. Qed.

Lemma process_mgmt_keeps_lib (msize : Z) (is_local : bool) :
  keeps lib (process_mgmt msize is_local).
Proof. unfold process_mgmt. keeps_auto. Qed.

(** *** process_mgmt *)

Lemma packet_demoted (is_local : bool) (w : world) :
  packet (demoted is_local w) = packet w.
Proof. destruct is_local; reflexivity. Qed.

Lemma too_short_true (buf : list byte) (msize : Z) :
  0 <= msize <= INT_MAX -> 0 <= mgmt_offset buf msize <= INT_MAX ->
  msize < mgmt_offset buf msize + sizeof_allnet_mgmt_header ->
  too_short buf msize = true.
Proof.
  intros Hm Hh Hlt. unfold too_short, size_t, SIZE_MAX, INT_MAX,
    sizeof_allnet_mgmt_header in *.
  rewrite !(Z.mod_small (mgmt_offset buf msize)) by lia.
  rewrite !Z.mod_small by lia. apply Z.ltb_lt. lia.
Qed.

Lemma too_short_false (buf : list byte) (msize : Z) :
  0 <= mgmt_offset buf msize ->
  mgmt_offset buf msize + sizeof_allnet_mgmt_header <= msize <= INT_MAX ->
  too_short buf msize = false.
Proof.
  intros Hh Hm. unfold too_short, size_t, SIZE_MAX, INT_MAX,
    sizeof_allnet_mgmt_header in *.
  rewrite !(Z.mod_small (mgmt_offset buf msize)) by lia.
  rewrite !Z.mod_small by lia. apply Z.ltb_ge. lia.
Qed.

(** A packet that is too short for a management sub-header is dropped
    after a single access to the buffer, that of [hp->transport]. *)
Lemma process_mgmt_short (msize : Z) (is_local : bool) (w : world) :
  ALLNET_HEADER_SIZE <= Z.of_nat (length (packet w)) ->
  too_short (packet w) msize = true ->
  process_mgmt msize is_local w
  = Done PROCESS_PACKET_DROP
         (touch (Read_header f_transport) (demoted is_local w)).
Proof.
  intros Hlen Hs. unfold process_mgmt.
  erewrite bind_Done with (w1 := demoted is_local w)
    by (destruct is_local; reflexivity).
  rewrite bind_Done with (a := field f_transport (packet w))
                         (w1 := touch (Read_header f_transport)
                                      (demoted is_local w)).
  - cbv zeta. fold (mgmt_offset (packet w) msize).
    fold (too_short (packet w) msize). rewrite Hs. reflexivity.
  - rewrite <- (packet_demoted is_local w).
    apply load_field_Done. rewrite packet_demoted. exact Hlen.
Qed.

(** With room for the sub-header, process_mgmt reads mgmt_type and runs
    its [switch]; [process_mgmt_long] states the [switch] once. *)
Lemma process_mgmt_long (msize : Z) (is_local : bool) (w : world) (ty : Z) :
  ALLNET_HEADER_SIZE <= Z.of_nat (length (packet w)) ->
  too_short (packet w) msize = false ->
  mgmt_type_at (packet w) msize = Some ty ->
  process_mgmt msize is_local w
  = (if (ty =? ALLNET_MGMT_BEACON) || (ty =? ALLNET_MGMT_BEACON_REPLY)
        || (ty =? ALLNET_MGMT_BEACON_GRANT) then ret PROCESS_PACKET_DROP
     else if (ty =? ALLNET_MGMT_PEER_REQUEST) || (ty =? ALLNET_MGMT_PEERS)
             || (ty =? ALLNET_MGMT_DHT) then ret PROCESS_PACKET_LOCAL
     else if ty =? ALLNET_MGMT_TRACE_REQ then
       if is_local then
         bind (set_trace_received 0) (fun _ => ret PROCESS_PACKET_ALL)
       else
         bind get_trace_received (fun last =>
         bind (if negb (last =? 0)
               then bind time_NULL (fun t => ret (10 <? t - last))
               else ret false) (fun stale =>
         if stale then ret PROCESS_PACKET_ALL
         else bind time_NULL (fun t' =>
              bind (set_trace_received t') (fun _ =>
              ret PROCESS_PACKET_LOCAL))))
     else if ty =? ALLNET_MGMT_TRACE_REPLY then ret PROCESS_PACKET_ALL
     else bind (set_priority EPSILON) (fun _ => ret PROCESS_PACKET_ALL))
    (switched msize is_local w).
Proof.
  intros Hlen Hs Hty. unfold process_mgmt.
  erewrite bind_Done with (w1 := demoted is_local w)
    by (destruct is_local; reflexivity).
  rewrite bind_Done with (a := field f_transport (packet w))
                         (w1 := touch (Read_header f_transport)
                                      (demoted is_local w)).
  2:{ rewrite <- (packet_demoted is_local w).
      apply load_field_Done. rewrite packet_demoted. exact Hlen. }
  cbv zeta. fold (mgmt_offset (packet w) msize).
  fold (too_short (packet w) msize). rewrite Hs.
  unfold mgmt_type_at in Hty.
  destruct (byte_at (packet w) (mgmt_offset (packet w) msize)) as [b|] eqn:Hb;
    [|discriminate].
  injection Hty as <-.
  rewrite bind_Done with (a := uchar b) (w1 := switched msize is_local w).
  - reflexivity.
  - unfold load_mgmt_type, load. cbn [packet touch].
    rewrite packet_demoted, Hb. reflexivity.
Qed.

(** The labels of the [switch], pairwise. *)
Lemma trace_req_label (OK : LibraryOk L) :
  ALLNET_MGMT_TRACE_REQ <> ALLNET_MGMT_BEACON
  /\ ALLNET_MGMT_TRACE_REQ <> ALLNET_MGMT_BEACON_REPLY
  /\ ALLNET_MGMT_TRACE_REQ <> ALLNET_MGMT_BEACON_GRANT
  /\ ALLNET_MGMT_TRACE_REQ <> ALLNET_MGMT_PEER_REQUEST
  /\ ALLNET_MGMT_TRACE_REQ <> ALLNET_MGMT_PEERS
  /\ ALLNET_MGMT_TRACE_REQ <> ALLNET_MGMT_DHT.
Proof.
  pose proof mgmt_labels_distinct as H.
  repeat (apply NoDup_cons in H; destruct H as [? H]).
  repeat split; intros E;
    match goal with
    | N : _ ∉ _ |- _ => apply N; rewrite <- E; solve [repeat constructor]
    end.
Qed.

Lemma switch_reaches_trace_req (OK : LibraryOk L) :
  (ALLNET_MGMT_TRACE_REQ =? ALLNET_MGMT_BEACON)
  || (ALLNET_MGMT_TRACE_REQ =? ALLNET_MGMT_BEACON_REPLY)
  || (ALLNET_MGMT_TRACE_REQ =? ALLNET_MGMT_BEACON_GRANT) = false
  /\ (ALLNET_MGMT_TRACE_REQ =? ALLNET_MGMT_PEER_REQUEST)
     || (ALLNET_MGMT_TRACE_REQ =? ALLNET_MGMT_PEERS)
     || (ALLNET_MGMT_TRACE_REQ =? ALLNET_MGMT_DHT) = false.
Proof.
  destruct (trace_req_label OK) as (A & B & C & D & E & F).
  apply Z.eqb_neq in A, B, C, D, E, F.
  rewrite A, B, C, D, E, F. auto.
Qed.

Lemma mgmt_packet_of_long (buf : list byte) (msize ty : Z) :
  mgmt_packet_of buf msize ty -> too_short buf msize = false.
Proof.
  intros (Hs & Hr & Hty). unfold mgmt_type_at in Hty.
  destruct (byte_at buf (mgmt_offset buf msize)) as [b|] eqn:Hb;
    [|discriminate].
  apply byte_at_Some_inside in Hb.
  apply too_short_false; unfold sizeof_allnet_mgmt_header; lia.
Qed.

(** ** The management classifier *)

(** C9. A packet handed to process_mgmt whose size is below the
    transport-dependent header size plus the size of the management
    sub-header is classified DROP, and the only access process_mgmt makes to
    the buffer is the read of the header's transport byte: mgmt_type is
    never read, whether or not the buffer reaches that far. *)
Theorem short_management_packet_is_dropped_unread
    (msize : Z) (is_local : bool) (w : world) :
  ALLNET_HEADER_SIZE <= Z.of_nat (length (packet w)) ->
  0 <= msize <= INT_MAX ->
  0 <= mgmt_offset (packet w) msize <= INT_MAX ->
  msize < mgmt_offset (packet w) msize + sizeof_allnet_mgmt_header ->
  exists w',
    process_mgmt msize is_local w = Done PROCESS_PACKET_DROP w'
    /\ touched w' = Read_header f_transport :: touched w
    /\ (forall hs, In (Read_mgmt_type hs) (touched w') ->
                   In (Read_mgmt_type hs) (touched w)).
Proof.
  intros Hlen Hm Hh Hlt.
  exists (touch (Read_header f_transport) (demoted is_local w)).
  split; [|split].
  - apply process_mgmt_short; [exact Hlen|].
    apply too_short_true; assumption.
  - destruct is_local; reflexivity.
  - intros hs Hin. destruct is_local; cbn in Hin;
      destruct Hin as [Hin|Hin]; (discriminate || exact Hin).
Qed.


(** A beacon, a beacon reply or a beacon grant is classified DROP, from
    any pipe. *)
Lemma process_mgmt_beacon (msize : Z) (is_local : bool) (w : world) (ty : Z) :
  ALLNET_HEADER_SIZE <= Z.of_nat (length (packet w)) ->
  mgmt_type_at (packet w) msize = Some ty ->
  ty = ALLNET_MGMT_BEACON \/ ty = ALLNET_MGMT_BEACON_REPLY
  \/ ty = ALLNET_MGMT_BEACON_GRANT ->
  exists w', process_mgmt msize is_local w = Done PROCESS_PACKET_DROP w'.
Proof.
  intros Hlen Hty Hb.
  destruct (too_short (packet w) msize) eqn:Hs.
  - eexists. apply process_mgmt_short; assumption.
  - rewrite (process_mgmt_long _ _ _ _ Hlen Hs Hty).
    replace ((ty =? ALLNET_MGMT_BEACON) || (ty =? ALLNET_MGMT_BEACON_REPLY)
             || (ty =? ALLNET_MGMT_BEACON_GRANT)) with true.
    + eexists. reflexivity.
    + symmetry. rewrite !orb_true_iff, !Z.eqb_eq. tauto.
Qed.

Lemma valid_not_empty (OK : LibraryOk L) (msg : list byte) :
  is_valid_message msg (Z.of_nat (length msg)) = true -> msg <> [].
Proof.
  intros Hv E. apply valid_has_header in Hv. subst msg.
  unfold ALLNET_HEADER_SIZE in Hv. cbn in Hv. lia.
Qed.

Lemma main_loop_body_Message (read_pipes write_pipes : pipe_table)
    (update_seconds : Z) (msg : list byte) (from_pipe frame_priority clock : Z)
    (w : world) :
  main_loop_body read_pipes write_pipes update_seconds
    (Message msg from_pipe frame_priority clock) w
  = if Z.of_nat (length msg) <=? 0 then Exit 1
    else bind (process_packet (Z.of_nat (length msg))
                              (is_local_pipe read_pipes from_pipe))
              (fun p =>
                 bind (forward p (Z.of_nat (length msg)) write_pipes)
                      (fun sent =>
                         bind (refresh update_seconds) (fun _ => ret sent)))
              (arrived msg frame_priority clock w).
Proof.
  unfold main_loop_body, bind at 1 2, set_priority, receive.
  destruct (Z.of_nat (length msg) <=? 0); reflexivity.
Qed.

(** Once the filter has answered outside the window, process_packet goes
    on from the state the filter left, whatever the answer was. *)
Lemma process_packet_past_filter (size : Z) (is_local : bool)
    (w wa : world) (t ta : Z) (l' : lib_state) :
  is_valid_message (packet w) size = true ->
  record_packet_time (packet w) HEADER_SKIP (size - HEADER_SKIP) 0 (lib w)
  = (t, l') ->
  record_packet_time (packet w) HEADER_SKIP (size - HEADER_SKIP) 0 (lib wa)
  = (ta, l') ->
  ~ (0 < t < 60) -> ~ (0 < ta < 60) ->
  with_lib l' wa = with_lib l' w ->
  packet wa = packet w ->
  process_packet size is_local w = process_packet size is_local wa.
Proof.
  intros Hv Hr Hra Ht Hta Hw Hp.
  etransitivity.
  - unfold process_packet. mstep. rewrite Hv. cbn [negb].
    mstep. rewrite (not_in_window _ Ht). reflexivity.
  - symmetry. unfold process_packet. mstep. rewrite Hp, Hv. cbn [negb].
    rewrite bind_Done with (a := ta) (w1 := with_lib l' wa)
      by (apply call_Done; rewrite Hp; exact Hra).
    rewrite (not_in_window _ Hta), Hw. reflexivity.
Qed.

(** ** The dispatcher *)

(** C4. A valid packet that is not a duplicate and not a management
    packet, arrives on a pipe that is not local and whose hop count, after
    the increment that stops at 255, has reached max_hops is classified
    LOCAL: it is sent, with the new hop count, to alocal and acache at
    priority 0, and to no other pipe. *)
Theorem hop_limit_reached_only_local (OK : LibraryOk L)
    (read_pipes write_pipes : pipe_table) (update_seconds : Z)
    (msg : list byte) (from_pipe frame_priority clock : Z) (w : world)
    (t : Z) (l' : lib_state) :
  let size := Z.of_nat (length msg) in
  is_local_pipe read_pipes from_pipe = false ->
  is_valid_message msg size = true ->
  record_packet_time msg HEADER_SKIP (size - HEADER_SKIP) 0 (lib w) = (t, l') ->
  ~ (0 < t < 60) ->
  field f_message_type msg <> ALLNET_TYPE_MGMT ->
  field f_max_hops msg <= Z.min 255 (field f_hops msg + 1) ->
  (exists w1,
     process_packet size false (arrived msg frame_priority clock w)
     = Done PROCESS_PACKET_LOCAL w1)
  /\ exists w',
       main_loop_body read_pipes write_pipes update_seconds
         (Message msg from_pipe frame_priority clock) w
       = Done [mk_delivery (alocal write_pipes) (hopped msg) size 0;
               mk_delivery (acache write_pipes) (hopped msg) size 0] w'.
Proof.
  intros size Hl Hv Hr Ht Hm Hh.
  destruct (process_packet_hop_limit OK size
              (arrived msg frame_priority clock w) t l')
    as (w1 & H1 & P1 & _); try assumption; try reflexivity.
  split; [exists w1; exact H1|].
  destruct (main_loop_body_Done read_pipes write_pipes update_seconds msg
              from_pipe frame_priority clock w w1 PROCESS_PACKET_LOCAL
              (valid_not_empty OK _ Hv)) as (w2 & H2 & _).
  - rewrite Hl. exact H1.
  - exists w2. rewrite H2. unfold deliveries. cbn [Z.eqb PROCESS_PACKET_LOCAL
      PROCESS_PACKET_ALL Pos.eqb]. rewrite P1. reflexivity.
Qed.

(** ** Signed packets *)

Lemma process_packet_signed_in_bounds (OK : LibraryOk L) (w : world)
    (size : Z) (l' l2 : lib_state) (rate : Z) (hi lo : byte) (s : Z) :
  size = Z.of_nat (length (packet w)) ->
  reaches_signature (packet w) (lib w) l' ->
  largest_rate l' = (rate, l2) ->
  byte_at (packet w) (size - 2) = Some hi ->
  byte_at (packet w) (size - 1) = Some lo ->
  sig_size_of (schar hi) (schar lo) = Some s ->
  ALLNET_HEADER_SIZE + s + 2 <= size ->
  exists w',
    process_packet size false w = Done PROCESS_PACKET_ALL w'
    /\ packet w' = hopped (packet w)
    /\ priority w' = anonymous_priority (packet w) rate
    /\ lib w' = l2
    /\ trace_received w' = trace_received w.
Proof.
  intros Hsz (Hv & (t & Hr & Ht) & Hm & Hh & Hsig) Hrate Hhi Hlo Hs Hfit.
  cbv zeta in Hv, Hr. rewrite <- Hsz in Hv, Hr.
  pose proof (valid_has_header _ _ Hv) as Hlen.
  unfold process_packet. mstep. rewrite Hv. cbn [negb].
  mstep. rewrite (not_in_window _ Ht).
  mstep. cbn [packet with_lib].
  apply Z.eqb_neq in Hm. rewrite Hm.
  mstep. cbn [packet with_lib touch].
  match goal with |- context [bind _ _ ?w0] =>
    destruct (bump_hops_Done w0) as (w1 & H1 & P1 & S1); [cbn; lia|];
    cbn [packet with_lib touch] in H1, P1
  end.
  rewrite (bind_Done _ _ _ _ _ H1).
  destruct S1 as (T1 & N1 & Pr1 & U1 & L1). cbn in T1, N1, Pr1, U1, L1.
  assert (Hlen1 : ALLNET_HEADER_SIZE <= Z.of_nat (length (packet w1)))
    by (rewrite P1, length_hopped; lia).
  mstep. mstep. cbn [packet touch]. rewrite P1.
  rewrite field_hopped_hops by lia.
  rewrite !field_hopped_other by discriminate.
  replace (field f_max_hops (packet w) <=? Z.min 255 (field f_hops (packet w) + 1))
    with false by (symmetry; apply Z.leb_gt; exact Hh).
  mstep. mstep. cbn [packet touch]. rewrite P1.
  rewrite !field_hopped_other by discriminate.
  rewrite bind_Done with (a := rate)
    (w1 := with_lib l2 (touch (Read_header f_dst_nbits)
             (touch (Read_header f_src_nbits)
                (touch (Read_header f_max_hops)
                   (touch (Read_header f_hops) w1)))))
    by (apply call_Done; cbn; rewrite L1; exact Hrate).
  mstep. mstep. cbn [packet touch with_lib with_priority]. rewrite P1.
  rewrite !field_hopped_other by discriminate.
  apply Z.eqb_neq in Hsig. rewrite Hsig.
  unfold ALLNET_HEADER_SIZE in *.
  rewrite bind_Done with (a := schar hi)
    (w1 := touch (Read_char (size - 2))
             (touch (Read_header f_sig_algo)
                (with_priority (compute_priority false size
                     (field f_src_nbits (packet w))
                     (field f_dst_nbits (packet w))
                     (Z.min 255 (field f_hops (packet w) + 1))
                     (field f_max_hops (packet w)) UNKNOWN_SOCIAL_TIER rate)
                   (with_lib l2 (touch (Read_header f_dst_nbits)
                      (touch (Read_header f_src_nbits)
                         (touch (Read_header f_max_hops)
                            (touch (Read_header f_hops) w1)))))))).
  2:{ unfold load_char, load. cbn [packet touch with_lib with_priority].
      rewrite P1, byte_at_hopped_other by (simpl; lia).
      rewrite Hhi. reflexivity. }
  rewrite bind_Done with (a := schar lo)
    (w1 := touch (Read_char (size - 1)) (touch (Read_char (size - 2))
             (touch (Read_header f_sig_algo)
                (with_priority (compute_priority false size
                     (field f_src_nbits (packet w))
                     (field f_dst_nbits (packet w))
                     (Z.min 255 (field f_hops (packet w) + 1))
                     (field f_max_hops (packet w)) UNKNOWN_SOCIAL_TIER rate)
                   (with_lib l2 (touch (Read_header f_dst_nbits)
                      (touch (Read_header f_src_nbits)
                         (touch (Read_header f_max_hops)
                            (touch (Read_header f_hops) w1))))))))).
  2:{ unfold load_char, load. cbn [packet touch with_lib with_priority].
      rewrite P1, byte_at_hopped_other by (simpl; lia).
      rewrite Hlo. reflexivity. }
  unfold bind at 1. unfold defined at 1. rewrite Hs.
  replace (24 + s + 2 <=? size) with true by (symmetry; apply Z.leb_le; lia).
  eexists. split; [reflexivity|]. cbn.
  unfold anonymous_priority. rewrite <- Hsz.
  repeat split; [exact P1|exact T1].
Qed.

(** C1 (ad.c departs from it).  A signed packet from the network whose
    signature lies inside the packet, the length field decoding to [s] with
    [ALLNET_HEADER_SIZE + s + 2 <= size], leaves process_packet at line 127:
    it is sent to every pipe at the priority of an anonymous packet, and
    neither social_connection nor track_rate is called, whatever key the
    social table holds. *)
Theorem signed_packet_in_bounds_sent_at_baseline (OK : LibraryOk L)
    (read_pipes write_pipes : pipe_table) (update_seconds : Z)
    (msg : list byte) (from_pipe frame_priority clock : Z) (w : world)
    (l' l2 : lib_state) (rate : Z) (hi lo : byte) (s : Z) :
  let size := Z.of_nat (length msg) in
  is_local_pipe read_pipes from_pipe = false ->
  reaches_signature msg (lib w) l' ->
  largest_rate l' = (rate, l2) ->
  byte_at msg (size - 2) = Some hi ->
  byte_at msg (size - 1) = Some lo ->
  sig_size_of (schar hi) (schar lo) = Some s ->
  ALLNET_HEADER_SIZE + s + 2 <= size ->
  (exists w1,
     process_packet size false (arrived msg frame_priority clock w)
     = Done PROCESS_PACKET_ALL w1
     /\ priority w1 = anonymous_priority msg rate
     /\ lib w1 = l2)
  /\ exists w',
       main_loop_body read_pipes write_pipes update_seconds
         (Message msg from_pipe frame_priority clock) w
       = Done (map (fun fd => mk_delivery fd (hopped msg) size
                                          (anonymous_priority msg rate))
                   (pipes write_pipes)) w'.
Proof.
  intros size Hl Hreach Hrate Hhi Hlo Hs Hfit.
  destruct (process_packet_signed_in_bounds OK
              (arrived msg frame_priority clock w) size l' l2 rate hi lo s)
    as (w1 & H1 & P1 & Pr1 & L1 & _); try assumption; try reflexivity.
  cbn [packet arrived with_now with_priority with_packet] in P1, Pr1.
  split; [exists w1; auto|].
  destruct Hreach as (Hv & _).
  destruct (main_loop_body_Done read_pipes write_pipes update_seconds msg
              from_pipe frame_priority clock w w1 PROCESS_PACKET_ALL
              (valid_not_empty OK _ Hv)) as (w2 & H2 & _).
  - rewrite Hl. exact H1.
  - exists w2. rewrite H2. unfold deliveries.
    cbn [Z.eqb PROCESS_PACKET_ALL Pos.eqb]. rewrite P1, Pr1. reflexivity.
Qed.

Lemma big_endian_16_low (hi lo : Z) :
  Z.land (big_endian_16 hi lo) 255 = Z.land lo 255.
Proof.
  unfold big_endian_16. rewrite Z.land_lor_distr_l.
  change 255 with (Z.ones 8).
  rewrite (Z.land_ones (Z.shiftl _ 8)) by lia.
  rewrite Z.shiftl_mul_pow2 by lia. rewrite Z.mod_mul by lia.
  rewrite Z.lor_0_l. rewrite <- Z.land_assoc, Z.land_diag. reflexivity.
Qed.

(** C2 (ad.c departs from it).  Whenever line 125 has a defined value it
    is the first of the last two bytes times 2 to the power 8 plus the
    second; that is the big-endian value of the two bytes exactly when the
    second byte is 0. *)
Theorem sig_size_is_big_endian_only_for_low_byte_zero
    (hi lo : byte) (s : Z) :
  sig_size_of (schar hi) (schar lo) = Some s ->
  s = uchar hi * 2 ^ (8 + uchar lo)
  /\ (s = big_endian_16 (schar hi) (schar lo) <-> uchar lo = 0).
Proof.
  unfold sig_size_of, int_shl. rewrite !land_schar.
  pose proof (uchar_range hi) as Rh. pose proof (uchar_range lo) as Rl.
  destruct ((0 <=? uchar hi) && (0 <=? 8 + uchar lo) && (8 + uchar lo <? 32)
            && (Z.shiftl (uchar hi) (8 + uchar lo) <=? INT_MAX));
    [|discriminate].
  intros [= <-]. rewrite Z.shiftl_mul_pow2 by lia.
  split; [reflexivity|]. split.
  - intros E. apply (f_equal (fun v => Z.land v 255)) in E.
    rewrite big_endian_16_low, land_schar in E.
    change 255 with (Z.ones 8) in E. rewrite Z.land_ones in E by lia.
    rewrite Z.pow_add_r, Z.mul_assoc, (Z.mul_comm _ (2 ^ 8)) in E by lia.
    rewrite <- Z.mul_assoc, Z.mul_comm, Z.mod_mul in E by lia.
    lia.
  - intros E. unfold big_endian_16. rewrite !land_schar, E.
    rewrite Z.lor_0_r, Z.shiftl_mul_pow2 by lia. reflexivity.
Qed.

(** ** Beacons *)

(** C7, as the code has it.  A management packet whose mgmt_type is
    BEACON, BEACON_REPLY or BEACON_GRANT is classified DROP by process_mgmt
    whatever pipe it came from, and the turn of the loop sends nothing,
    unless the packet came from a local pipe and the duplicate filter saw it
    less than 60 seconds before: process_packet then returns LOCAL before
    it looks at the type of the message. *)
Theorem beacons_are_not_forwarded (OK : LibraryOk L)
    (read_pipes write_pipes : pipe_table) (update_seconds : Z)
    (msg : list byte) (from_pipe frame_priority clock : Z) (w : world)
    (t : Z) (l' : lib_state) (ty : Z) :
  let size := Z.of_nat (length msg) in
  field f_message_type msg = ALLNET_TYPE_MGMT ->
  mgmt_type_at msg size = Some ty ->
  ty = ALLNET_MGMT_BEACON \/ ty = ALLNET_MGMT_BEACON_REPLY
  \/ ty = ALLNET_MGMT_BEACON_GRANT ->
  record_packet_time msg HEADER_SKIP (size - HEADER_SKIP) 0 (lib w) = (t, l') ->
  ~ (is_local_pipe read_pipes from_pipe = true /\ 0 < t < 60) ->
  (forall is_local w0,
     packet w0 = msg -> ALLNET_HEADER_SIZE <= size ->
     exists w1, process_mgmt size is_local w0 = Done PROCESS_PACKET_DROP w1)
  /\ exists w',
       main_loop_body read_pipes write_pipes update_seconds
         (Message msg from_pipe frame_priority clock) w = Done [] w'.
Proof.
  intros size Hm Hty Hb Hr Hnd. split.
  - intros is_local w0 Hp Hlen. apply (process_mgmt_beacon _ _ _ ty).
    + rewrite Hp. exact Hlen.
    + rewrite Hp. exact Hty.
    + exact Hb.
  - assert (Hne : msg <> []).
    { intros ->. unfold mgmt_type_at in Hty.
      destruct (byte_at [] (mgmt_offset [] size)) eqn:Hat; [|discriminate].
      apply byte_at_Some_inside in Hat. cbn in Hat. lia. }
    assert (exists w1, process_packet size (is_local_pipe read_pipes from_pipe)
                         (arrived msg frame_priority clock w)
                       = Done PROCESS_PACKET_DROP w1) as (w1 & H1).
    { destruct (is_valid_message msg size) eqn:Hv.
      - destruct (Z_lt_dec 0 t) as [H0|H0];
          [destruct (Z_lt_dec t 60) as [H60|H60]|].
        + destruct (is_local_pipe read_pipes from_pipe) eqn:Hl;
            [exfalso; apply Hnd; split; [reflexivity|lia]|].
          eexists.
          apply (process_packet_duplicate size false _ t l');
            [exact Hv|exact Hr|lia].
        + rewrite (process_packet_mgmt OK size _ _ t l');
            try assumption; try reflexivity; try lia.
          apply (process_mgmt_beacon _ _ _ ty); try assumption.
          apply (valid_has_header _ _ Hv).
        + rewrite (process_packet_mgmt OK size _ _ t l');
            try assumption; try reflexivity; try lia.
          apply (process_mgmt_beacon _ _ _ ty); try assumption.
          apply (valid_has_header _ _ Hv).
      - eexists. apply process_packet_invalid. exact Hv. }
    destruct (main_loop_body_Done read_pipes write_pipes update_seconds msg
                from_pipe frame_priority clock w w1 PROCESS_PACKET_DROP Hne H1)
      as (w2 & H2 & _).
    exists w2. exact H2.
Qed.

(** ** What is sent *)

Ltac mstep_in H :=
  erewrite bind_Done in H;
  [ | first [ apply load_field_Done; cbn; first [assumption | lia]
            | apply store_field_Done; cbn; first [assumption | lia]
            | apply call_Done; cbn; eassumption
            | reflexivity ] ].

(** A packet that is valid, new to the filter and not a management packet:
    what process_packet leaves behind when it returns. *)
Lemma process_packet_data (OK : LibraryOk L) (size : Z) (is_local : bool)
    (w w1 : world) (t : Z) (l' : lib_state) (p : Z) :
  size = Z.of_nat (length (packet w)) ->
  is_valid_message (packet w) size = true ->
  record_packet_time (packet w) HEADER_SKIP (size - HEADER_SKIP) 0 (lib w)
  = (t, l') ->
  ~ (0 < t < 60) ->
  field f_message_type (packet w) <> ALLNET_TYPE_MGMT ->
  process_packet size is_local w = Done p w1 ->
  trace_received w1 = trace_received w
  /\ packet w1 = (if is_local then packet w else hopped (packet w))
  /\ (is_local = true -> p = PROCESS_PACKET_ALL /\ priority w1 = priority w).
Proof.
  intros Hs Hv Hr Ht Hm H. pose proof (valid_has_header _ _ Hv) as Hlen.
  destruct is_local.
  - rewrite (process_packet_local OK size w t l') in H by assumption.
    injection H as <- <-. cbn. auto.
  - unfold process_packet in H. mstep_in H. rewrite Hv in H. cbn [negb] in H.
    mstep_in H. rewrite (not_in_window _ Ht) in H.
    mstep_in H. cbn [packet with_lib] in H.
    apply Z.eqb_neq in Hm. rewrite Hm in H.
    split; [|split; [|discriminate]].
    + match type of H with
      | ?m ?w0 = _ =>
          assert (K : keeps trace_received m) by keeps_auto;
          apply K in H
      end.
      exact H.
    + mstep_in H. cbn [packet with_lib touch] in H.
      match type of H with
      | bind _ _ ?w0 = _ =>
          destruct (bump_hops_Done w0) as (w2 & H2 & P2 & _); [cbn; lia|];
          cbn [packet with_lib touch] in H2, P2
      end.
      rewrite (bind_Done _ _ _ _ _ H2) in H.
      match type of H with
      | ?m ?w0 = _ =>
          assert (K : keeps packet m) by keeps_auto;
          apply K in H
      end.
      rewrite H. exact P2.
Qed.

(** process_mgmt returns only for a packet that is too short or holds a
    byte of mgmt_type. *)
Lemma process_mgmt_Done_inv (msize : Z) (is_local : bool) (w w1 : world)
    (p : Z) :
  ALLNET_HEADER_SIZE <= Z.of_nat (length (packet w)) ->
  process_mgmt msize is_local w = Done p w1 ->
  too_short (packet w) msize = true
  \/ (too_short (packet w) msize = false
      /\ exists ty, mgmt_type_at (packet w) msize = Some ty).
Proof.
  intros Hlen H.
  destruct (too_short (packet w) msize) eqn:Hs; [left; reflexivity|right].
  split; [reflexivity|]. unfold mgmt_type_at.
  destruct (byte_at (packet w) (mgmt_offset (packet w) msize)) as [b|] eqn:Hb.
  - eauto.
  - exfalso. unfold process_mgmt in H.
    erewrite bind_Done with (w1 := demoted is_local w) in H
      by (destruct is_local; reflexivity).
    rewrite bind_Done with (a := field f_transport (packet w))
                           (w1 := touch (Read_header f_transport)
                                        (demoted is_local w)) in H.
    2:{ rewrite <- (packet_demoted is_local w).
        apply load_field_Done. rewrite packet_demoted. exact Hlen. }
    cbv zeta in H. fold (mgmt_offset (packet w) msize) in H.
    fold (too_short (packet w) msize) in H. rewrite Hs in H.
    unfold bind at 1 in H. unfold load_mgmt_type, load in H.
    cbn [packet touch] in H. rewrite packet_demoted, Hb in H.
    discriminate H.
Qed.

(** The bytes a turn of the loop sends are those process_packet left in
    the buffer, and they are sent only for the verdicts ALL and LOCAL. *)
Lemma in_deliveries (p psize : Z) (write_pipes : pipe_table) (w : world)
    (d : delivery) :
  In d (deliveries p psize write_pipes w) ->
  sent_bytes d = packet w /\ sent_size d = psize
  /\ ((p = PROCESS_PACKET_ALL /\ sent_priority d = priority w)
      \/ (p = PROCESS_PACKET_LOCAL /\ sent_priority d = 0)).
Proof.
  unfold deliveries. destruct (p =? PROCESS_PACKET_ALL) eqn:Ea.
  - apply Z.eqb_eq in Ea. intros Hin. apply in_map_iff in Hin.
    destruct Hin as (fd & <- & _). cbn. auto.
  - destruct (p =? PROCESS_PACKET_LOCAL) eqn:El.
    + apply Z.eqb_eq in El. intros [<-|[<-|[]]]; cbn; auto.
    + intros [].
Qed.

Lemma main_loop_body_Done_inv (read_pipes write_pipes : pipe_table)
    (update_seconds : Z) (msg : list byte) (from_pipe frame_priority clock : Z)
    (w w' : world) (outs : list (delivery)) :
  main_loop_body read_pipes write_pipes update_seconds
    (Message msg from_pipe frame_priority clock) w = Done outs w' ->
  msg <> []
  /\ exists p w1,
       process_packet (Z.of_nat (length msg))
                      (is_local_pipe read_pipes from_pipe)
                      (arrived msg frame_priority clock w) = Done p w1
       /\ outs = deliveries p (Z.of_nat (length msg)) write_pipes w1
       /\ trace_received w' = trace_received w1.
Proof.
  intros H. rewrite main_loop_body_Message in H.
  destruct (Z.of_nat (length msg) <=? 0) eqn:E; [discriminate|].
  split.
  { intros ->. cbn in E. discriminate. }
  apply bind_Done_inv in H. destruct H as (p & w1 & Hp & H).
  exists p, w1. split; [exact Hp|].
  rewrite (bind_Done _ _ _ _ _ (forward_Done _ _ _ _)) in H.
  destruct (refresh_Done update_seconds w1) as (w2 & Hr & _ & Ht & _).
  rewrite (bind_Done _ _ _ _ _ Hr) in H. injection H as <- <-. auto.
Qed.

(** C5, as the code has it.  What a turn of the loop sends has the size of
    the packet received.  For a packet from a local pipe and for a
    management packet the bytes sent are the bytes received, hop count
    included.  For any other packet they are the bytes received except for
    the hops byte, which is one more than received, or 255 when 255 was
    received. *)
Theorem forwarded_bytes (OK : LibraryOk L)
    (read_pipes write_pipes : pipe_table) (update_seconds : Z)
    (msg : list byte) (from_pipe frame_priority clock : Z) (w w' : world)
    (outs : list delivery) (d : delivery) :
  main_loop_body read_pipes write_pipes update_seconds
    (Message msg from_pipe frame_priority clock) w = Done outs w' ->
  In d outs ->
  sent_size d = Z.of_nat (length msg)
  /\ (is_local_pipe read_pipes from_pipe = true
      \/ field f_message_type msg = ALLNET_TYPE_MGMT ->
      sent_bytes d = msg)
  /\ (is_local_pipe read_pipes from_pipe = false ->
      field f_message_type msg <> ALLNET_TYPE_MGMT ->
      sent_bytes d = hopped msg
      /\ length (sent_bytes d) = length msg
      /\ field f_hops (sent_bytes d) = Z.min 255 (field f_hops msg + 1)
      /\ forall off, off <> offsetof f_hops ->
                     byte_at (sent_bytes d) off = byte_at msg off).
Proof.
  intros H Hin.
  apply main_loop_body_Done_inv in H.
  destruct H as (Hne & p & w1 & Hp & -> & _).
  apply in_deliveries in Hin. destruct Hin as (Hb & Hsz & Hscope).
  split; [exact Hsz|]. rewrite Hb.
  set (size := Z.of_nat (length msg)) in *.
  set (w0 := arrived msg frame_priority clock w) in *.
  assert (P0 : packet w0 = msg) by reflexivity.
  assert (S0 : size = Z.of_nat (length (packet w0))) by reflexivity.
  destruct (is_valid_message (packet w0) size) eqn:Hv.
  2:{ rewrite (process_packet_invalid _ _ _ Hv) in Hp. injection Hp as <- <-.
      destruct Hscope as [[E _]|[E _]]; discriminate E. }
  pose proof (valid_has_header _ _ Hv) as Hlen.
  destruct (record_packet_time (packet w0) HEADER_SKIP (size - HEADER_SKIP) 0
              (lib w0)) as [t l'] eqn:Hr.
  assert (Hw : 0 < t < 60 \/ ~ (0 < t < 60)) by lia.
  destruct Hw as [Hw|Hw].
  - rewrite (process_packet_duplicate size _ w0 t l' Hv Hr Hw) in Hp.
    injection Hp as <- <-.
    destruct (is_local_pipe read_pipes from_pipe).
    + split; [reflexivity|]. discriminate.
    + destruct Hscope as [[E _]|[E _]]; discriminate E.
  - destruct (Z.eq_dec (field f_message_type msg) ALLNET_TYPE_MGMT) as [Em|Em].
    + rewrite (process_packet_mgmt OK size _ w0 t l') in Hp by assumption.
      apply process_mgmt_keeps_packet in Hp. rewrite Hp.
      split; [reflexivity|]. intros _ N. contradiction.
    + destruct (process_packet_data OK size
                  (is_local_pipe read_pipes from_pipe) w0 w1 t l' p)
        as (_ & Pk & _); try assumption.
      rewrite Pk, P0. split.
      * intros [E|E]; [rewrite E; reflexivity|contradiction].
      * intros E _. rewrite E. split; [reflexivity|].
        split; [apply length_hopped|].
        split; [apply field_hopped_hops; unfold size in *; lia|].
        intros off Hoff. apply byte_at_hopped_other. exact Hoff.
Qed.

(** ** The priority of a local packet *)

(** C6, as the code has it.  A packet from a local pipe is sent nowhere, or
    to alocal and acache at priority 0, or to every pipe; in the last case
    its priority is the one the submitter gave, except that a management
    packet of a type process_mgmt does not know leaves at EPSILON.  The
    bytes are those received.  And process_mgmt itself, handed a local
    packet of any of the eight types it names, returns and leaves the
    priority as the submitter gave it. *)
Theorem local_priority_on_output (OK : LibraryOk L)
    (read_pipes write_pipes : pipe_table) (update_seconds : Z)
    (msg : list byte) (from_pipe frame_priority clock : Z) (w w' : world)
    (outs : list delivery) :
  let size := Z.of_nat (length msg) in
  is_local_pipe read_pipes from_pipe = true ->
  main_loop_body read_pipes write_pipes update_seconds
    (Message msg from_pipe frame_priority clock) w = Done outs w' ->
  (outs = []
   \/ outs = [mk_delivery (alocal write_pipes) msg size 0;
              mk_delivery (acache write_pipes) msg size 0]
   \/ outs = map (fun fd =>
                    mk_delivery fd msg size
                                (local_forward_priority msg frame_priority))
                 (pipes write_pipes))
  /\ (forall (wm : world) (msize ty : Z),
        mgmt_packet_of (packet wm) msize ty ->
        known_mgmt_type ty = true ->
        exists p wm1,
          process_mgmt msize true wm = Done p wm1
          /\ priority wm1 = priority wm).
Proof.
  intros size Hl H. split.
  2:{ intros wm msize ty Hp Hk.
      pose proof (mgmt_packet_of_long _ _ _ Hp) as Hlong.
      destruct Hp as (Hs & Hr & Hty).
      assert (Hlen : ALLNET_HEADER_SIZE <= Z.of_nat (length (packet wm)))
        by lia.
      rewrite (process_mgmt_long _ _ _ _ Hlen Hlong Hty).
      unfold known_mgmt_type in Hk.
      unfold bind, set_trace_received, set_priority, ret.
      destruct (ty =? ALLNET_MGMT_BEACON);
        [eexists; eexists; split; reflexivity|].
      destruct (ty =? ALLNET_MGMT_BEACON_REPLY);
        [eexists; eexists; split; reflexivity|].
      destruct (ty =? ALLNET_MGMT_BEACON_GRANT);
        [eexists; eexists; split; reflexivity|].
      destruct (ty =? ALLNET_MGMT_PEER_REQUEST);
        [eexists; eexists; split; reflexivity|].
      destruct (ty =? ALLNET_MGMT_PEERS);
        [eexists; eexists; split; reflexivity|].
      destruct (ty =? ALLNET_MGMT_DHT);
        [eexists; eexists; split; reflexivity|].
      destruct (ty =? ALLNET_MGMT_TRACE_REQ);
        [eexists; eexists; split; reflexivity|].
      destruct (ty =? ALLNET_MGMT_TRACE_REPLY);
        [eexists; eexists; split; reflexivity|].
      discriminate Hk. }
  apply main_loop_body_Done_inv in H.
  destruct H as (Hne & p & w1 & Hp & -> & _).
  rewrite Hl in Hp. fold size in Hp |- *.
  set (w0 := arrived msg frame_priority clock w) in *.
  assert (P0 : packet w0 = msg) by reflexivity.
  assert (S0 : size = Z.of_nat (length (packet w0))) by reflexivity.
  destruct (is_valid_message (packet w0) size) eqn:Hv.
  2:{ rewrite (process_packet_invalid _ _ _ Hv) in Hp. injection Hp as <- <-.
      left. reflexivity. }
  pose proof (valid_has_header _ _ Hv) as Hlen.
  destruct (record_packet_time (packet w0) HEADER_SKIP (size - HEADER_SKIP) 0
              (lib w0)) as [t l'] eqn:Hr.
  assert (Hw : 0 < t < 60 \/ ~ (0 < t < 60)) by lia.
  destruct Hw as [Hw|Hw].
  { rewrite (process_packet_duplicate size _ w0 t l' Hv Hr Hw) in Hp.
    injection Hp as <- <-. right. left. reflexivity. }
  unfold local_forward_priority. fold size.
  destruct (Z.eq_dec (field f_message_type msg) ALLNET_TYPE_MGMT) as [Em|Em].
  2:{ destruct (process_packet_data OK size true w0 w1 t l' p)
        as (_ & Pk & Ha); try assumption.
      destruct (Ha eq_refl) as (-> & Pr).
      apply Z.eqb_neq in Em. rewrite Em.
      right. right. unfold deliveries.
      cbn [Z.eqb PROCESS_PACKET_ALL Pos.eqb]. rewrite Pk, Pr. reflexivity. }
  rewrite (process_packet_mgmt OK size _ w0 t l') in Hp by assumption.
  assert (Hlen' : ALLNET_HEADER_SIZE <= Z.of_nat (length (packet (fresh l' w0))))
    by (cbn; fold size; exact Hlen).
  destruct (process_mgmt_Done_inv _ _ _ _ _ Hlen' Hp) as [Hs|(Hs & ty & Hty)].
  { rewrite (process_mgmt_short _ _ _ Hlen' Hs) in Hp.
    injection Hp as <- <-. left. reflexivity. }
  rewrite (process_mgmt_long _ _ _ _ Hlen' Hs Hty) in Hp.
  change (packet (fresh l' w0)) with msg in Hty. rewrite Hty.
  apply Z.eqb_eq in Em. rewrite Em.
  unfold known_mgmt_type, bind, set_trace_received, set_priority, ret in *.
  destruct (ty =? ALLNET_MGMT_BEACON);
    [injection Hp as <- <-; left; reflexivity|].
  destruct (ty =? ALLNET_MGMT_BEACON_REPLY);
    [injection Hp as <- <-; left; reflexivity|].
  destruct (ty =? ALLNET_MGMT_BEACON_GRANT);
    [injection Hp as <- <-; left; reflexivity|].
  destruct (ty =? ALLNET_MGMT_PEER_REQUEST);
    [injection Hp as <- <-; right; left; reflexivity|].
  destruct (ty =? ALLNET_MGMT_PEERS);
    [injection Hp as <- <-; right; left; reflexivity|].
  destruct (ty =? ALLNET_MGMT_DHT);
    [injection Hp as <- <-; right; left; reflexivity|].
  destruct (ty =? ALLNET_MGMT_TRACE_REQ);
    [injection Hp as <- <-; right; right; reflexivity|].
  destruct (ty =? ALLNET_MGMT_TRACE_REPLY);
    injection Hp as <- <-; right; right; reflexivity.
Qed.

(** ** The trace timestamp over a run *)




(** ** Further properties of the dispatcher and of the loop *)

(** ** The other paths of the dispatcher *)

(** X1. A message that is_valid_message rejects is dropped before anything
    else is done with it (lines 79-80): process_packet returns DROP in the
    very world it was called in, so the duplicate filter is not fed and no
    byte of the header is read, and the turn of the loop sends nothing,
    whichever pipe the message came from. *)
Theorem invalid_packet_leaves_no_trace
    (read_pipes write_pipes : pipe_table) (update_seconds : Z)
    (msg : list byte) (from_pipe frame_priority clock : Z) (w : world) :
  msg <> [] ->
  is_valid_message msg (Z.of_nat (length msg)) = false ->
  process_packet (Z.of_nat (length msg)) (is_local_pipe read_pipes from_pipe)
                 (arrived msg frame_priority clock w)
  = Done PROCESS_PACKET_DROP (arrived msg frame_priority clock w)
  /\ exists w',
       main_loop_body read_pipes write_pipes update_seconds
         (Message msg from_pipe frame_priority clock) w = Done [] w'.
Proof.
  intros Hne Hv.
  assert (Hp : process_packet (Z.of_nat (length msg))
                 (is_local_pipe read_pipes from_pipe)
                 (arrived msg frame_priority clock w)
               = Done PROCESS_PACKET_DROP (arrived msg frame_priority clock w))
    by (apply process_packet_invalid; exact Hv).
  split; [exact Hp|].
  destruct (main_loop_body_Done read_pipes write_pipes update_seconds msg
              from_pipe frame_priority clock w _ _ Hne Hp) as (w2 & H2 & _).
  exists w2. exact H2.
Qed.

(** X2. A valid packet from alocal or acache that is new to the filter and
    is not a management packet is sent to every pipe with the bytes it came
    with, hop count included, at the priority of its frame (lines 106-107
    and 210-213); the trace timestamp is left as it was. *)
Theorem local_packet_is_flooded_as_submitted (OK : LibraryOk L)
    (read_pipes write_pipes : pipe_table) (update_seconds : Z)
    (msg : list byte) (from_pipe frame_priority clock : Z) (w : world)
    (t : Z) (l' : lib_state) :
  let size := Z.of_nat (length msg) in
  is_local_pipe read_pipes from_pipe = true ->
  is_valid_message msg size = true ->
  record_packet_time msg HEADER_SKIP (size - HEADER_SKIP) 0 (lib w) = (t, l') ->
  ~ (0 < t < 60) ->
  field f_message_type msg <> ALLNET_TYPE_MGMT ->
  exists w',
    main_loop_body read_pipes write_pipes update_seconds
      (Message msg from_pipe frame_priority clock) w
    = Done (map (fun fd => mk_delivery fd msg size frame_priority)
                (pipes write_pipes)) w'
    /\ trace_received w' = trace_received w.
Proof.
  intros size Hl Hv Hr Ht Hm.
  assert (Hp : process_packet size true (arrived msg frame_priority clock w)
               = Done PROCESS_PACKET_ALL
                      (fresh l' (arrived msg frame_priority clock w)))
    by (apply (process_packet_local OK size _ t l'); try assumption;
        reflexivity).
  destruct (main_loop_body_Done read_pipes write_pipes update_seconds msg
              from_pipe frame_priority clock w _ _ (valid_not_empty OK _ Hv)
              ltac:(rewrite Hl; exact Hp)) as (w2 & H2 & T2).
  exists w2. split; [exact H2|exact T2].
Qed.


Lemma pointer_Done (off : Z) (w : world) :
  0 <= off <= Z.of_nat (length (packet w)) -> pointer off w = Done off w.
Proof.
  intros R. unfold pointer.
  replace (0 <=? off) with true by (symmetry; apply Z.leb_le; lia).
  replace (off <=? Z.of_nat (length (packet w))) with true
    by (symmetry; apply Z.leb_le; lia).
  reflexivity.
Qed.

Lemma sig_size_of_nonneg (hi lo s : Z) :
  sig_size_of hi lo = Some s -> 0 <= s.
Proof.
  unfold sig_size_of, int_shl.
  destruct (0 <=? Z.land hi 255) eqn:A; cbn [andb]; [|discriminate].
  destruct (0 <=? 8 + Z.land lo 255); cbn [andb]; [|discriminate].
  destruct (8 + Z.land lo 255 <? 32); cbn [andb]; [|discriminate].
  destruct (_ <=? INT_MAX); [|discriminate].
  intros [= <-]. apply Z.shiftl_nonneg. apply Z.leb_le. exact A.
Qed.

Lemma pointer_Undefined (off : Z) (w : world) :
  off < 0 -> pointer off w = Undefined.
Proof.
  intros R. unfold pointer.
  replace (0 <=? off) with false by (symmetry; apply Z.leb_gt; lia).
  reflexivity.
Qed.

(** The steps of process_packet that a packet from the network takes up
    to line 123, once it is valid, new, not a management packet and below
    its hop limit. *)
Lemma process_packet_to_line_123 (OK : LibraryOk L) (w : world) (size : Z)
    (t : Z) (l' l2 : lib_state) (rate : Z) :
  size = Z.of_nat (length (packet w)) ->
  is_valid_message (packet w) size = true ->
  record_packet_time (packet w) HEADER_SKIP (size - HEADER_SKIP) 0 (lib w)
  = (t, l') ->
  ~ (0 < t < 60) ->
  field f_message_type (packet w) <> ALLNET_TYPE_MGMT ->
  Z.min 255 (field f_hops (packet w) + 1) < field f_max_hops (packet w) ->
  largest_rate l' = (rate, l2) ->
  exists w3,
    packet w3 = hopped (packet w)
    /\ priority w3 = anonymous_priority (packet w) rate
    /\ lib w3 = l2
    /\ trace_received w3 = trace_received w
    /\ process_packet size false w
       = (if field f_sig_algo (packet w) =? ALLNET_SIGTYPE_NONE
          then ret PROCESS_PACKET_ALL
          else
            bind (load_char (size - 2)) (fun hi =>
            bind (load_char (size - 1)) (fun lo =>
            bind (defined (sig_size_of hi lo)) (fun sig_size =>
            if ALLNET_HEADER_SIZE + sig_size + 2 <=? size
            then ret PROCESS_PACKET_ALL
            else
              bind (pointer (size - 2 - sig_size)) (fun sig =>
              bind (pointer ALLNET_HEADER_SIZE) (fun verify =>
              bind (call (fun buf =>
                      social_connection buf verify
                        (size - (ALLNET_HEADER_SIZE + sig_size + 2))
                        (offsetof f_source) (field f_src_nbits (packet w))
                        (field f_sig_algo (packet w))
                        sig sig_size)) (fun r =>
              if snd r =? 0 then ret PROCESS_PACKET_ALL
              else
                bind (call (fun buf =>
                        track_rate buf (offsetof f_source)
                          (field f_src_nbits (packet w)) size))
                     (fun rate_fraction =>
                bind (set_priority
                        (compute_priority false size
                           (field f_src_nbits (packet w))
                           (field f_dst_nbits (packet w))
                           (Z.min 255 (field f_hops (packet w) + 1))
                           (field f_max_hops (packet w)) (fst r)
                           rate_fraction))
                     (fun _ => ret PROCESS_PACKET_ALL))))))))) w3.
Proof.
  intros Hsz Hv Hr Ht Hm Hh Hrate.
  pose proof (valid_has_header _ _ Hv) as Hlen.
  unfold process_packet. mstep. rewrite Hv. cbn [negb].
  mstep. rewrite (not_in_window _ Ht).
  mstep. cbn [packet with_lib].
  apply Z.eqb_neq in Hm. rewrite Hm.
  mstep. cbn [packet with_lib touch].
  match goal with |- context [bind _ _ ?w0] =>
    destruct (bump_hops_Done w0) as (w1 & H1 & P1 & S1); [cbn; lia|];
    cbn [packet with_lib touch] in H1, P1
  end.
  rewrite (bind_Done _ _ _ _ _ H1).
  destruct S1 as (T1 & N1 & Pr1 & U1 & L1). cbn in T1, N1, Pr1, U1, L1.
  assert (Hlen1 : ALLNET_HEADER_SIZE <= Z.of_nat (length (packet w1)))
    by (rewrite P1, length_hopped; lia).
  mstep. mstep. cbn [packet touch]. rewrite P1.
  rewrite field_hopped_hops by lia.
  rewrite !field_hopped_other by discriminate.
  replace (field f_max_hops (packet w) <=? Z.min 255 (field f_hops (packet w) + 1))
    with false by (symmetry; apply Z.leb_gt; exact Hh).
  mstep. mstep. cbn [packet touch]. rewrite P1.
  rewrite !field_hopped_other by discriminate.
  rewrite bind_Done with (a := rate)
    (w1 := with_lib l2 (touch (Read_header f_dst_nbits)
             (touch (Read_header f_src_nbits)
                (touch (Read_header f_max_hops)
                   (touch (Read_header f_hops) w1)))))
    by (apply call_Done; cbn; rewrite L1; exact Hrate).
  mstep. mstep. cbn [packet touch with_lib with_priority]. rewrite P1.
  rewrite !field_hopped_other by discriminate.
  eexists. split; [|split; [|split; [|split; [|reflexivity]]]].
  - cbn. exact P1.
  - cbn. unfold anonymous_priority. rewrite <- Hsz. reflexivity.
  - reflexivity.
  - cbn. exact T1.
Qed.

(** X3. A valid, new, unsigned packet from the network that stays below
    its hop limit is sent to every pipe with its hop count incremented, at
    the priority line 120 computes from UNKNOWN_SOCIAL_TIER and
    largest_rate (lines 110-124). *)
Theorem unsigned_packet_is_flooded (OK : LibraryOk L)
    (read_pipes write_pipes : pipe_table) (update_seconds : Z)
    (msg : list byte) (from_pipe frame_priority clock : Z) (w : world)
    (t : Z) (l' l2 : lib_state) (rate : Z) :
  let size := Z.of_nat (length msg) in
  is_local_pipe read_pipes from_pipe = false ->
  is_valid_message msg size = true ->
  record_packet_time msg HEADER_SKIP (size - HEADER_SKIP) 0 (lib w) = (t, l') ->
  ~ (0 < t < 60) ->
  field f_message_type msg <> ALLNET_TYPE_MGMT ->
  Z.min 255 (field f_hops msg + 1) < field f_max_hops msg ->
  field f_sig_algo msg = ALLNET_SIGTYPE_NONE ->
  largest_rate l' = (rate, l2) ->
  exists w',
    main_loop_body read_pipes write_pipes update_seconds
      (Message msg from_pipe frame_priority clock) w
    = Done (map (fun fd => mk_delivery fd (hopped msg) size
                                       (anonymous_priority msg rate))
                (pipes write_pipes)) w'.
Proof.
  intros size Hl Hv Hr Ht Hm Hh Hs Hrate.
  destruct (process_packet_to_line_123 OK
              (arrived msg frame_priority clock w) size t l' l2 rate)
    as (w3 & P3 & Pr3 & _ & _ & H3); try assumption; try reflexivity.
  cbn [packet arrived with_now with_priority with_packet] in P3, Pr3, H3.
  rewrite Hs, Z.eqb_refl in H3.
  destruct (main_loop_body_Done read_pipes write_pipes update_seconds msg
              from_pipe frame_priority clock w w3 PROCESS_PACKET_ALL
              (valid_not_empty OK _ Hv)) as (w2 & H2 & _).
  - rewrite Hl. exact H3.
  - exists w2. rewrite H2. unfold deliveries.
    cbn [Z.eqb PROCESS_PACKET_ALL Pos.eqb]. rewrite P3, Pr3. reflexivity.
Qed.



(** X5. The other side of the test of line 126.  When the signature
    length that line 125 decodes does not fit in the packet behind the
    header, but is at most [size - 2], so that the pointer of line 128
    still lies in the buffer, process_packet does call social_connection:
    with a signed region of negative size and with a signature that
    starts inside the header.  The packet is then sent to every pipe, at
    the anonymous priority when social_connection answers that the
    signature is not valid and at the priority computed from its social
    distance and from track_rate when it says it is. *)
Theorem out_of_bounds_signature_reaches_social_connection (OK : LibraryOk L)
    (read_pipes write_pipes : pipe_table) (update_seconds : Z)
    (msg : list byte) (from_pipe frame_priority clock : Z) (w : world)
    (l' l2 l3 l4 : lib_state) (rate : Z) (hi lo : byte)
    (s distance valid fraction : Z) :
  let size := Z.of_nat (length msg) in
  let vsize := size - (ALLNET_HEADER_SIZE + s + 2) in
  let sig := size - 2 - s in
  is_local_pipe read_pipes from_pipe = false ->
  reaches_signature msg (lib w) l' ->
  largest_rate l' = (rate, l2) ->
  byte_at msg (size - 2) = Some hi ->
  byte_at msg (size - 1) = Some lo ->
  sig_size_of (schar hi) (schar lo) = Some s ->
  size < ALLNET_HEADER_SIZE + s + 2 ->
  s <= size - 2 ->
  social_connection (hopped msg) ALLNET_HEADER_SIZE vsize (offsetof f_source)
                    (field f_src_nbits msg) (field f_sig_algo msg) sig s l2
  = ((distance, valid), l3) ->
  track_rate (hopped msg) (offsetof f_source) (field f_src_nbits msg) size l3
  = (fraction, l4) ->
  vsize < 0
  /\ 0 <= sig < ALLNET_HEADER_SIZE
  /\ exists w',
       main_loop_body read_pipes write_pipes update_seconds
         (Message msg from_pipe frame_priority clock) w
       = Done (map (fun fd =>
                      mk_delivery fd (hopped msg) size
                        (if valid =? 0 then anonymous_priority msg rate
                         else compute_priority false size
                                (field f_src_nbits msg) (field f_dst_nbits msg)
                                (Z.min 255 (field f_hops msg + 1))
                                (field f_max_hops msg) distance fraction))
                   (pipes write_pipes)) w'.
Proof.
  intros size vsize sig Hl (Hv & (t & Hr & Ht) & Hm & Hh & Hsig) Hrate Hhi Hlo
    Hs Hout Hin Hsoc Htrack.
  split; [unfold vsize; lia|]. split; [unfold sig; lia|].
  cbv zeta in Hv, Hr. fold size in Hv, Hr.
  pose proof (valid_has_header _ _ Hv) as Hlen.
  destruct (process_packet_to_line_123 OK
              (arrived msg frame_priority clock w) size t l' l2 rate)
    as (w3 & P3 & Pr3 & L3 & _ & H3); try assumption; try reflexivity.
  cbn [packet arrived with_now with_priority with_packet] in P3, Pr3, H3.
  apply Z.eqb_neq in Hsig. rewrite Hsig in H3.
  unfold ALLNET_HEADER_SIZE in Hlen.
  rewrite bind_Done with (a := schar hi) (w1 := touch (Read_char (size - 2)) w3)
    in H3
    by (unfold load_char, load; rewrite P3, byte_at_hopped_other, Hhi
          by (simpl; lia); reflexivity).
  rewrite bind_Done with (a := schar lo)
    (w1 := touch (Read_char (size - 1)) (touch (Read_char (size - 2)) w3))
    in H3
    by (unfold load_char, load; cbn [packet touch];
        rewrite P3, byte_at_hopped_other, Hlo by (simpl; lia); reflexivity).
  unfold bind at 1 in H3. unfold defined at 1 in H3. rewrite Hs in H3.
  replace (ALLNET_HEADER_SIZE + s + 2 <=? size) with false in H3
    by (symmetry; apply Z.leb_gt; exact Hout).
  set (w4 := touch (Read_char (size - 1)) (touch (Read_char (size - 2)) w3))
    in H3.
  assert (Hlen4 : Z.of_nat (length (packet w4)) = size)
    by (cbn [w4 packet touch]; rewrite P3, length_hopped; reflexivity).
  pose proof (sig_size_of_nonneg _ _ _ Hs) as Hs0.
  rewrite (bind_Done _ _ _ _ _ (pointer_Done (size - 2 - s) w4
                                  ltac:(rewrite Hlen4; lia))) in H3.
  rewrite (bind_Done _ _ _ _ _ (pointer_Done ALLNET_HEADER_SIZE w4
                                  ltac:(rewrite Hlen4;
                                        unfold ALLNET_HEADER_SIZE; lia)))
    in H3.
  rewrite bind_Done with (a := (distance, valid)) (w1 := with_lib l3 w4) in H3
    by (apply call_Done; cbn [w4 packet lib touch]; rewrite P3, L3;
        exact Hsoc).
  cbn [fst snd] in H3.
  assert (exists w1,
             process_packet size false (arrived msg frame_priority clock w)
             = Done PROCESS_PACKET_ALL w1
             /\ packet w1 = hopped msg
             /\ priority w1
                = (if valid =? 0 then anonymous_priority msg rate
                   else compute_priority false size
                          (field f_src_nbits msg) (field f_dst_nbits msg)
                          (Z.min 255 (field f_hops msg + 1))
                          (field f_max_hops msg) distance fraction))
    as (w1 & H1 & P1 & Pr1).
  { destruct (valid =? 0).
    - eexists. split; [exact H3|]. cbn. auto.
    - rewrite bind_Done with (a := fraction)
        (w1 := with_lib l4 (with_lib l3 w4)) in H3
        by (apply call_Done; cbn [w4 packet lib touch with_lib]; rewrite P3;
            exact Htrack).
      eexists. split; [exact H3|]. cbn. auto. }
  destruct (main_loop_body_Done read_pipes write_pipes update_seconds msg
              from_pipe frame_priority clock w w1 PROCESS_PACKET_ALL
              (valid_not_empty OK _ Hv)) as (w2 & H2 & _).
  - rewrite Hl. exact H1.
  - exists w2. rewrite H2. unfold deliveries.
    cbn [Z.eqb PROCESS_PACKET_ALL Pos.eqb]. rewrite P1, Pr1. reflexivity.
Qed.

(** X21. When the signature length that line 125 decodes is more than
    [size - 2], line 128 forms a pointer that lies before the packet:
    the behaviour of the daemon is undefined for such a packet, and
    social_connection is not reached in any defined way. *)
Theorem signature_pointer_before_the_buffer_is_undefined (OK : LibraryOk L)
    (read_pipes write_pipes : pipe_table) (update_seconds : Z)
    (msg : list byte) (from_pipe frame_priority clock : Z) (w : world)
    (l' l2 : lib_state) (rate : Z) (hi lo : byte) (s : Z) :
  let size := Z.of_nat (length msg) in
  is_local_pipe read_pipes from_pipe = false ->
  reaches_signature msg (lib w) l' ->
  largest_rate l' = (rate, l2) ->
  byte_at msg (size - 2) = Some hi ->
  byte_at msg (size - 1) = Some lo ->
  sig_size_of (schar hi) (schar lo) = Some s ->
  size - 2 < s ->
  process_packet size false (arrived msg frame_priority clock w) = Undefined
  /\ main_loop_body read_pipes write_pipes update_seconds
       (Message msg from_pipe frame_priority clock) w = Undefined.
Proof.
  intros size Hl (Hv & (t & Hr & Ht) & Hm & Hh & Hsig) Hrate Hhi Hlo Hs Hbig.
  cbv zeta in Hv, Hr. fold size in Hv, Hr.
  pose proof (valid_has_header _ _ Hv) as Hlen.
  destruct (process_packet_to_line_123 OK
              (arrived msg frame_priority clock w) size t l' l2 rate)
    as (w3 & P3 & _ & _ & _ & H3); try assumption; try reflexivity.
  cbn [packet arrived with_now with_priority with_packet] in P3, H3.
  apply Z.eqb_neq in Hsig. rewrite Hsig in H3.
  unfold ALLNET_HEADER_SIZE in Hlen.
  rewrite bind_Done with (a := schar hi) (w1 := touch (Read_char (size - 2)) w3)
    in H3
    by (unfold load_char, load; rewrite P3, byte_at_hopped_other, Hhi
          by (simpl; lia); reflexivity).
  rewrite bind_Done with (a := schar lo)
    (w1 := touch (Read_char (size - 1)) (touch (Read_char (size - 2)) w3))
    in H3
    by (unfold load_char, load; cbn [packet touch];
        rewrite P3, byte_at_hopped_other, Hlo by (simpl; lia); reflexivity).
  unfold bind at 1 in H3. unfold defined at 1 in H3. rewrite Hs in H3.
  replace (ALLNET_HEADER_SIZE + s + 2 <=? size) with false in H3
    by (symmetry; apply Z.leb_gt; unfold ALLNET_HEADER_SIZE; lia).
  unfold bind at 1 in H3.
  rewrite pointer_Undefined in H3 by lia.
  split; [exact H3|].
  rewrite main_loop_body_Message. fold size.
  replace (size <=? 0) with false by (symmetry; apply Z.leb_gt; lia).
  unfold bind at 1. rewrite Hl, H3. reflexivity.
Qed.

(** X6. A signed packet from the network whose last byte is 24 or more
    makes line 125 shift an [int] by 32 bits or more: the behaviour of the
    daemon is undefined for it, whatever the byte before is. *)
Theorem shift_count_of_32_or_more_is_undefined (OK : LibraryOk L)
    (read_pipes write_pipes : pipe_table) (update_seconds : Z)
    (msg : list byte) (from_pipe frame_priority clock : Z) (w : world)
    (l' l2 : lib_state) (rate : Z) (hi lo : byte) :
  let size := Z.of_nat (length msg) in
  is_local_pipe read_pipes from_pipe = false ->
  reaches_signature msg (lib w) l' ->
  largest_rate l' = (rate, l2) ->
  byte_at msg (size - 2) = Some hi ->
  byte_at msg (size - 1) = Some lo ->
  24 <= uchar lo ->
  sig_size_of (schar hi) (schar lo) = None
  /\ main_loop_body read_pipes write_pipes update_seconds
       (Message msg from_pipe frame_priority clock) w = Undefined.
Proof.
  intros size Hl (Hv & (t & Hr & Ht) & Hm & Hh & Hsig) Hrate Hhi Hlo Hlong.
  assert (Hs : sig_size_of (schar hi) (schar lo) = None).
  { unfold sig_size_of, int_shl. rewrite !land_schar.
    replace (8 + uchar lo <? 32) with false
      by (symmetry; apply Z.ltb_ge; lia).
    rewrite andb_false_r. reflexivity. }
  split; [exact Hs|].
  cbv zeta in Hv, Hr. fold size in Hv, Hr.
  pose proof (valid_has_header _ _ Hv) as Hlen.
  destruct (process_packet_to_line_123 OK
              (arrived msg frame_priority clock w) size t l' l2 rate)
    as (w3 & P3 & _ & _ & _ & H3); try assumption; try reflexivity.
  cbn [packet arrived with_now with_priority with_packet] in P3, H3.
  apply Z.eqb_neq in Hsig. rewrite Hsig in H3.
  unfold ALLNET_HEADER_SIZE in Hlen.
  rewrite bind_Done with (a := schar hi) (w1 := touch (Read_char (size - 2)) w3)
    in H3
    by (unfold load_char, load; rewrite P3, byte_at_hopped_other, Hhi
          by (simpl; lia); reflexivity).
  rewrite bind_Done with (a := schar lo)
    (w1 := touch (Read_char (size - 1)) (touch (Read_char (size - 2)) w3))
    in H3
    by (unfold load_char, load; cbn [packet touch];
        rewrite P3, byte_at_hopped_other, Hlo by (simpl; lia); reflexivity).
  unfold bind at 1 in H3. unfold defined at 1 in H3. rewrite Hs in H3.
  rewrite main_loop_body_Message. fold size.
  replace (size <=? 0) with false by (symmetry; apply Z.leb_gt; lia).
  unfold bind at 1. rewrite Hl, H3. reflexivity.
Qed.


(** ** The other management types *)

(** Two labels of the [switch] that stand at different places differ. *)
Ltac label_neq OK :=
  let H := fresh "H" in
  let E := fresh "E" in
  pose proof (@mgmt_labels_distinct _ OK) as H;
  repeat (apply NoDup_cons in H; destruct H as [? H]);
  intros E;
  match goal with
  | N : _ ∉ _ |- _ =>
      apply N; first [rewrite <- E | rewrite E]; solve [repeat constructor]
  end.

Lemma switch_reaches_peers (OK : LibraryOk L) (ty : Z) :
  ty = ALLNET_MGMT_PEER_REQUEST \/ ty = ALLNET_MGMT_PEERS
  \/ ty = ALLNET_MGMT_DHT ->
  (ty =? ALLNET_MGMT_BEACON) || (ty =? ALLNET_MGMT_BEACON_REPLY)
  || (ty =? ALLNET_MGMT_BEACON_GRANT) = false
  /\ (ty =? ALLNET_MGMT_PEER_REQUEST) || (ty =? ALLNET_MGMT_PEERS)
     || (ty =? ALLNET_MGMT_DHT) = true.
Proof.
  assert (A1 : ALLNET_MGMT_PEER_REQUEST <> ALLNET_MGMT_BEACON) by label_neq OK.
  assert (A2 : ALLNET_MGMT_PEER_REQUEST <> ALLNET_MGMT_BEACON_REPLY)
    by label_neq OK.
  assert (A3 : ALLNET_MGMT_PEER_REQUEST <> ALLNET_MGMT_BEACON_GRANT)
    by label_neq OK.
  assert (B1 : ALLNET_MGMT_PEERS <> ALLNET_MGMT_BEACON) by label_neq OK.
  assert (B2 : ALLNET_MGMT_PEERS <> ALLNET_MGMT_BEACON_REPLY) by label_neq OK.
  assert (B3 : ALLNET_MGMT_PEERS <> ALLNET_MGMT_BEACON_GRANT) by label_neq OK.
  assert (C1 : ALLNET_MGMT_DHT <> ALLNET_MGMT_BEACON) by label_neq OK.
  assert (C2 : ALLNET_MGMT_DHT <> ALLNET_MGMT_BEACON_REPLY) by label_neq OK.
  assert (C3 : ALLNET_MGMT_DHT <> ALLNET_MGMT_BEACON_GRANT) by label_neq OK.
  apply Z.eqb_neq in A1, A2, A3, B1, B2, B3, C1, C2, C3.
  intros [-> | [-> | ->]].
  - rewrite A1, A2, A3, Z.eqb_refl. auto.
  - rewrite B1, B2, B3, Z.eqb_refl, orb_true_r. auto.
  - rewrite C1, C2, C3, Z.eqb_refl, orb_true_r. auto.
Qed.

Lemma switch_reaches_trace_reply (OK : LibraryOk L) :
  (ALLNET_MGMT_TRACE_REPLY =? ALLNET_MGMT_BEACON)
  || (ALLNET_MGMT_TRACE_REPLY =? ALLNET_MGMT_BEACON_REPLY)
  || (ALLNET_MGMT_TRACE_REPLY =? ALLNET_MGMT_BEACON_GRANT) = false
  /\ (ALLNET_MGMT_TRACE_REPLY =? ALLNET_MGMT_PEER_REQUEST)
     || (ALLNET_MGMT_TRACE_REPLY =? ALLNET_MGMT_PEERS)
     || (ALLNET_MGMT_TRACE_REPLY =? ALLNET_MGMT_DHT) = false
  /\ (ALLNET_MGMT_TRACE_REPLY =? ALLNET_MGMT_TRACE_REQ) = false.
Proof.
  assert (A1 : ALLNET_MGMT_TRACE_REPLY <> ALLNET_MGMT_BEACON) by label_neq OK.
  assert (A2 : ALLNET_MGMT_TRACE_REPLY <> ALLNET_MGMT_BEACON_REPLY)
    by label_neq OK.
  assert (A3 : ALLNET_MGMT_TRACE_REPLY <> ALLNET_MGMT_BEACON_GRANT)
    by label_neq OK.
  assert (A4 : ALLNET_MGMT_TRACE_REPLY <> ALLNET_MGMT_PEER_REQUEST)
    by label_neq OK.
  assert (A5 : ALLNET_MGMT_TRACE_REPLY <> ALLNET_MGMT_PEERS) by label_neq OK.
  assert (A6 : ALLNET_MGMT_TRACE_REPLY <> ALLNET_MGMT_DHT) by label_neq OK.
  assert (A7 : ALLNET_MGMT_TRACE_REPLY <> ALLNET_MGMT_TRACE_REQ)
    by label_neq OK.
  apply Z.eqb_neq in A1, A2, A3, A4, A5, A6, A7.
  rewrite A1, A2, A3, A4, A5, A6, A7. auto.
Qed.

Lemma switch_reaches_default (ty : Z) :
  known_mgmt_type ty = false ->
  (ty =? ALLNET_MGMT_BEACON) || (ty =? ALLNET_MGMT_BEACON_REPLY)
  || (ty =? ALLNET_MGMT_BEACON_GRANT) = false
  /\ (ty =? ALLNET_MGMT_PEER_REQUEST) || (ty =? ALLNET_MGMT_PEERS)
     || (ty =? ALLNET_MGMT_DHT) = false
  /\ (ty =? ALLNET_MGMT_TRACE_REQ) = false
  /\ (ty =? ALLNET_MGMT_TRACE_REPLY) = false.
Proof.
  unfold known_mgmt_type. rewrite !orb_false_iff.
  intros (((((((A & B) & C) & D) & E) & F) & G) & H).
  rewrite A, B, C, D, E, F, G, H. auto.
Qed.

(** A management packet that is valid and new to the filter, in a turn of
    the loop: process_mgmt runs its [switch] on the mgmt_type. *)
Lemma main_loop_body_mgmt (OK : LibraryOk L)
    (read_pipes write_pipes : pipe_table) (update_seconds : Z)
    (msg : list byte) (from_pipe frame_priority clock : Z) (w : world)
    (t : Z) (l' : lib_state) (ty p : Z) (w1 : world) :
  let size := Z.of_nat (length msg) in
  let w0 := fresh l' (arrived msg frame_priority clock w) in
  let is_local := is_local_pipe read_pipes from_pipe in
  is_valid_message msg size = true ->
  record_packet_time msg HEADER_SKIP (size - HEADER_SKIP) 0 (lib w) = (t, l') ->
  ~ (0 < t < 60) ->
  field f_message_type msg = ALLNET_TYPE_MGMT ->
  process_mgmt size is_local w0 = Done p w1 ->
  exists w',
    main_loop_body read_pipes write_pipes update_seconds
      (Message msg from_pipe frame_priority clock) w
    = Done (deliveries p size write_pipes w1) w'
    /\ trace_received w' = trace_received w1.
Proof.
  intros size w0 is_local Hv Hr Ht Hm Hp.
  apply (main_loop_body_Done read_pipes write_pipes update_seconds msg
           from_pipe frame_priority clock w w1 p (valid_not_empty OK _ Hv)).
  rewrite (process_packet_mgmt OK size _ _ t l'); try assumption; reflexivity.
Qed.

(** X7. A management packet of type PEER_REQUEST, PEERS or DHT that is
    valid and new to the filter goes to alocal and acache only, at priority
    0, unchanged, from a local pipe as from the network (lines 42-45); the
    trace timestamp is left as it was. *)
Theorem peer_management_stays_local (OK : LibraryOk L)
    (read_pipes write_pipes : pipe_table) (update_seconds : Z)
    (msg : list byte) (from_pipe frame_priority clock : Z) (w : world)
    (t : Z) (l' : lib_state) (ty : Z) :
  let size := Z.of_nat (length msg) in
  is_valid_message msg size = true ->
  record_packet_time msg HEADER_SKIP (size - HEADER_SKIP) 0 (lib w) = (t, l') ->
  ~ (0 < t < 60) ->
  field f_message_type msg = ALLNET_TYPE_MGMT ->
  mgmt_packet_of msg size ty ->
  ty = ALLNET_MGMT_PEER_REQUEST \/ ty = ALLNET_MGMT_PEERS
  \/ ty = ALLNET_MGMT_DHT ->
  exists w',
    main_loop_body read_pipes write_pipes update_seconds
      (Message msg from_pipe frame_priority clock) w
    = Done [mk_delivery (alocal write_pipes) msg size 0;
            mk_delivery (acache write_pipes) msg size 0] w'
    /\ trace_received w' = trace_received w.
Proof.
  intros size Hv Hr Ht Hm Hp Hty.
  pose proof (mgmt_packet_of_long _ _ _ Hp) as Hlong.
  destruct Hp as (_ & Hrange & Hat).
  destruct (switch_reaches_peers OK ty Hty) as (B & P).
  set (w0 := fresh l' (arrived msg frame_priority clock w)).
  assert (H : process_mgmt size (is_local_pipe read_pipes from_pipe) w0
              = Done PROCESS_PACKET_LOCAL
                     (switched size (is_local_pipe read_pipes from_pipe) w0)).
  { rewrite (process_mgmt_long size _ w0 ty); try assumption.
    - rewrite B, P. reflexivity.
    - cbn. fold size. lia. }
  destruct (main_loop_body_mgmt OK read_pipes write_pipes update_seconds msg
              from_pipe frame_priority clock w t l' ty _ _ Hv Hr Ht Hm H)
    as (w' & H' & T').
  exists w'. split.
  - rewrite H'. unfold deliveries.
    cbn [Z.eqb PROCESS_PACKET_LOCAL PROCESS_PACKET_ALL Pos.eqb].
    destruct (is_local_pipe read_pipes from_pipe); reflexivity.
  - rewrite T'. destruct (is_local_pipe read_pipes from_pipe); reflexivity.
Qed.

(** X8. A TRACE_REPLY is sent to every pipe, at the priority of its
    frame when it comes from a local pipe and at EPSILON when it comes from
    the network (lines 28-29 and 60-61).  A management packet of a type
    the [switch] does not name is sent to every pipe at EPSILON wherever it
    comes from (lines 66-69).  Neither moves the trace timestamp. *)
Theorem trace_reply_and_unknown_management_are_flooded (OK : LibraryOk L)
    (read_pipes write_pipes : pipe_table) (update_seconds : Z)
    (msg : list byte) (from_pipe frame_priority clock : Z) (w : world)
    (t : Z) (l' : lib_state) (ty : Z) :
  let size := Z.of_nat (length msg) in
  let is_local := is_local_pipe read_pipes from_pipe in
  is_valid_message msg size = true ->
  record_packet_time msg HEADER_SKIP (size - HEADER_SKIP) 0 (lib w) = (t, l') ->
  ~ (0 < t < 60) ->
  field f_message_type msg = ALLNET_TYPE_MGMT ->
  mgmt_packet_of msg size ty ->
  (ty = ALLNET_MGMT_TRACE_REPLY ->
   exists w',
     main_loop_body read_pipes write_pipes update_seconds
       (Message msg from_pipe frame_priority clock) w
     = Done (map (fun fd =>
                    mk_delivery fd msg size
                      (if is_local then frame_priority else EPSILON))
                 (pipes write_pipes)) w'
     /\ trace_received w' = trace_received w)
  /\ (known_mgmt_type ty = false ->
      exists w',
        main_loop_body read_pipes write_pipes update_seconds
          (Message msg from_pipe frame_priority clock) w
        = Done (map (fun fd => mk_delivery fd msg size EPSILON)
                    (pipes write_pipes)) w'
        /\ trace_received w' = trace_received w).
Proof.
  intros size is_local Hv Hr Ht Hm Hp.
  pose proof (mgmt_packet_of_long _ _ _ Hp) as Hlong.
  destruct Hp as (_ & Hrange & Hat).
  set (w0 := fresh l' (arrived msg frame_priority clock w)).
  assert (Hlen : ALLNET_HEADER_SIZE <= Z.of_nat (length (packet w0)))
    by (cbn; fold size; lia).
  split.
  - intros ->. destruct (switch_reaches_trace_reply OK) as (B & P & T).
    assert (H : process_mgmt size is_local w0
                = Done PROCESS_PACKET_ALL (switched size is_local w0)).
    { rewrite (process_mgmt_long size _ w0 ALLNET_MGMT_TRACE_REPLY);
        try assumption.
      rewrite B, P, T, Z.eqb_refl. reflexivity. }
    destruct (main_loop_body_mgmt OK read_pipes write_pipes update_seconds msg
                from_pipe frame_priority clock w t l' ALLNET_MGMT_TRACE_REPLY
                _ _ Hv Hr Ht Hm H) as (w' & H' & T').
    exists w'. split.
    + rewrite H'. unfold deliveries.
      cbn [Z.eqb PROCESS_PACKET_ALL Pos.eqb].
      subst is_local. destruct (is_local_pipe read_pipes from_pipe);
        reflexivity.
    + rewrite T'. subst is_local.
      destruct (is_local_pipe read_pipes from_pipe); reflexivity.
  - intros Hu. destruct (switch_reaches_default ty Hu) as (B & P & T & R).
    assert (H : process_mgmt size is_local w0
                = Done PROCESS_PACKET_ALL
                       (with_priority EPSILON (switched size is_local w0))).
    { rewrite (process_mgmt_long size _ w0 ty); try assumption.
      rewrite B, P, T, R. reflexivity. }
    destruct (main_loop_body_mgmt OK read_pipes write_pipes update_seconds msg
                from_pipe frame_priority clock w t l' ty
                _ _ Hv Hr Ht Hm H) as (w' & H' & T').
    exists w'. split.
    + rewrite H'. unfold deliveries.
      cbn [Z.eqb PROCESS_PACKET_ALL Pos.eqb].
      subst is_local. destruct (is_local_pipe read_pipes from_pipe);
        reflexivity.
    + rewrite T'. subst is_local.
      destruct (is_local_pipe read_pipes from_pipe); reflexivity.
Qed.


(** ** What process_mgmt and process_packet leave as it is *)

Lemma invariant_bind {A B} (I : world -> Prop) (m : M A) (k : A -> M B) :
  invariant I m -> (forall a, invariant I (k a)) -> invariant I (bind m k).
Proof.
  intros Hm Hk w b w2 HI H.
  apply bind_Done_inv in H. destruct H as (a & w1 & H1 & H2).
  exact (Hk a w1 b w2 (Hm w a w1 HI H1) H2).
Qed.

Lemma ends_with_bind {A B} (Q : B -> Prop) (m : M A) (k : A -> M B) :
  ends_with (fun _ => True) m -> (forall a, ends_with Q (k a)) ->
  ends_with Q (bind m k).
Proof.
  intros Hm Hk w. specialize (Hm w). unfold bind.
  destruct (m w) as [a w1| |]; [apply Hk|contradiction|exact I].
Qed.

Ltac invariant_prim :=
  let w := fresh "w" in
  let a := fresh "a" in
  let w' := fresh "w'" in
  let HI := fresh "HI" in
  let H := fresh "H" in
  intros w a w' HI H;
  unfold load_field, load_mgmt_type, load_char, load, store_field, peek,
    pointer,
    call, time_NULL, get_trace_received, set_trace_received, get_priority,
    set_priority, get_next_update, set_next_update, defined, ret in H;
  repeat match type of H with
         | context [match ?x with _ => _ end] => destruct x
         end;
  inversion H; subst; first [exact HI | reflexivity].

Ltac invariant_auto :=
  cbv zeta;
  lazymatch goal with
  | |- invariant _ (bind _ _) =>
      apply invariant_bind; [invariant_auto | intro; invariant_auto]
  | |- invariant _ (if ?c then _ else _) => destruct c; invariant_auto
  | |- _ => invariant_prim
  end.

Ltac ends_with_prim :=
  let w := fresh "w" in
  intros w;
  unfold load_field, load_mgmt_type, load_char, load, store_field, peek,
    pointer,
    call, time_NULL, get_trace_received, set_trace_received, get_priority,
    set_priority, get_next_update, set_next_update, defined, ret;
  repeat match goal with
         | |- context [match ?x with _ => _ end] =>
             lazymatch x with
             | context [match _ with _ => _ end] => fail
             | _ => destruct x
             end
         end;
  cbn; auto.

Ltac ends_with_auto :=
  cbv zeta;
  lazymatch goal with
  | |- ends_with _ (bind _ _) =>
      apply ends_with_bind; [ends_with_auto | intro; ends_with_auto]
  | |- ends_with _ (if ?c then _ else _) => destruct c; ends_with_auto
  | |- _ => ends_with_prim
  end.

Lemma process_packet_ends (size : Z) (is_local : bool) :
  ends_with is_verdict (process_packet size is_local).
Proof.
  unfold process_packet, process_mgmt, is_verdict. ends_with_auto.
Qed.

(** X9. process_packet never ends the process, and whenever it returns,
    it returns PROCESS_PACKET_DROP, PROCESS_PACKET_LOCAL or
    PROCESS_PACKET_ALL: the [switch] of main_loop, which has no default,
    has a case for every value it gets.  In particular 0, which the
    comment above process_packet gives as the value for a dropped packet,
    is never returned. *)
Theorem process_packet_returns_a_verdict (size : Z) (is_local : bool)
    (w : world) :
  match process_packet size is_local w with
  | Done p _ => is_verdict p
  | Exit _ => False
  | Undefined => True
  end.
Proof.
  revert w. change (ends_with is_verdict (process_packet size is_local)).
  unfold process_packet, process_mgmt, is_verdict. ends_with_auto.
Qed.

(** X10. Whatever process_mgmt returns for a packet that is not local,
    it leaves the priority at EPSILON: lines 28-29 set it and no case of
    the [switch] sets it to anything else. *)
Theorem process_mgmt_demotes_network_packets (msize : Z) (w w1 : world)
    (p : Z) :
  process_mgmt msize false w = Done p w1 -> priority w1 = EPSILON.
Proof.
  unfold process_mgmt. cbn [negb]. intros H.
  apply bind_Done_inv in H. destruct H as ([] & w0 & H0 & H).
  injection H0 as <-.
  revert H.
  match goal with
  | |- ?m ?w0 = _ -> _ =>
      assert (K : invariant (fun w => priority w = EPSILON) m)
        by invariant_auto;
      intros H; eapply K; [|exact H]; reflexivity
  end.
Qed.


(** What the [switch] of process_mgmt does to the trace timestamp. *)
Lemma process_mgmt_trace_received (msize : Z) (is_local : bool)
    (w w1 : world) (p : Z) :
  ALLNET_HEADER_SIZE <= Z.of_nat (length (packet w)) ->
  process_mgmt msize is_local w = Done p w1 ->
  trace_received w1 = trace_received w
  \/ (mgmt_type_at (packet w) msize = Some ALLNET_MGMT_TRACE_REQ
      /\ ((is_local = true /\ trace_received w1 = 0
           /\ p = PROCESS_PACKET_ALL)
          \/ (is_local = false /\ trace_received w1 = now w
              /\ p = PROCESS_PACKET_LOCAL))).
Proof.
  intros Hlen H.
  destruct (process_mgmt_Done_inv _ _ _ _ _ Hlen H) as [Hs|(Hs & ty & Hty)].
  { rewrite (process_mgmt_short _ _ _ Hlen Hs) in H.
    injection H as <- <-. left. destruct is_local; reflexivity. }
  rewrite (process_mgmt_long _ _ _ _ Hlen Hs Hty) in H.
  assert (T0 : trace_received (switched msize is_local w)
               = trace_received w) by (destruct is_local; reflexivity).
  assert (N0 : now (switched msize is_local w) = now w)
    by (destruct is_local; reflexivity).
  revert H.
  generalize dependent (switched msize is_local w). intros ws T0 N0.
  unfold bind, set_trace_received, set_priority, get_trace_received,
    time_NULL, ret.
  destruct ((ty =? ALLNET_MGMT_BEACON) || (ty =? ALLNET_MGMT_BEACON_REPLY)
            || (ty =? ALLNET_MGMT_BEACON_GRANT));
    [intros [= <- <-]; left; exact T0|].
  destruct ((ty =? ALLNET_MGMT_PEER_REQUEST) || (ty =? ALLNET_MGMT_PEERS)
            || (ty =? ALLNET_MGMT_DHT));
    [intros [= <- <-]; left; exact T0|].
  destruct (ty =? ALLNET_MGMT_TRACE_REQ) eqn:Et.
  - apply Z.eqb_eq in Et. subst ty.
    destruct is_local.
    + intros [= <- <-]. right. split; [exact Hty|]. left. cbn. auto.
    + cbv beta iota.
      destruct (negb (trace_received ws =? 0)).
      * cbv beta iota. destruct (10 <? now ws - trace_received ws).
        -- intros [= <- <-]. left. exact T0.
        -- intros [= <- <-]. right. split; [exact Hty|]. right. cbn. auto.
      * intros [= <- <-]. right. split; [exact Hty|]. right. cbn. auto.
  - destruct (ty =? ALLNET_MGMT_TRACE_REPLY);
      intros [= <- <-]; left; exact T0.
Qed.

Lemma process_packet_keeps_clock (size : Z) (is_local : bool) :
  keeps now (process_packet size is_local).
Proof. unfold process_packet, process_mgmt. keeps_auto. Qed.

Lemma process_packet_keeps_next_update (size : Z) (is_local : bool) :
  keeps next_update (process_packet size is_local).
Proof. unfold process_packet, process_mgmt. keeps_auto. Qed.

(** What process_packet does to the trace timestamp. *)
Lemma process_packet_trace_received (OK : LibraryOk L)
    (size : Z) (is_local : bool) (w w1 : world) (p : Z) :
  size = Z.of_nat (length (packet w)) ->
  process_packet size is_local w = Done p w1 ->
  trace_received w1 = trace_received w
  \/ (field f_message_type (packet w) = ALLNET_TYPE_MGMT
      /\ mgmt_type_at (packet w) size = Some ALLNET_MGMT_TRACE_REQ
      /\ ((is_local = true /\ trace_received w1 = 0
           /\ p = PROCESS_PACKET_ALL)
          \/ (is_local = false /\ trace_received w1 = now w
              /\ p = PROCESS_PACKET_LOCAL))).
Proof.
  intros Hs H.
  destruct (is_valid_message (packet w) size) eqn:Hv.
  2:{ rewrite (process_packet_invalid _ _ _ Hv) in H. injection H as <- <-.
      left. reflexivity. }
  pose proof (valid_has_header _ _ Hv) as Hlen.
  destruct (record_packet_time (packet w) HEADER_SKIP (size - HEADER_SKIP) 0
              (lib w)) as [t l'] eqn:Hr.
  assert (Hw : 0 < t < 60 \/ ~ (0 < t < 60)) by lia.
  destruct Hw as [Hw|Hw].
  { rewrite (process_packet_duplicate size _ w t l' Hv Hr Hw) in H.
    injection H as <- <-. left. reflexivity. }
  destruct (Z.eq_dec (field f_message_type (packet w)) ALLNET_TYPE_MGMT)
    as [Em|Em].
  - rewrite (process_packet_mgmt OK size _ w t l') in H by assumption.
    apply process_mgmt_trace_received in H; [|cbn; lia].
    destruct H as [H|(Hty & H)]; [left; exact H|].
    right. split; [exact Em|]. split; [exact Hty|]. exact H.
  - destruct (process_packet_data OK size is_local w w1 t l' p)
      as (Tr & _ & _); try assumption.
    left. exact Tr.
Qed.

(** X11. process_packet changes neither the clock nor the time of the
    next update, and it changes the trace timestamp of process_mgmt only
    for a management packet of type TRACE_REQ: a local one resets it to 0
    and is sent everywhere, one from the network that is kept local sets
    it to the current time. *)
Theorem only_trace_requests_move_the_trace_timestamp (OK : LibraryOk L)
    (size : Z) (is_local : bool) (w w1 : world) (p : Z) :
  size = Z.of_nat (length (packet w)) ->
  process_packet size is_local w = Done p w1 ->
  now w1 = now w
  /\ next_update w1 = next_update w
  /\ (trace_received w1 = trace_received w
      \/ (field f_message_type (packet w) = ALLNET_TYPE_MGMT
          /\ mgmt_type_at (packet w) size = Some ALLNET_MGMT_TRACE_REQ
          /\ ((is_local = true /\ trace_received w1 = 0
               /\ p = PROCESS_PACKET_ALL)
              \/ (is_local = false /\ trace_received w1 = now w
                  /\ p = PROCESS_PACKET_LOCAL)))).
Proof.
  intros Hs H.
  split; [exact (process_packet_keeps_clock _ _ _ _ _ H)|].
  split; [exact (process_packet_keeps_next_update _ _ _ _ _ H)|].
  exact (process_packet_trace_received OK _ _ _ _ _ Hs H).
Qed.

(** The buffer after process_packet: as received, or with the hop count
    incremented. *)
Lemma process_packet_buffer (OK : LibraryOk L) (size : Z) (is_local : bool)
    (w w1 : world) (p : Z) :
  size = Z.of_nat (length (packet w)) ->
  process_packet size is_local w = Done p w1 ->
  packet w1 = packet w \/ packet w1 = hopped (packet w).
Proof.
  intros Hs H.
  destruct (is_valid_message (packet w) size) eqn:Hv.
  2:{ rewrite (process_packet_invalid _ _ _ Hv) in H. injection H as <- <-.
      left. reflexivity. }
  destruct (record_packet_time (packet w) HEADER_SKIP (size - HEADER_SKIP) 0
              (lib w)) as [t l'] eqn:Hr.
  assert (Hw : 0 < t < 60 \/ ~ (0 < t < 60)) by lia.
  destruct Hw as [Hw|Hw].
  { rewrite (process_packet_duplicate size _ w t l' Hv Hr Hw) in H.
    injection H as <- <-. left. reflexivity. }
  destruct (Z.eq_dec (field f_message_type (packet w)) ALLNET_TYPE_MGMT)
    as [Em|Em].
  - rewrite (process_packet_mgmt OK size _ w t l') in H by assumption.
    apply process_mgmt_keeps_packet in H. left. exact H.
  - destruct (process_packet_data OK size is_local w w1 t l' p)
      as (_ & Pk & _); try assumption.
    destruct is_local; [left|right]; exact Pk.
Qed.

(** X12. Whatever the message, a turn of the loop that goes on sends
    nothing, or one message to alocal and one to acache at priority 0, or
    one message to each pipe in the order of write_pipes, all at the same
    priority.  The bytes sent are the bytes received, or those with the
    hop count incremented; their number is the size received. *)
Theorem a_turn_sends_to_none_two_or_all (OK : LibraryOk L)
    (read_pipes write_pipes : pipe_table) (update_seconds : Z)
    (msg : list byte) (from_pipe frame_priority clock : Z) (w w' : world)
    (outs : list delivery) :
  main_loop_body read_pipes write_pipes update_seconds
    (Message msg from_pipe frame_priority clock) w = Done outs w' ->
  exists bytes pri,
    (bytes = msg \/ bytes = hopped msg)
    /\ length bytes = length msg
    /\ (outs = []
        \/ outs = [mk_delivery (alocal write_pipes) bytes
                               (Z.of_nat (length msg)) 0;
                   mk_delivery (acache write_pipes) bytes
                               (Z.of_nat (length msg)) 0]
        \/ outs = map (fun fd => mk_delivery fd bytes (Z.of_nat (length msg))
                                             pri)
                      (pipes write_pipes)).
Proof.
  intros H. apply main_loop_body_Done_inv in H.
  destruct H as (_ & p & w1 & Hp & -> & _).
  exists (packet w1), (priority w1).
  pose proof (process_packet_buffer OK _ _ _ _ _ eq_refl Hp) as Hb.
  cbn [packet arrived with_now with_priority with_packet] in Hb.
  split; [exact Hb|]. split.
  - destruct Hb as [-> | ->]; [reflexivity|apply length_hopped].
  - unfold deliveries. destruct (p =? PROCESS_PACKET_ALL); [auto|].
    destruct (p =? PROCESS_PACKET_LOCAL); auto.
Qed.


(** ** The priority of a frame from the network *)

Lemma same_but_priority_refl (w : world) : same_but_priority w w.
Proof. unfold same_but_priority. auto 10. Qed.

Lemma alike_refl {A} (final : A -> bool) (o : outcome A) : alike final o o.
Proof.
  destruct o; cbn; auto using same_but_priority_refl.
Qed.

Lemma with_priority_same (v : Z) (w w' : world) :
  same_but_priority w w' -> with_priority v w' = with_priority v w.
Proof.
  intros (T & N & P & U & Lb & To). unfold with_priority.
  rewrite T, N, P, U, Lb, To. reflexivity.
Qed.

Lemma blind_bind {A B} (final : B -> bool) (m : M A) (k : A -> M B) :
  blind (fun _ => false) m -> (forall a, blind final (k a)) ->
  blind final (bind m k).
Proof.
  intros Hm Hk w w' E. specialize (Hm w w' E). unfold bind.
  destruct (m w) as [a w1| |], (m w') as [a' w1'| |]; cbn in Hm;
    try contradiction; try exact Hm; try exact I.
  destruct Hm as (<- & E1 & _). apply Hk. exact E1.
Qed.

Lemma blind_set_priority_bind {B} (final : B -> bool) (v : Z)
    (k : unit -> M B) :
  blind final (bind (set_priority v) k).
Proof.
  intros w w' E. unfold bind, set_priority.
  rewrite (with_priority_same v w w' E). apply alike_refl.
Qed.

Ltac blind_prim :=
  let w := fresh "w" in
  let w' := fresh "w'" in
  let T := fresh "T" in
  let N := fresh "N" in
  let P := fresh "P" in
  let U := fresh "U" in
  let Lb := fresh "Lb" in
  let To := fresh "To" in
  intros w w' (T & N & P & U & Lb & To);
  unfold load_field, load_mgmt_type, load_char, load, store_field, peek,
    pointer,
    call, time_NULL, get_trace_received, set_trace_received,
    get_next_update, set_next_update, defined, ret, alike,
    same_but_priority;
  rewrite ?T, ?N, ?P, ?U, ?Lb;
  repeat match goal with
         | |- context [match ?x with _ => _ end] =>
             lazymatch x with
             | context [match _ with _ => _ end] => fail
             | _ => destruct x
             end
         end;
  cbn; rewrite ?T, ?N, ?P, ?U, ?Lb, ?To;
  first [exact I | reflexivity
        | repeat split; first [reflexivity | assumption | discriminate]].

Ltac blind_auto :=
  cbv zeta;
  lazymatch goal with
  | |- blind _ (bind (set_priority _) _) => apply blind_set_priority_bind
  | |- blind _ (bind _ _) =>
      apply blind_bind; [blind_auto | intro; blind_auto]
  | |- blind _ (if ?c then _ else _) => destruct c; blind_auto
  | |- _ => blind_prim
  end.

Lemma process_packet_blind (size : Z) :
  blind is_all (process_packet size false).
Proof.
  unfold process_packet, process_mgmt.
  cbv beta iota delta [negb]. unfold is_all. blind_auto.
Qed.

(** X13. The comment of line 189: incoming priorities are ignored unless
    from local.  A message from a pipe that is not local is answered with
    the same deliveries, priorities included, whatever the priority of the
    frame it arrived in. *)
Theorem frame_priority_of_network_packets_is_ignored
    (read_pipes write_pipes : pipe_table) (update_seconds : Z)
    (msg : list byte) (from_pipe clock : Z) (q1 q2 : Z) (w w1 : world)
    (outs : list delivery) :
  is_local_pipe read_pipes from_pipe = false ->
  main_loop_body read_pipes write_pipes update_seconds
    (Message msg from_pipe q1 clock) w = Done outs w1 ->
  exists w2,
    main_loop_body read_pipes write_pipes update_seconds
      (Message msg from_pipe q2 clock) w = Done outs w2.
Proof.
  intros Hl H. apply main_loop_body_Done_inv in H.
  destruct H as (Hne & p & w1' & Hp & -> & _).
  rewrite Hl in Hp.
  assert (E : same_but_priority (arrived msg q1 clock w)
                                (arrived msg q2 clock w))
    by (unfold same_but_priority; cbn; auto 10).
  pose proof (process_packet_blind (Z.of_nat (length msg)) _ _ E) as Hb.
  rewrite Hp in Hb.
  destruct (process_packet (Z.of_nat (length msg)) false
              (arrived msg q2 clock w)) as [p' w2'| |] eqn:Hp2;
    cbn in Hb; try contradiction.
  destruct Hb as (<- & (_ & _ & Pk & _) & Hpri).
  destruct (main_loop_body_Done read_pipes write_pipes update_seconds msg
              from_pipe q2 clock w w2' p Hne) as (w2 & H2 & _).
  { rewrite Hl. exact Hp2. }
  exists w2. rewrite H2. f_equal.
  unfold deliveries. unfold is_all in Hpri.
  destruct (p =? PROCESS_PACKET_ALL).
  - rewrite Pk, (Hpri eq_refl). reflexivity.
  - rewrite Pk. reflexivity.
Qed.


(** ** Traces that keep coming *)

(** A remote TRACE_REQ while the timestamp is 0 or at most 10 seconds
    old. *)
Lemma process_mgmt_recent (OK : LibraryOk L) (msize : Z) (w w1 : world)
    (p : Z) :
  ALLNET_HEADER_SIZE <= Z.of_nat (length (packet w)) ->
  trace_received w = 0 \/ now w - trace_received w <= 10 ->
  mgmt_type_at (packet w) msize = Some ALLNET_MGMT_TRACE_REQ ->
  process_mgmt msize false w = Done p w1 ->
  p = PROCESS_PACKET_DROP \/ p = PROCESS_PACKET_LOCAL.
Proof.
  intros Hlen Hrec Hty H.
  destruct (too_short (packet w) msize) eqn:Hs.
  { rewrite (process_mgmt_short _ _ _ Hlen Hs) in H.
    injection H as <- <-. left. reflexivity. }
  rewrite (process_mgmt_long _ _ _ _ Hlen Hs Hty) in H.
  destruct (switch_reaches_trace_req OK) as (B & P).
  rewrite B, P, Z.eqb_refl in H.
  unfold bind, get_trace_received, time_NULL, set_trace_received, ret in H.
  cbn [trace_received now switched touch demoted with_priority] in H.
  destruct (trace_received w =? 0) eqn:E; cbn [negb] in H.
  - injection H as <- <-. right. reflexivity.
  - apply Z.eqb_neq in E. cbv beta iota in H.
    cbn [now switched touch demoted with_priority] in H.
    replace (10 <? now w - trace_received w) with false in H
      by (symmetry; apply Z.ltb_ge; lia).
    injection H as <- <-. right. reflexivity.
Qed.

Lemma main_loop_body_recent (OK : LibraryOk L)
    (read_pipes write_pipes : pipe_table) (update_seconds : Z)
    (ev : arrival) (w w' : world) (outs : list delivery) (a : Z) :
  trace_received w = 0 \/ a <= trace_received w ->
  within_ten a ev ->
  main_loop_body read_pipes write_pipes update_seconds ev w = Done outs w' ->
  (trace_received w' = 0 \/ a <= trace_received w')
  /\ (remote_trace_req read_pipes ev ->
      outs = [] \/ kept_local write_pipes ev outs).
Proof.
  intros HJ Hc H.
  destruct ev as [msg from_pipe frame_priority clock|psize from_pipe];
    [|discriminate H].
  cbn [within_ten remote_trace_req kept_local] in *.
  apply main_loop_body_Done_inv in H.
  destruct H as (Hne & p & w1 & Hp & -> & ->).
  set (size := Z.of_nat (length msg)) in *.
  set (w0 := arrived msg frame_priority clock w) in *.
  assert (S0 : size = Z.of_nat (length (packet w0))) by reflexivity.
  split.
  - destruct (process_packet_trace_received OK size _ w0 w1 p S0 Hp)
      as [Tr|(_ & _ & [(_ & Tr & _)|(_ & Tr & _)])].
    + rewrite Tr. exact HJ.
    + left. exact Tr.
    + right. rewrite Tr. cbn. lia.
  - intros (El & Em & Hty). rewrite El in Hp.
    destruct (is_valid_message (packet w0) size) eqn:Hv.
    2:{ rewrite (process_packet_invalid _ _ _ Hv) in Hp.
        injection Hp as <- <-. left. reflexivity. }
    pose proof (valid_has_header _ _ Hv) as Hlen.
    destruct (record_packet_time (packet w0) HEADER_SKIP (size - HEADER_SKIP)
                0 (lib w0)) as [t l'] eqn:Hr.
    assert (Hw : 0 < t < 60 \/ ~ (0 < t < 60)) by lia.
    destruct Hw as [Hw|Hw].
    { rewrite (process_packet_duplicate size _ w0 t l' Hv Hr Hw) in Hp.
      injection Hp as <- <-. left. reflexivity. }
    rewrite (process_packet_mgmt OK size _ w0 t l') in Hp by assumption.
    pose proof (process_mgmt_keeps_packet _ _ _ _ _ Hp) as Pk.
    apply (process_mgmt_recent OK) in Hp.
    + destruct Hp as [-> | ->]; [left; reflexivity|right].
      unfold deliveries.
      cbn [Z.eqb PROCESS_PACKET_LOCAL PROCESS_PACKET_ALL Pos.eqb].
      rewrite Pk. reflexivity.
    + exact Hlen.
    + cbn. destruct HJ as [HJ|HJ]; [left; exact HJ|right; lia].
    + exact Hty.
Qed.

(** X14. While TRACE_REQ packets keep coming, none of them is forwarded.
    In a run whose arrivals are all read within ten seconds, started when
    the trace timestamp is 0 or not older than the first of them, every
    TRACE_REQ from the network is dropped or goes to alocal and acache
    only: the fallback of lines 51-56 never fires, and the timestamp stays
    0 or inside these ten seconds. *)
Theorem trace_suppression_persists (OK : LibraryOk L)
    (read_pipes write_pipes : pipe_table) (update_seconds : Z) (a : Z)
    (evs : list arrival) (w w' : world) (outs : list (list delivery)) :
  trace_received w = 0 \/ a <= trace_received w ->
  Forall (within_ten a) evs ->
  main_loop_while read_pipes write_pipes update_seconds evs w = Done outs w' ->
  (trace_received w' = 0 \/ a <= trace_received w')
  /\ Forall2 (fun ev out =>
                remote_trace_req read_pipes ev ->
                out = [] \/ kept_local write_pipes ev out) evs outs.
Proof.
  revert w w' outs.
  induction evs as [|ev evs IH]; intros w w' outs HJ Hall H.
  - cbn in H. injection H as <- <-. split; [exact HJ|constructor].
  - cbn [main_loop_while] in H.
    apply bind_Done_inv in H. destruct H as (sent & w1 & H1 & H).
    apply bind_Done_inv in H. destruct H as (more & w2 & H2 & H).
    injection H as <- <-.
    apply Forall_cons in Hall. destruct Hall as (Hc & Hall).
    destruct (main_loop_body_recent OK _ _ _ _ _ _ _ a HJ Hc H1)
      as (J1 & Hout).
    destruct (IH w1 w2 more J1 Hall H2) as (J2 & Hrest).
    split; [exact J2|]. constructor; assumption.
Qed.


(** ** The loop *)

Lemma main_loop_while_app (read_pipes write_pipes : pipe_table)
    (update_seconds : Z) (evs1 evs2 : list arrival) (w w1 : world)
    (outs1 : list (list delivery)) :
  main_loop_while read_pipes write_pipes update_seconds evs1 w
  = Done outs1 w1 ->
  main_loop_while read_pipes write_pipes update_seconds (evs1 ++ evs2) w
  = bind (main_loop_while read_pipes write_pipes update_seconds evs2)
         (fun outs2 => ret (outs1 ++ outs2)) w1.
Proof.
  revert w outs1.
  induction evs1 as [|ev evs1 IH]; intros w outs1 H.
  - cbn in H. injection H as <- <-. cbn [app main_loop_while].
    unfold bind, ret.
    destruct (main_loop_while read_pipes write_pipes update_seconds evs2 w);
      reflexivity.
  - cbn [main_loop_while] in H.
    apply bind_Done_inv in H. destruct H as (sent & wa & Ha & H).
    apply bind_Done_inv in H. destruct H as (more & wb & Hb & H).
    injection H as <- ->.
    cbn [app main_loop_while].
    rewrite (bind_Done _ _ _ _ _ Ha).
    unfold bind at 1. rewrite (IH _ _ Hb).
    unfold bind, ret.
    destruct (main_loop_while read_pipes write_pipes update_seconds evs2 w1);
      reflexivity.
Qed.

(** X15. A read that fails, or that gives no byte, ends the process with
    exit status 1 (lines 195-201), whatever was forwarded before and
    whatever would have arrived after. *)
Theorem failed_read_exits_with_status_1
    (read_pipes write_pipes : pipe_table) (update_seconds : Z)
    (before after : list arrival) (ev : arrival) (w w1 : world)
    (outs : list (list delivery)) :
  main_loop_while read_pipes write_pipes update_seconds before w
  = Done outs w1 ->
  read_failed ev ->
  main_loop_while read_pipes write_pipes update_seconds
    (before ++ ev :: after) w = Exit 1.
Proof.
  intros H Hf.
  rewrite (main_loop_while_app _ _ _ _ _ _ _ _ H).
  unfold bind at 1. cbn [main_loop_while]. unfold bind at 1.
  destruct ev as [msg from_pipe frame_priority clock|psize from_pipe].
  - cbn in Hf. subst msg. reflexivity.
  - reflexivity.
Qed.

Lemma main_loop_body_Exit (read_pipes write_pipes : pipe_table)
    (update_seconds : Z) (ev : arrival) (w : world) (status : Z) :
  main_loop_body read_pipes write_pipes update_seconds ev w = Exit status ->
  status = 1 /\ read_failed ev.
Proof.
  destruct ev as [msg from_pipe frame_priority clock|psize from_pipe].
  - rewrite main_loop_body_Message.
    destruct (Z.of_nat (length msg) <=? 0) eqn:E.
    + intros [= <-]. split; [reflexivity|].
      apply Z.leb_le in E. destruct msg; [reflexivity|].
      cbn [length] in E. lia.
    + unfold bind at 1.
      pose proof (process_packet_ends (Z.of_nat (length msg))
                    (is_local_pipe read_pipes from_pipe)
                    (arrived msg frame_priority clock w)) as Hp.
      destruct (process_packet _ _ _) as [p w1| |];
        [|contradiction|discriminate].
      rewrite (bind_Done _ _ _ _ _ (forward_Done _ _ _ _)).
      destruct (refresh_Done update_seconds w1) as (w2 & Hr & _).
      rewrite (bind_Done _ _ _ _ _ Hr). discriminate.
  - intros [= <-]. split; [reflexivity|exact I].
Qed.

(** X16. The loop ends the process in no other way: a run that exits
    does so with status 1, and one of its reads failed or gave no byte.
    No packet, however malformed, makes the daemon exit. *)
Theorem a_run_ends_only_on_a_failed_read
    (read_pipes write_pipes : pipe_table) (update_seconds : Z)
    (evs : list arrival) (w : world) (status : Z) :
  main_loop_while read_pipes write_pipes update_seconds evs w = Exit status ->
  status = 1 /\ Exists read_failed evs.
Proof.
  revert w. induction evs as [|ev evs IH]; intros w H; [discriminate H|].
  cbn [main_loop_while] in H. unfold bind at 1 in H.
  destruct (main_loop_body read_pipes write_pipes update_seconds ev w)
    as [sent w1| s|] eqn:Hb; [| |discriminate H].
  - unfold bind at 1 in H.
    destruct (main_loop_while read_pipes write_pipes update_seconds evs w1)
      as [more w2| s|] eqn:Hw; [discriminate H| |discriminate H].
    injection H as ->.
    destruct (IH _ Hw) as (Hs & Hex). split; [exact Hs|].
    apply Exists_cons_tl. exact Hex.
  - injection H as ->.
    destruct (main_loop_body_Exit _ _ _ _ _ _ Hb) as (Hs & Hf).
    split; [exact Hs|]. apply Exists_cons_hd. exact Hf.
Qed.

(** What refresh does to the next update and to the library. *)
Lemma refresh_next_update (update_seconds : Z) (w w' : world) :
  refresh update_seconds w = Done tt w' ->
  if next_update w <=? now w
  then (next_update w', lib w') = update_social update_seconds (lib w)
  else next_update w' = next_update w /\ lib w' = lib w.
Proof.
  unfold refresh, bind, time_NULL, get_next_update, call, set_next_update,
    ret.
  destruct (next_update w <=? now w).
  - destruct (update_social update_seconds (lib w)) as [next l].
    intros [= <-]. reflexivity.
  - intros [= <-]. auto.
Qed.

(** X17. The refresh of lines 226-228.  At the end of a turn read at the
    clock [clock], update_social is called, once, exactly when the time of
    the next update has come; the time of the next update is then what it
    returns.  Otherwise both the time of the next update and the state of
    the library are what process_packet left. *)
Theorem social_table_is_reloaded_only_when_due
    (read_pipes write_pipes : pipe_table) (update_seconds : Z)
    (msg : list byte) (from_pipe frame_priority clock : Z) (w w' : world)
    (outs : list delivery) :
  main_loop_body read_pipes write_pipes update_seconds
    (Message msg from_pipe frame_priority clock) w = Done outs w' ->
  exists p w1,
    process_packet (Z.of_nat (length msg)) (is_local_pipe read_pipes from_pipe)
                   (arrived msg frame_priority clock w) = Done p w1
    /\ now w' = clock
    /\ if next_update w <=? clock
       then (next_update w', lib w') = update_social update_seconds (lib w1)
       else next_update w' = next_update w /\ lib w' = lib w1.
Proof.
  intros H. rewrite main_loop_body_Message in H.
  destruct (Z.of_nat (length msg) <=? 0); [discriminate|].
  apply bind_Done_inv in H. destruct H as (p & w1 & Hp & H).
  exists p, w1. split; [exact Hp|].
  rewrite (bind_Done _ _ _ _ _ (forward_Done _ _ _ _)) in H.
  apply bind_Done_inv in H. destruct H as ([] & w2 & Hr & H).
  injection H as _ <-.
  pose proof (process_packet_keeps_clock _ _ _ _ _ Hp) as Hn.
  pose proof (process_packet_keeps_next_update _ _ _ _ _ Hp) as Hu.
  cbn in Hn, Hu.
  split.
  - rewrite <- Hn. revert Hr.
    unfold refresh, bind, time_NULL, get_next_update, call, set_next_update,
      ret.
    destruct (next_update w1 <=? now w1).
    + destruct (update_social update_seconds (lib w1)) as [next l].
      intros [= <-]. reflexivity.
    + intros [= <-]. reflexivity.
  - apply refresh_next_update in Hr. rewrite Hn, Hu in Hr. exact Hr.
Qed.

(** ** The duplicate window and the trace requests in the loop *)


(** A packet that is valid, new to the filter and not a management packet
    is never dropped. *)
Lemma process_packet_data_verdict (OK : LibraryOk L) (size : Z)
    (is_local : bool) (w w1 : world) (t : Z) (l' : lib_state) (p : Z) :
  size = Z.of_nat (length (packet w)) ->
  is_valid_message (packet w) size = true ->
  record_packet_time (packet w) HEADER_SKIP (size - HEADER_SKIP) 0 (lib w)
  = (t, l') ->
  ~ (0 < t < 60) ->
  field f_message_type (packet w) <> ALLNET_TYPE_MGMT ->
  process_packet size is_local w = Done p w1 ->
  p = PROCESS_PACKET_LOCAL \/ p = PROCESS_PACKET_ALL.
Proof.
  intros Hs Hv Hr Ht Hm H. pose proof (valid_has_header _ _ Hv) as Hlen.
  unfold process_packet in H. mstep_in H. rewrite Hv in H. cbn [negb] in H.
  mstep_in H. rewrite (not_in_window _ Ht) in H.
  mstep_in H. cbn [packet with_lib] in H.
  apply Z.eqb_neq in Hm. rewrite Hm in H.
  match type of H with
  | ?m ?w0 = _ =>
      assert (K : ends_with (fun p => p = PROCESS_PACKET_LOCAL
                                      \/ p = PROCESS_PACKET_ALL) m)
        by ends_with_auto;
      specialize (K w0); rewrite H in K; exact K
  end.
Qed.

(** C3. A valid packet that the duplicate filter has first seen more than
    0 and less than 60 seconds ago produces no output at all when it arrives
    on a pipe that is not local, and goes to alocal and acache only when it
    arrives on a local pipe.  At an age of exactly 60 seconds the check of
    line 88 does not fire and the packet is classified like any other: a
    management packet is handed to process_mgmt; any other packet from a
    local pipe is sent to every pipe, at the priority of its frame; any
    other packet from the network is never answered with nothing: it goes
    to alocal and acache when it has reached its hop limit, and an
    unsigned one below its limit is sent to every pipe. *)
Theorem duplicate_within_a_minute (OK : LibraryOk L)
    (read_pipes write_pipes : pipe_table) (update_seconds : Z)
    (msg : list byte) (from_pipe frame_priority clock : Z) (w : world)
    (t : Z) (l' : lib_state) :
  let size := Z.of_nat (length msg) in
  let ev := Message msg from_pipe frame_priority clock in
  let is_local := is_local_pipe read_pipes from_pipe in
  is_valid_message msg size = true ->
  record_packet_time msg HEADER_SKIP (size - HEADER_SKIP) 0 (lib w) = (t, l') ->
  (0 < t < 60 -> is_local_pipe read_pipes from_pipe = false ->
   exists w',
     main_loop_body read_pipes write_pipes update_seconds ev w = Done [] w')
  /\ (0 < t < 60 -> is_local_pipe read_pipes from_pipe = true ->
      exists w',
        main_loop_body read_pipes write_pipes update_seconds ev w
        = Done [mk_delivery (alocal write_pipes) msg size 0;
                mk_delivery (acache write_pipes) msg size 0] w')
  /\ (t = 60 ->
      (field f_message_type msg = ALLNET_TYPE_MGMT ->
       process_packet size is_local (arrived msg frame_priority clock w)
       = process_mgmt size is_local
           (fresh l' (arrived msg frame_priority clock w)))
      /\ (field f_message_type msg <> ALLNET_TYPE_MGMT ->
          is_local = true ->
          exists w',
            main_loop_body read_pipes write_pipes update_seconds ev w
            = Done (map (fun fd => mk_delivery fd msg size frame_priority)
                        (pipes write_pipes)) w')
      /\ (field f_message_type msg <> ALLNET_TYPE_MGMT ->
          is_local = false ->
          (forall outs w',
             main_loop_body read_pipes write_pipes update_seconds ev w
             = Done outs w' -> outs <> [])
          /\ (field f_max_hops msg <= Z.min 255 (field f_hops msg + 1) ->
              exists w',
                main_loop_body read_pipes write_pipes update_seconds ev w
                = Done [mk_delivery (alocal write_pipes) (hopped msg) size 0;
                        mk_delivery (acache write_pipes) (hopped msg) size 0]
                       w')
          /\ (Z.min 255 (field f_hops msg + 1) < field f_max_hops msg ->
              field f_sig_algo msg = ALLNET_SIGTYPE_NONE ->
              forall rate l2,
                largest_rate l' = (rate, l2) ->
                exists w',
                  main_loop_body read_pipes write_pipes update_seconds ev w
                  = Done (map (fun fd =>
                                 mk_delivery fd (hopped msg) size
                                   (anonymous_priority msg rate))
                              (pipes write_pipes)) w'))).
Proof.
  intros size ev is_local Hv Hr. split; [|split].
  - intros Ht Hl.
    destruct (main_loop_body_Done read_pipes write_pipes update_seconds msg
                from_pipe frame_priority clock w
                (with_lib l' (arrived msg frame_priority clock w))
                PROCESS_PACKET_DROP (valid_not_empty OK _ Hv)) as (w2 & H2 & _).
    + rewrite Hl.
      apply (process_packet_duplicate _ false _ t l'); assumption.
    + exists w2. exact H2.
  - intros Ht Hl.
    destruct (main_loop_body_Done read_pipes write_pipes update_seconds msg
                from_pipe frame_priority clock w
                (with_lib l' (arrived msg frame_priority clock w))
                PROCESS_PACKET_LOCAL (valid_not_empty OK _ Hv)) as (w2 & H2 & _).
    + rewrite Hl.
      apply (process_packet_duplicate _ true _ t l'); assumption.
    + exists w2. exact H2.
  - intros ->. subst ev is_local.
    assert (Ht : ~ (0 < 60 < 60)) by lia.
    pose proof (valid_has_header _ _ Hv) as Hlen.
    set (w0 := arrived msg frame_priority clock w) in *.
    assert (S0 : size = Z.of_nat (length (packet w0))) by reflexivity.
    split; [|split].
    + intros Em.
      apply (process_packet_mgmt OK size _ w0 60 l'); assumption.
    + intros Em El.
      assert (Hp : process_packet size true w0
                   = Done PROCESS_PACKET_ALL (fresh l' w0))
        by (apply (process_packet_local OK size _ 60 l'); assumption).
      destruct (main_loop_body_Done read_pipes write_pipes update_seconds msg
                  from_pipe frame_priority clock w _ _
                  (valid_not_empty OK _ Hv)
                  ltac:(rewrite El; exact Hp))
        as (w2 & H2 & _).
      exists w2. exact H2.
    + intros Em El. split; [|split].
      * intros outs w' H. apply main_loop_body_Done_inv in H.
        destruct H as (_ & p & w1 & Hp & -> & _).
        destruct (process_packet_data_verdict OK size _ w0 w1 60 l' p S0 Hv
                    Hr Ht Em Hp) as [-> | ->];
          unfold deliveries, pipes; cbn; discriminate.
      * intros Hh.
        destruct (process_packet_hop_limit OK size w0 60 l')
          as (w1 & H1 & P1 & _); try assumption.
        destruct (main_loop_body_Done read_pipes write_pipes update_seconds
                    msg from_pipe frame_priority clock w w1
                    PROCESS_PACKET_LOCAL (valid_not_empty OK _ Hv))
          as (w2 & H2 & _).
        -- rewrite El. exact H1.
        -- exists w2. rewrite H2. unfold deliveries.
           cbn [Z.eqb PROCESS_PACKET_LOCAL PROCESS_PACKET_ALL Pos.eqb].
           rewrite P1. reflexivity.
      * intros Hh Hs rate l2 Hrate.
        destruct (process_packet_to_line_123 OK w0 size 60 l' l2 rate)
          as (w3 & P3 & Pr3 & _ & _ & H3); try assumption.
        cbn [w0 packet arrived with_now with_priority with_packet]
          in P3, Pr3, H3.
        rewrite Hs, Z.eqb_refl in H3.
        destruct (main_loop_body_Done read_pipes write_pipes update_seconds
                    msg from_pipe frame_priority clock w w3
                    PROCESS_PACKET_ALL (valid_not_empty OK _ Hv))
          as (w2 & H2 & _).
        -- rewrite El. exact H3.
        -- exists w2. rewrite H2. unfold deliveries.
           cbn [Z.eqb PROCESS_PACKET_ALL Pos.eqb]. rewrite P3, Pr3.
           reflexivity.
Qed.



End Properties.

(** ** main *)

Section MainProperties.

Variable atoi : String.string -> Z.
Variable malloc : Z -> bool.

Lemma arg_inside (argv : list String.string) (i : Z) :
  0 <= i < Z.of_nat (length argv) -> exists a, arg argv i = Some a.
Proof.
  intros R. unfold arg.
  replace (i <? 0) with false by (symmetry; apply Z.ltb_ge; lia).
  destruct (lookup_lt_is_Some_2 argv (Z.to_nat i)) as [a Ha]; [lia|].
  exists a. exact Ha.
Qed.

Lemma arg_Some_inside (argv : list String.string) (i : Z)
    (a : String.string) :
  arg argv i = Some a -> 0 <= i < Z.of_nat (length argv).
Proof.
  unfold arg. destruct (i <? 0) eqn:E; [discriminate|].
  apply Z.ltb_ge in E. intros H. apply lookup_lt_Some in H. lia.
Qed.

(** The loop of lines 271-274 stays inside [argv] when two arguments are
    there for each pair that is left, and fills the two tables in the
    order of the arguments. *)
Lemma read_descriptors_Some (argv : list String.string) (count : nat) :
  forall i,
    0 <= i ->
    2 + 2 * (i + Z.of_nat count) <= Z.of_nat (length argv) ->
    exists read_pipes write_pipes,
      read_descriptors atoi argv i count = Some (read_pipes, write_pipes)
      /\ length read_pipes = count
      /\ length write_pipes = count
      /\ forall k, (k < count)%nat ->
           read_pipes !! k = atoi <$> arg argv (2 + 2 * (i + Z.of_nat k))
           /\ write_pipes !! k
              = atoi <$> arg argv (2 + 2 * (i + Z.of_nat k) + 1).
Proof.
  induction count as [|count IH]; intros i Hi Hlen.
  - exists [], []. cbn [read_descriptors length].
    split; [reflexivity|]. split; [reflexivity|]. split; [reflexivity|].
    intros k Hk. lia.
  - destruct (IH (i + 1)) as (rp & wp & H & Lr & Lw & Hk); [lia|lia|].
    destruct (arg_inside argv (2 + 2 * i)) as (r & Hr); [lia|].
    destruct (arg_inside argv (2 + 2 * i + 1)) as (w & Hw); [lia|].
    exists (atoi r :: rp), (atoi w :: wp).
    cbn [read_descriptors]. rewrite Hr, Hw, H.
    split; [reflexivity|]. split; [cbn; lia|]. split; [cbn; lia|].
    intros [|k] Hlt.
    + cbn [lookup list_lookup]. rewrite Z.add_0_r, Hr, Hw. auto.
    + destruct (Hk k) as (A & B); [lia|].
      replace (i + Z.of_nat (S k)) with (i + 1 + Z.of_nat k) by lia.
      rewrite <- A, <- B. auto.
Qed.

Lemma int_of_Some (v : Z) :
  - INT_MAX - 1 <= v <= INT_MAX -> int_of v = Some v.
Proof.
  intros R. unfold int_of.
  replace (- INT_MAX - 1 <=? v) with true by (symmetry; apply Z.leb_le; lia).
  replace (v <=? INT_MAX) with true by (symmetry; apply Z.leb_le; lia).
  reflexivity.
Qed.

Lemma int_of_inv (v r : Z) : int_of v = Some r -> r = v /\ v <= INT_MAX.
Proof.
  unfold int_of.
  destruct (- INT_MAX - 1 <=? v); [|discriminate].
  destruct (v <=? INT_MAX) eqn:E; [|discriminate].
  apply Z.leb_le in E. intros [= <-]. auto.
Qed.

Lemma int_of_None (v : Z) : 0 <= v -> int_of v = None -> INT_MAX < v.
Proof.
  intros Hv. unfold int_of.
  replace (- INT_MAX - 1 <=? v) with true
    by (symmetry; apply Z.leb_le; unfold INT_MAX; lia).
  destruct (v <=? INT_MAX) eqn:E; [discriminate|].
  apply Z.leb_gt in E. intros _. exact E.
Qed.

(** The number of bytes line 263 asks of [malloc]. *)
Lemma allocation_size (n : Z) :
  0 <= n <= INT_MAX ->
  size_t (size_t (sizeof_int * size_t n) * 2) = 2 * sizeof_int * n.
Proof.
  intros R. unfold size_t, sizeof_int, SIZE_MAX, INT_MAX in *.
  rewrite (Z.mod_small n) by lia.
  rewrite (Z.mod_small (4 * n)) by lia.
  rewrite Z.mod_small by lia. lia.
Qed.

(** X18. Called with the number of pipes [n >= 3] as first argument and
    [2 * n] more arguments, and granted its allocation, [main] calls
    main_loop with update_seconds 30, max_social_bytes 30000 and
    max_checks 5, and with two tables of [n] descriptors each: entry [i] of
    read_pipes is [atoi] of argument [2 + 2 * i], entry [i] of write_pipes
    is [atoi] of argument [2 + 2 * i + 1].  Both tables hold the three
    pipes main_loop names: alocal's, acache's and aip's. *)
Theorem main_runs_main_loop_on_its_pipes (argv : list String.string)
    (n : Z) :
  let argc := Z.of_nat (length argv) in
  argc <= INT_MAX ->
  atoi <$> arg argv 1 = Some n ->
  3 <= n ->
  argc = 2 * n + 2 ->
  malloc (2 * sizeof_int * n) = true ->
  exists read_pipes write_pipes read_table write_table,
    main atoi malloc argv
    = Runs_main_loop read_pipes n write_pipes n 30 30000 5
    /\ table_of read_pipes = Some read_table
    /\ table_of write_pipes = Some write_table
    /\ npipes read_table = n
    /\ npipes write_table = n
    /\ forall i, 0 <= i < n ->
         read_pipes !! Z.to_nat i = atoi <$> arg argv (2 + 2 * i)
         /\ write_pipes !! Z.to_nat i = atoi <$> arg argv (2 + 2 * i + 1).
Proof.
  intros argc Hmax Ha Hn Hargc Hm.
  destruct (arg argv 1) as [a1|] eqn:E1; [|discriminate Ha].
  cbn in Ha. injection Ha as Ha.
  destruct (read_descriptors_Some argv (Z.to_nat n) 0)
    as (rp & wp & H & Lr & Lw & Hk); [lia|fold argc; lia|].
  assert (T : forall fds : list Z, length fds = Z.to_nat n ->
                exists t, table_of fds = Some t /\ npipes t = n).
  { intros fds Hl.
    destruct fds as [|a [|c [|i more]]]; cbn [length] in Hl; try lia.
    eexists. split; [reflexivity|].
    unfold npipes, pipes. cbn [alocal acache aip more_pipes length].
    lia. }
  destruct (T rp Lr) as (tr & Tr & Nr). destruct (T wp Lw) as (tw & Tw & Nw).
  exists rp, wp, tr, tw.
  split; [|split; [exact Tr|split; [exact Tw|split; [exact Nr|
           split; [exact Nw|]]]]].
  - unfold main. fold argc. rewrite E1, Ha.
    replace (argc <? 2) with false by (symmetry; apply Z.ltb_ge; lia).
    replace (n <? 3) with false by (symmetry; apply Z.ltb_ge; lia).
    rewrite !int_of_Some by (unfold INT_MAX in *; lia).
    replace (argc =? 2 * n + 2) with true by (symmetry; apply Z.eqb_eq; lia).
    replace (argc <? 7) with false by (symmetry; apply Z.ltb_ge; lia).
    rewrite allocation_size by lia. rewrite Hm. cbn [negb].
    rewrite H. reflexivity.
  - intros i Hi. destruct (Hk (Z.to_nat i)) as (A & B); [lia|].
    rewrite Z2Nat.id, Z.add_0_l in A, B by lia. auto.
Qed.

(** X19. Whenever [main] returns, it returns -1, after one of four
    diagnostics, each for its reason: fewer than two arguments, fewer than
    three pipes, a number of arguments other than [2 * npipes + 2], or a
    refused allocation.  The fifth diagnostic, the one of lines 254-257,
    is never printed: once the checks before have passed, [argc] is at
    least 8. *)
Theorem main_returns_minus_one_with_its_reason (argv : list String.string)
    (status : Z) (printed : diagnostic) :
  main atoi malloc argv = Returns status printed ->
  status = -1
  /\ printed <> need_three_pairs
  /\ refused_for atoi malloc argv printed.
Proof.
  unfold main. set (argc := Z.of_nat (length argv)).
  destruct (argc <? 2) eqn:E2.
  { apply Z.ltb_lt in E2. intros [= <- <-].
    split; [reflexivity|]. split; [discriminate|exact E2]. }
  destruct (arg argv 1) as [a1|] eqn:E1; [|discriminate].
  destruct (atoi a1 <? 3) eqn:E3.
  { apply Z.ltb_lt in E3. intros [= <- <-].
    split; [reflexivity|]. split; [discriminate|].
    unfold refused_for. rewrite E1. cbn. auto. }
  apply Z.ltb_ge in E3.
  destruct (int_of (2 * atoi a1)) as [d|] eqn:Ed; [|discriminate].
  destruct (int_of (2 * atoi a1 + 2)) as [expected|] eqn:Ee; [|discriminate].
  apply int_of_inv in Ee. destruct Ee as (-> & Hmax).
  destruct (argc =? 2 * atoi a1 + 2) eqn:Ea; cbn [negb].
  2:{ apply Z.eqb_neq in Ea. intros [= <- <-].
      split; [reflexivity|]. split; [discriminate|].
      unfold refused_for. rewrite E1. cbn. auto. }
  apply Z.eqb_eq in Ea.
  replace (argc <? 7) with false by (symmetry; apply Z.ltb_ge; lia).
  rewrite allocation_size by lia.
  destruct (malloc (2 * sizeof_int * atoi a1)) eqn:Em; cbn [negb].
  - destruct (read_descriptors atoi argv 0 (Z.to_nat (atoi a1)))
      as [[rp wp]|]; discriminate.
  - intros [= <- <-].
    split; [reflexivity|]. split; [discriminate|].
    unfold refused_for. exists (atoi a1). rewrite E1. cbn. auto.
Qed.

(** X20. As long as every argument holds a number that an [int] can
    hold, so that each call of [atoi] is defined, [main] runs into
    undefined behaviour exactly when [2 * npipes + 2] overflows at line
    249, that is for a first argument of 1073741823 or more; in
    particular it reads [argv] inside its bounds. *)
Theorem main_is_undefined_only_by_overflow (argv : list String.string) :
  Z.of_nat (length argv) <= INT_MAX ->
  Forall (fun a => - INT_MAX - 1 <= atoi a <= INT_MAX) argv ->
  main atoi malloc argv = Startup_undefined
  <-> exists n, atoi <$> arg argv 1 = Some n /\ INT_MAX < 2 * n + 2.
Proof.
  intros Hmax Hint. unfold main. set (argc := Z.of_nat (length argv)) in *.
  split.
  - destruct (argc <? 2) eqn:E2; [discriminate|].
    apply Z.ltb_ge in E2.
    destruct (arg_inside argv 1) as (a1 & E1); [fold argc; lia|].
    rewrite E1.
    destruct (atoi a1 <? 3) eqn:E3; [discriminate|].
    apply Z.ltb_ge in E3.
    destruct (int_of (2 * atoi a1)) as [d|] eqn:Ed.
    2:{ intros _. exists (atoi a1). split; [reflexivity|].
        apply int_of_None in Ed; lia. }
    destruct (int_of (2 * atoi a1 + 2)) as [expected|] eqn:Ee.
    2:{ intros _. exists (atoi a1). split; [reflexivity|].
        apply int_of_None in Ee; lia. }
    apply int_of_inv in Ee. destruct Ee as (-> & Hm).
    destruct (argc =? 2 * atoi a1 + 2) eqn:Ea; cbn [negb]; [|discriminate].
    apply Z.eqb_eq in Ea.
    replace (argc <? 7) with false by (symmetry; apply Z.ltb_ge; lia).
    destruct (negb _); [discriminate|].
    destruct (read_descriptors_Some argv (Z.to_nat (atoi a1)) 0)
      as (rp & wp & H & _); [lia|fold argc; lia|].
    rewrite H. discriminate.
  - intros (n & Hn & Hbig).
    destruct (arg argv 1) as [a1|] eqn:E1; [|discriminate Hn].
    cbn in Hn. injection Hn as <-.
    pose proof (arg_Some_inside _ _ _ E1) as Hin. fold argc in Hin.
    replace (argc <? 2) with false by (symmetry; apply Z.ltb_ge; lia).
    replace (atoi a1 <? 3) with false
      by (symmetry; apply Z.ltb_ge; unfold INT_MAX in Hbig; lia).
    destruct (int_of (2 * atoi a1)) as [d|] eqn:Ed; [|reflexivity].
    destruct (int_of (2 * atoi a1 + 2)) as [e|] eqn:Ee; [|reflexivity].
    apply int_of_inv in Ee. lia.
Qed.

End MainProperties.

(** ** The properties on the scripted library *)

Import Fixture.

Lemma library_ok : LibraryOk library.
Proof.
  split.
  - apply (bool_decide_unpack _). vm_compute. exact I.
  - intros buf size H. cbn in H. apply andb_true_iff in H.
    destruct H as [H _]. apply Z.leb_le in H. exact H.
Qed.

(** C9 on a management packet of 24 bytes: the sub-header would start at
    offset 24, outside the buffer. *)
Lemma short_management_packet_witness :
  exists w',
    process_mgmt 24 false truncated = Done PROCESS_PACKET_DROP w'
    /\ touched w' = [Read_header f_transport]
    /\ (forall hs, In (Read_mgmt_type hs) (touched w') ->
                   In (Read_mgmt_type hs) []).
Proof.
  apply (short_management_packet_is_dropped_unread 24 false truncated);
    vm_compute; intuition congruence.
Defined.



(** C3: the unsigned DATA packet, seen 30 seconds before, from the network
    (pipe 12) and from alocal (pipe 10); and seen exactly 60 seconds
    before, when it is sent to every pipe, from the network with hops 1
    at priority 56 and from alocal as it came at priority 100; a beacon
    seen exactly 60 seconds before is handed to process_mgmt. *)
Lemma duplicate_within_a_minute_witness :
  (exists w',
     main_loop_body readers writers 30 (Message data_packet 12 100 5)
                    (start 0 (seen 30)) = Done [] w')
  /\ (exists w',
        main_loop_body readers writers 30 (Message data_packet 10 100 5)
                       (start 0 (seen 30))
        = Done [mk_delivery 20 data_packet 28 0;
                mk_delivery 21 data_packet 28 0] w')
  /\ (exists w',
        main_loop_body readers writers 30 (Message data_packet 12 100 5)
                       (start 0 (seen 60))
        = Done (map (fun fd => mk_delivery fd (hopped data_packet) 28 56)
                    [20; 21; 22; 23]) w')
  /\ (exists w',
        main_loop_body readers writers 30 (Message data_packet 10 100 5)
                       (start 0 (seen 60))
        = Done (map (fun fd => mk_delivery fd data_packet 28 100)
                    [20; 21; 22; 23]) w')
  /\ process_packet 27 false
       (arrived (mgmt_packet x01) 100 5 (start 0 (seen 60)))
     = process_mgmt 27 false
         (fresh (seen 0) (arrived (mgmt_packet x01) 100 5 (start 0 (seen 60)))).
Proof.
  split; [|split; [|split; [|split]]].
  - apply (proj1 (duplicate_within_a_minute library_ok readers writers 30
                    data_packet 12 100 5 (start 0 (seen 30)) 30 (seen 0)
                    eq_refl eq_refl)).
    + lia.
    + reflexivity.
  - apply (proj1 (proj2 (duplicate_within_a_minute library_ok readers writers
                           30 data_packet 10 100 5 (start 0 (seen 30)) 30
                           (seen 0) eq_refl eq_refl))).
    + lia.
    + reflexivity.
  - destruct (proj2 (proj2 (duplicate_within_a_minute library_ok readers
                              writers 30 data_packet 12 100 5
                              (start 0 (seen 60)) 60 (seen 0)
                              eq_refl eq_refl)) eq_refl) as (_ & _ & C).
    assert (Hd : field f_message_type data_packet <> ALLNET_TYPE_MGMT)
      by (vm_compute; congruence).
    destruct (C Hd eq_refl) as (_ & _ & Hflood).
    apply (Hflood ltac:(vm_compute; reflexivity) eq_refl 50 (seen 0) eq_refl).
  - destruct (proj2 (proj2 (duplicate_within_a_minute library_ok readers
                              writers 30 data_packet 10 100 5
                              (start 0 (seen 60)) 60 (seen 0)
                              eq_refl eq_refl)) eq_refl) as (_ & B & _).
    apply B; [vm_compute; congruence|reflexivity].
  - destruct (proj2 (proj2 (duplicate_within_a_minute library_ok readers
                              writers 30 (mgmt_packet x01) 12 100 5
                              (start 0 (seen 60)) 60 (seen 0)
                              eq_refl eq_refl)) eq_refl) as (A & _ & _).
    apply A. reflexivity.
Defined.

(** C4: a DATA packet from the network at hops 4 of 5. *)
Lemma hop_limit_witness :
  (exists w1,
     process_packet 28 false (arrived last_hop_packet 100 5 (start 0 quiet))
     = Done PROCESS_PACKET_LOCAL w1)
  /\ exists w',
       main_loop_body readers writers 30 (Message last_hop_packet 12 100 5)
                      (start 0 quiet)
       = Done [mk_delivery 20 (hopped last_hop_packet) 28 0;
               mk_delivery 21 (hopped last_hop_packet) 28 0] w'.
Proof.
  apply (hop_limit_reached_only_local library_ok readers writers 30
           last_hop_packet 12 100 5 (start 0 quiet) 0 (seen 0));
    vm_compute; intuition congruence.
Defined.

(** C1: the signed packet whose signature of 256 bytes lies inside it,
    from the network, with a key in the social table that would verify:
    it leaves at 56, the priority of an anonymous packet. *)
Lemma signed_packet_witness :
  (exists w1,
     process_packet 290 false (arrived signed_packet 100 5 (start 0 quiet))
     = Done PROCESS_PACKET_ALL w1
     /\ priority w1 = 56
     /\ lib w1 = quiet)
  /\ exists w',
       main_loop_body readers writers 30 (Message signed_packet 12 100 5)
                      (start 0 quiet)
       = Done (map (fun fd => mk_delivery fd (hopped signed_packet) 290 56)
                   [20; 21; 22; 23]) w'.
Proof.
  apply (signed_packet_in_bounds_sent_at_baseline library_ok readers writers
           30 signed_packet 12 100 5 (start 0 quiet) quiet quiet 50 x01 x00
           256).
  - reflexivity.
  - repeat split; try (vm_compute; congruence).
    exists 0. split; [reflexivity|lia].
  - reflexivity.
  - reflexivity.
  - reflexivity.
  - reflexivity.
  - vm_compute. congruence.
Defined.

(** What process_packet does with the packet whose last two bytes are
    01 01: it decodes a signature of 512 bytes, where the big-endian
    value is 257, and line 128 then forms a pointer 223 bytes before the
    packet. *)
Lemma signed_packet_257_signature_pointer :
  sig_size_of (schar x01) (schar x01) = Some 512
  /\ big_endian_16 1 1 = 257
  /\ 291 - 2 - 512 = -223
  /\ process_packet 291 false (arrived signed_packet_257 100 5 (start 0 quiet))
     = Undefined.
Proof.
  split; [reflexivity|]. split; [reflexivity|]. split; [reflexivity|].
  vm_compute. reflexivity.
Qed.

(** C2 at the bytes 01 01: line 125 yields 512, the big-endian value is
    257. *)
Lemma sig_size_witness :
  512 = uchar x01 * 2 ^ (8 + uchar x01)
  /\ (512 = big_endian_16 (schar x01) (schar x01) <-> uchar x01 = 0).
Proof.
  apply (sig_size_is_big_endian_only_for_low_byte_zero x01 x01 512).
  reflexivity.
Defined.

(** C7: a beacon from the network, and from alocal, neither seen
    before. *)
Lemma beacons_witness :
  (exists w',
     main_loop_body readers writers 30 (Message (mgmt_packet x01) 12 100 5)
                    (start 0 quiet) = Done [] w')
  /\ (exists w',
        main_loop_body readers writers 30 (Message (mgmt_packet x02) 10 100 5)
                       (start 0 quiet) = Done [] w').
Proof.
  split.
  - apply (proj2 (beacons_are_not_forwarded library_ok readers writers 30
                    (mgmt_packet x01) 12 100 5 (start 0 quiet) 0 (seen 0) 1
                    eq_refl eq_refl (or_introl eq_refl) eq_refl
                    ltac:(vm_compute; intuition congruence))).
  - apply (proj2 (beacons_are_not_forwarded library_ok readers writers 30
                    (mgmt_packet x02) 10 100 5 (start 0 quiet) 0 (seen 0) 2
                    eq_refl eq_refl (or_intror (or_introl eq_refl)) eq_refl
                    ltac:(vm_compute; intuition congruence))).
Defined.

(** The claim C7 fails on a beacon that alocal submits 30 seconds after
    the filter first saw it: the packet goes to alocal and acache. *)
Lemma local_duplicate_beacon_is_delivered :
  field f_message_type (mgmt_packet x01) = ALLNET_TYPE_MGMT
  /\ mgmt_type_at (mgmt_packet x01) 27 = Some ALLNET_MGMT_BEACON
  /\ exists w',
       main_loop_body readers writers 30 (Message (mgmt_packet x01) 10 100 5)
                      (start 0 (seen 30))
       = Done [mk_delivery 20 (mgmt_packet x01) 27 0;
               mk_delivery 21 (mgmt_packet x01) 27 0] w'.
Proof.
  split; [reflexivity|]. split; [reflexivity|].
  eexists. vm_compute. reflexivity.
Qed.

(** C5: the unsigned DATA packet from the network leaves with hops 1. *)
Lemma forwarded_bytes_witness :
  exists outs w',
    main_loop_body readers writers 30 (Message data_packet 12 100 5)
                   (start 0 quiet) = Done outs w'
    /\ length outs = 4%nat
    /\ forall d, In d outs ->
         sent_size d = 28
         /\ (is_local_pipe readers 12 = true
             \/ field f_message_type data_packet = ALLNET_TYPE_MGMT ->
             sent_bytes d = data_packet)
         /\ (is_local_pipe readers 12 = false ->
             field f_message_type data_packet <> ALLNET_TYPE_MGMT ->
             sent_bytes d = hopped data_packet
             /\ length (sent_bytes d) = length data_packet
             /\ field f_hops (sent_bytes d)
                = Z.min 255 (field f_hops data_packet + 1)
             /\ forall off, off <> offsetof f_hops ->
                  byte_at (sent_bytes d) off = byte_at data_packet off).
Proof.
  exists (map (fun fd => mk_delivery fd (hopped data_packet) 28 56)
              [20; 21; 22; 23]).
  eexists. split; [vm_compute; reflexivity|].
  split; [reflexivity|].
  intros d Hd.
  assert (H : main_loop_body readers writers 30
                (Message data_packet 12 100 5) (start 0 quiet)
              = Done (map (fun fd => mk_delivery fd (hopped data_packet) 28 56)
                          [20; 21; 22; 23])
                     (mk_world 0 5 (hopped data_packet) 56 1000000 quiet
                        [Read_header f_sig_algo; Read_header f_dst_nbits;
                         Read_header f_src_nbits; Read_header f_max_hops;
                         Read_header f_hops; Write_header f_hops;
                         Read_header f_hops; Read_header f_message_type]))
    by (vm_compute; reflexivity).
  exact (forwarded_bytes library_ok readers writers 30 data_packet 12 100 5
           (start 0 quiet) _ _ d H Hd).
Defined.

(** The claim C5 fails on a packet that alocal submits: it is sent to
    every pipe with the hop count it came with, 0. *)
Lemma local_packet_keeps_its_hop_count :
  exists outs w',
    main_loop_body readers writers 30 (Message data_packet 10 100 5)
                   (start 0 quiet) = Done outs w'
    /\ field f_hops data_packet = 0
    /\ exists d, In d outs
                 /\ to_pipe d = 22
                 /\ field f_hops (sent_bytes d) = 0
                 /\ field f_hops (sent_bytes d)
                    <> Z.min 255 (field f_hops data_packet + 1).
Proof.
  eexists. eexists. split; [vm_compute; reflexivity|].
  split; [reflexivity|].
  exists (mk_delivery 22 data_packet 28 100).
  split; [cbn; tauto|]. split; [reflexivity|]. split; [reflexivity|].
  vm_compute. congruence.
Qed.

(** C6: the unsigned DATA packet from alocal leaves everywhere at the
    priority of its frame, 100; and process_mgmt, handed a PEERS packet
    that alocal submitted at priority 100, leaves the priority at 100. *)
Lemma local_priority_witness :
  exists outs w',
    main_loop_body readers writers 30 (Message data_packet 10 100 5)
                   (start 0 quiet) = Done outs w'
    /\ outs = map (fun fd => mk_delivery fd data_packet 28 100)
                  [20; 21; 22; 23]
    /\ (outs = []
        \/ outs = [mk_delivery 20 data_packet 28 0;
                   mk_delivery 21 data_packet 28 0]
        \/ outs = map (fun fd =>
                         mk_delivery fd data_packet 28
                           (local_forward_priority data_packet 100))
                      [20; 21; 22; 23])
    /\ exists p wm1,
         process_mgmt 27 true (arrived (mgmt_packet x05) 100 5 (start 0 quiet))
         = Done p wm1
         /\ priority wm1 = 100.
Proof.
  eexists. eexists. split; [vm_compute; reflexivity|].
  split; [reflexivity|].
  edestruct (local_priority_on_output library_ok readers writers 30
               data_packet 10 100 5 (start 0 quiet)) as (A & B).
  - reflexivity.
  - vm_compute. reflexivity.
  - split; [exact A|].
    apply (B (arrived (mgmt_packet x05) 100 5 (start 0 quiet)) 27 5).
    + vm_compute. intuition congruence.
    + reflexivity.
Defined.

(** The claim C6 fails on a management packet of the unknown type 0x63
    that alocal submits at priority 100: it is sent to every pipe at
    EPSILON, which is 1. *)
Lemma local_unknown_mgmt_loses_its_priority :
  exists outs w',
    main_loop_body readers writers 30 (Message (mgmt_packet x63) 10 100 5)
                   (start 0 quiet) = Done outs w'
    /\ outs = map (fun fd => mk_delivery fd (mgmt_packet x63) 27 1)
                  [20; 21; 22; 23]
    /\ exists d, In d outs /\ sent_priority d <> 100.
Proof.
  eexists. eexists. split; [vm_compute; reflexivity|].
  split; [reflexivity|].
  exists (mk_delivery 20 (mgmt_packet x63) 27 1).
  split; [cbn; tauto|]. cbn. congruence.
Qed.



(** ** The further properties on the scripted library *)

(** X1: the first ten bytes of a packet, from the network. *)
Lemma invalid_packet_witness :
  process_packet 10 false (arrived (firstn 10 data_packet) 100 5
                                   (start 0 quiet))
  = Done PROCESS_PACKET_DROP
         (arrived (firstn 10 data_packet) 100 5 (start 0 quiet))
  /\ exists w',
       main_loop_body readers writers 30
         (Message (firstn 10 data_packet) 12 100 5) (start 0 quiet)
       = Done [] w'.
Proof.
  apply (invalid_packet_leaves_no_trace readers writers 30
           (firstn 10 data_packet) 12 100 5 (start 0 quiet)).
  - vm_compute. congruence.
  - reflexivity.
Defined.

(** X2: the unsigned DATA packet that alocal submits at priority 100. *)
Lemma local_packet_witness :
  exists w',
    main_loop_body readers writers 30 (Message data_packet 10 100 5)
                   (start 0 quiet)
    = Done (map (fun fd => mk_delivery fd data_packet 28 100)
                [20; 21; 22; 23]) w'
    /\ trace_received w' = 0.
Proof.
  apply (local_packet_is_flooded_as_submitted library_ok readers writers 30
           data_packet 10 100 5 (start 0 quiet) 0 (seen 0)).
  - reflexivity.
  - reflexivity.
  - reflexivity.
  - lia.
  - vm_compute. congruence.
Defined.

(** X3: the unsigned DATA packet from the network leaves with hops 1 at
    the priority 56 of an anonymous packet. *)
Lemma unsigned_packet_witness :
  exists w',
    main_loop_body readers writers 30 (Message data_packet 12 100 5)
                   (start 0 quiet)
    = Done (map (fun fd => mk_delivery fd (hopped data_packet) 28 56)
                [20; 21; 22; 23]) w'.
Proof.
  apply (unsigned_packet_is_flooded library_ok readers writers 30
           data_packet 12 100 5 (start 0 quiet) 0 (seen 0) quiet 50).
  - reflexivity.
  - reflexivity.
  - reflexivity.
  - lia.
  - vm_compute. congruence.
  - vm_compute. reflexivity.
  - reflexivity.
  - reflexivity.
Defined.


(** X5: a packet of 270 bytes whose last two bytes are 01 00 decodes to
    a signature of 256 bytes, which would start at offset 12, inside the
    header, and leave -12 bytes to verify; the social table vouches for it
    and it leaves at the priority 996 of distance 1. *)
Lemma out_of_bounds_signature_witness :
  270 - (ALLNET_HEADER_SIZE + 256 + 2) < 0
  /\ 0 <= 270 - 2 - 256 < ALLNET_HEADER_SIZE
  /\ exists w',
       main_loop_body readers writers 30 (Message cramped_packet 12 100 5)
                      (start 0 quiet)
       = Done (map (fun fd => mk_delivery fd (hopped cramped_packet)
                                          270 996)
                   [20; 21; 22; 23]) w'.
Proof.
  apply (out_of_bounds_signature_reaches_social_connection library_ok
           readers writers 30 cramped_packet 12 100 5 (start 0 quiet)
           quiet quiet
           (mk_script 0 1 1 50 10 [(24, -12, 12, 256)])
           (mk_script 0 1 1 50 10 [(24, -12, 12, 256)])
           50 x01 x00 256 1 1 10).
  - reflexivity.
  - repeat split; try (vm_compute; congruence).
    exists 0. split; [reflexivity|lia].
  - reflexivity.
  - reflexivity.
  - reflexivity.
  - reflexivity.
  - vm_compute. reflexivity.
  - vm_compute. congruence.
  - reflexivity.
  - reflexivity.
Defined.

(** X21: the packet of 291 bytes whose last two bytes are 01 01 decodes
    to a signature of 512 bytes. *)
Lemma signature_pointer_witness :
  process_packet 291 false (arrived signed_packet_257 100 5 (start 0 quiet))
  = Undefined
  /\ main_loop_body readers writers 30 (Message signed_packet_257 12 100 5)
                    (start 0 quiet) = Undefined.
Proof.
  apply (signature_pointer_before_the_buffer_is_undefined library_ok
           readers writers 30 signed_packet_257 12 100 5 (start 0 quiet)
           quiet quiet 50 x01 x01 512).
  - reflexivity.
  - repeat split; try (vm_compute; congruence).
    exists 0. split; [reflexivity|lia].
  - reflexivity.
  - reflexivity.
  - reflexivity.
  - reflexivity.
  - vm_compute. reflexivity.
Defined.

(** X6: a signed packet whose last two bytes are 00 18; the shift count
    is 8 + 24. *)
Lemma shift_count_witness :
  sig_size_of (schar x00) (schar x18) = None
  /\ main_loop_body readers writers 30 (Message wide_shift_packet 12 100 5)
                    (start 0 quiet) = Undefined.
Proof.
  apply (shift_count_of_32_or_more_is_undefined library_ok readers writers 30
           wide_shift_packet 12 100 5 (start 0 quiet) quiet quiet 50 x00 x18).
  - reflexivity.
  - repeat split; try (vm_compute; congruence).
    exists 0. split; [reflexivity|lia].
  - reflexivity.
  - reflexivity.
  - reflexivity.
  - vm_compute. congruence.
Defined.

(** X7: a PEERS packet from the network. *)
Lemma peer_management_witness :
  exists w',
    main_loop_body readers writers 30 (Message (mgmt_packet x05) 12 100 5)
                   (start 0 quiet)
    = Done [mk_delivery 20 (mgmt_packet x05) 27 0;
            mk_delivery 21 (mgmt_packet x05) 27 0] w'
    /\ trace_received w' = 0.
Proof.
  apply (peer_management_stays_local library_ok readers writers 30
           (mgmt_packet x05) 12 100 5 (start 0 quiet) 0 (seen 0) 5).
  - reflexivity.
  - reflexivity.
  - lia.
  - reflexivity.
  - vm_compute. intuition congruence.
  - right. left. reflexivity.
Defined.

(** X8: a TRACE_REPLY that alocal submits at priority 100, and a
    management packet of the unknown type 0x63 from the network. *)
Lemma trace_reply_and_unknown_witness :
  (exists w',
     main_loop_body readers writers 30 (Message (mgmt_packet x08) 10 100 5)
                    (start 0 quiet)
     = Done (map (fun fd => mk_delivery fd (mgmt_packet x08) 27 100)
                 [20; 21; 22; 23]) w'
     /\ trace_received w' = 0)
  /\ (exists w',
        main_loop_body readers writers 30 (Message (mgmt_packet x63) 12 100 5)
                       (start 0 quiet)
        = Done (map (fun fd => mk_delivery fd (mgmt_packet x63) 27 1)
                    [20; 21; 22; 23]) w'
        /\ trace_received w' = 0).
Proof.
  split.
  - apply (proj1 (trace_reply_and_unknown_management_are_flooded library_ok
                    readers writers 30 (mgmt_packet x08) 10 100 5
                    (start 0 quiet) 0 (seen 0) 8 eq_refl eq_refl
                    ltac:(lia) eq_refl
                    ltac:(vm_compute; intuition congruence))).
    reflexivity.
  - apply (proj2 (trace_reply_and_unknown_management_are_flooded library_ok
                    readers writers 30 (mgmt_packet x63) 12 100 5
                    (start 0 quiet) 0 (seen 0) 99 eq_refl eq_refl
                    ltac:(lia) eq_refl
                    ltac:(vm_compute; intuition congruence))).
    reflexivity.
Defined.

(** X10: a TRACE_REQ from the network whose frame came at priority 100. *)
Lemma process_mgmt_demotes_witness :
  exists p w1,
    process_mgmt 27 false (with_priority 100 (tracing 95)) = Done p w1
    /\ priority w1 = EPSILON.
Proof.
  eexists. eexists. split; [vm_compute; reflexivity|].
  match goal with
  | |- priority ?w1 = _ =>
      apply (process_mgmt_demotes_network_packets 27
               (with_priority 100 (tracing 95)) w1 PROCESS_PACKET_LOCAL)
  end.
  vm_compute. reflexivity.
Defined.

(** X11: a TRACE_REQ from the network at the clock 105, the trace
    timestamp being 95. *)
Lemma trace_timestamp_witness :
  exists p w1,
    process_packet 27 false (arrived (mgmt_packet x07) 100 105
                                     (start 95 quiet)) = Done p w1
    /\ now w1 = 105
    /\ next_update w1 = 1000000
    /\ (trace_received w1 = 95
        \/ (field f_message_type (mgmt_packet x07) = ALLNET_TYPE_MGMT
            /\ mgmt_type_at (mgmt_packet x07) 27 = Some ALLNET_MGMT_TRACE_REQ
            /\ ((false = true /\ trace_received w1 = 0
                 /\ p = PROCESS_PACKET_ALL)
                \/ (false = false /\ trace_received w1 = 105
                    /\ p = PROCESS_PACKET_LOCAL)))).
Proof.
  eexists. eexists. split; [vm_compute; reflexivity|].
  match goal with
  | |- now ?w1 = _ /\ _ =>
      apply (only_trace_requests_move_the_trace_timestamp library_ok 27 false
               (arrived (mgmt_packet x07) 100 105 (start 95 quiet)) w1
               PROCESS_PACKET_LOCAL)
  end.
  - reflexivity.
  - vm_compute. reflexivity.
Defined.

(** X12: the unsigned DATA packet from the network. *)
Lemma a_turn_witness :
  exists outs w',
    main_loop_body readers writers 30 (Message data_packet 12 100 5)
                   (start 0 quiet) = Done outs w'
    /\ exists bytes pri,
         (bytes = data_packet \/ bytes = hopped data_packet)
         /\ length bytes = length data_packet
         /\ (outs = []
             \/ outs = [mk_delivery 20 bytes 28 0; mk_delivery 21 bytes 28 0]
             \/ outs = map (fun fd => mk_delivery fd bytes 28 pri)
                           [20; 21; 22; 23]).
Proof.
  eexists. eexists. split; [vm_compute; reflexivity|].
  eapply (a_turn_sends_to_none_two_or_all library_ok readers writers 30
            data_packet 12 100 5 (start 0 quiet)).
  vm_compute. reflexivity.
Defined.

(** X13: the unsigned DATA packet from the network in a frame of priority
    100 and in a frame of priority 7. *)
Lemma frame_priority_witness :
  exists outs w1,
    main_loop_body readers writers 30 (Message data_packet 12 100 5)
                   (start 0 quiet) = Done outs w1
    /\ exists w2,
         main_loop_body readers writers 30 (Message data_packet 12 7 5)
                        (start 0 quiet) = Done outs w2.
Proof.
  eexists. eexists. split; [vm_compute; reflexivity|].
  eapply (frame_priority_of_network_packets_is_ignored readers writers 30
            data_packet 12 5 100 7 (start 0 quiet)).
  - reflexivity.
  - vm_compute. reflexivity.
Defined.

(** X14 on the run [frequent_arrivals]: each of the three TRACE_REQ goes
    to alocal and acache only. *)
Lemma trace_suppression_witness :
  exists outs w',
    main_loop_while readers writers 30 frequent_arrivals (start 0 quiet)
    = Done outs w'
    /\ outs = [[mk_delivery 20 (mgmt_packet x07) 27 0;
                mk_delivery 21 (mgmt_packet x07) 27 0];
               [mk_delivery 20 (mgmt_packet x07) 27 0;
                mk_delivery 21 (mgmt_packet x07) 27 0];
               [mk_delivery 20 (mgmt_packet x07) 27 0;
                mk_delivery 21 (mgmt_packet x07) 27 0]]
    /\ (trace_received w' = 0 \/ 200 <= trace_received w')
    /\ Forall2 (fun ev out =>
                  remote_trace_req readers ev ->
                  out = [] \/ kept_local writers ev out)
               frequent_arrivals outs.
Proof.
  eexists. eexists. split; [vm_compute; reflexivity|].
  split; [reflexivity|].
  eapply (trace_suppression_persists library_ok readers writers 30 200
            frequent_arrivals (start 0 quiet)).
  - left. reflexivity.
  - repeat constructor; vm_compute; congruence.
  - vm_compute. reflexivity.
Defined.

(** X15 on the run [interrupted_arrivals]: the read that fails comes
    after one packet was forwarded. *)
Lemma failed_read_witness :
  main_loop_while readers writers 30
    ([Message data_packet 12 100 5]
     ++ Failure (-1) 12 :: [Message data_packet 10 100 6])
    (start 0 quiet) = Exit 1.
Proof.
  eapply (failed_read_exits_with_status_1 readers writers 30
            [Message data_packet 12 100 5] [Message data_packet 10 100 6]
            (Failure (-1) 12) (start 0 quiet)).
  - vm_compute. reflexivity.
  - exact I.
Defined.

(** X16 on the same run. *)
Lemma a_run_ends_witness :
  exists status,
    main_loop_while readers writers 30 interrupted_arrivals (start 0 quiet)
    = Exit status
    /\ status = 1
    /\ Exists read_failed interrupted_arrivals.
Proof.
  exists 1. split; [vm_compute; reflexivity|].
  apply (a_run_ends_only_on_a_failed_read readers writers 30
           interrupted_arrivals (start 0 quiet) 1).
  vm_compute. reflexivity.
Defined.

(** X17: a turn at the clock 5 when the next update is due at 3; the
    scripted update_social answers with its argument, 30. *)
Lemma social_table_reload_witness :
  exists outs w',
    main_loop_body readers writers 30 (Message data_packet 12 100 5)
                   (with_next_update 3 (start 0 quiet)) = Done outs w'
    /\ exists p w1,
         process_packet 28 false
           (arrived data_packet 100 5 (with_next_update 3 (start 0 quiet)))
         = Done p w1
         /\ now w' = 5
         /\ (next_update w', lib w') = update_social 30 (lib w1).
Proof.
  eexists. eexists. split; [vm_compute; reflexivity|].
  eapply (social_table_is_reloaded_only_when_due readers writers 30
            data_packet 12 100 5 (with_next_update 3 (start 0 quiet))).
  vm_compute. reflexivity.
Defined.

(** X18 on the command line [ad 4 10 20 11 21 12 22 13 23]. *)
Lemma main_runs_main_loop_witness :
  exists read_pipes write_pipes read_table write_table,
    main atoi plenty command_line
    = Runs_main_loop read_pipes 4 write_pipes 4 30 30000 5
    /\ table_of read_pipes = Some read_table
    /\ table_of write_pipes = Some write_table
    /\ npipes read_table = 4
    /\ npipes write_table = 4
    /\ forall i, 0 <= i < 4 ->
         read_pipes !! Z.to_nat i = atoi <$> arg command_line (2 + 2 * i)
         /\ write_pipes !! Z.to_nat i
            = atoi <$> arg command_line (2 + 2 * i + 1).
Proof.
  apply (main_runs_main_loop_on_its_pipes atoi plenty command_line 4).
  - vm_compute. congruence.
  - reflexivity.
  - lia.
  - reflexivity.
  - reflexivity.
Defined.

(** X19 on the command line [ad 2]. *)
Lemma main_returns_minus_one_witness :
  exists status printed,
    main atoi plenty short_command_line = Returns status printed
    /\ status = -1
    /\ printed <> need_three_pairs
    /\ refused_for atoi plenty short_command_line printed.
Proof.
  exists (-1), (too_few_pipes 2). split; [reflexivity|].
  apply (main_returns_minus_one_with_its_reason atoi plenty
           short_command_line).
  reflexivity.
Defined.

(** X20 on the command line [ad 2000000000]. *)
Lemma main_is_undefined_witness :
  main atoi plenty huge_command_line = Startup_undefined
  <-> exists n, atoi <$> arg huge_command_line 1 = Some n
                /\ INT_MAX < 2 * n + 2.
Proof.
  apply (main_is_undefined_only_by_overflow atoi plenty huge_command_line).
  - vm_compute. congruence.
  - repeat constructor; vm_compute; congruence.
Defined.
